(** * Telemetry packet codec of the CU-InSpace ground station

    A shallow embedding of [packets.py]: the conversion tables, the numeric
    primitives ([hex_str_to_int], [hex_to_bin], [signed_hex_str_to_int],
    [signed_bin_str_to_int]) and the packet decoders built on them, followed
    by the properties of the decoders.

    Conventions of the embedding.
    - A Python [str] is a [list ascii]; [s[a:b]] is [slice a b s], [s[a:]] is
      [drop a s], [s[i]] is [getitem s i] (raising [IndexError] out of range).
    - A Python [int] is a [Z].  A Python float is the rational it denotes
      ([Q], kept in lowest terms by [Qred]); neither the rounding nor the range
      of binary64 is modelled.
    - A function that may raise returns a [result]; the exception carries the
      class and, for [ValueError], the message.
    - Objects assembled by setters are records of optional attributes, passed
      from one setter to the next. *)

From Stdlib Require Import ZArith QArith Qround Qpower Ascii String List Sorted Lia.
From stdpp Require Import gmap list pretty.

Local Open Scope Z_scope.

(** ** Python values and exceptions *)

Abbreviation str := (list ascii).

(** String literals. *)
Abbreviation L := list_ascii_of_string.

Inductive exn : Type :=
| ValueError (msg : string)
| KeyError (key : str)
| IndexError
| TypeError
| AttributeError.

Inductive result (A : Type) : Type :=
| Ok (a : A)
| Raise (e : exn).

Arguments Ok {A} a.
Arguments Raise {A} e.

(** Sequencing: the first exception raised ends the computation. *)
#[global] Instance result_ret : MRet result := @Ok.
#[global] Instance result_bind : MBind result := fun A B k m =>
  match m with
  | Ok a => k a
  | Raise e => Raise e
  end.

Definition is_ok {A : Type} (m : result A) : Prop := exists a, m = Ok a.

(** [s[a:b]] for non-negative [a], [b]. *)
Definition slice {A : Type} (a b : nat) (s : list A) : list A :=
  take (b - a)%nat (drop a s).

(** [s[i]] for a non-negative [i]. *)
Definition getitem {A : Type} (s : list A) (i : nat) : result A :=
  match s !! i with
  | Some c => Ok c
  | None => Raise IndexError
  end.

(** [d[k]] on a dictionary given by its items, as the literal lists them. *)
Fixpoint dict_get {V : Type} (d : list (str * V)) (k : str) : result V :=
  match d with
  | [] => Raise (KeyError k)
  | (k', v) :: d' => if decide (k' = k) then Ok v else dict_get d' k
  end.

(** *** The builtins [int(s, base)], [hex] and [bin]

    [int] is modelled on the literals the decoders build: an optional base
    prefix ([0x]/[0X] for base 16, [0b]/[0B] for base 2) followed by at least
    one digit.  Python also accepts surrounding white space, a sign and single
    underscores between digits; on those the model raises, so statements about
    successful decoding below are made for payloads of hexadecimal digits. *)

Definition digit_val (c : ascii) : option Z :=
  let n := Z.of_N (N_of_ascii c) in
  if (48 <=? n) && (n <=? 57) then Some (n - 48)
  else if (97 <=? n) && (n <=? 122) then Some (n - 87)
  else if (65 <=? n) && (n <=? 90) then Some (n - 55)
  else None.

Definition invalid_literal : exn := ValueError "invalid literal for int()".

Fixpoint int_digits (base acc : Z) (s : str) : result Z :=
  match s with
  | [] => Ok acc
  | c :: s' =>
      match digit_val c with
      | Some d => if d <? base then int_digits base (acc * base + d) s'
                  else Raise invalid_literal
      | None => Raise invalid_literal
      end
  end.

Definition strip_prefix (base : Z) (s : str) : str :=
  match s with
  | z :: p :: s' =>
      if decide (z = "0"%char) then
        if (base =? 16) && (bool_decide (p = "x"%char) || bool_decide (p = "X"%char))
        then s'
        else if (base =? 2) && (bool_decide (p = "b"%char) || bool_decide (p = "B"%char))
        then s'
        else s
      else s
  | _ => s
  end.

Definition int_ (s : str) (base : Z) : result Z :=
  match strip_prefix base s with
  | [] => Raise invalid_literal
  | body => int_digits base 0 body
  end.

(** Binary digits of a positive number, most significant first. *)
Fixpoint bin_pos (p : positive) : str :=
  match p with
  | xH => ["1"%char]
  | xO q => bin_pos q ++ ["0"%char]
  | xI q => bin_pos q ++ ["1"%char]
  end.

(** [bin(n)]. *)
Definition bin (n : Z) : str :=
  match n with
  | Z0 => L "0b0"
  | Zpos p => L "0b" ++ bin_pos p
  | Zneg p => L "-0b" ++ bin_pos p
  end.

Definition hex_char (d : Z) : ascii :=
  if d <? 10 then ascii_of_N (Z.to_N (d + 48)) else ascii_of_N (Z.to_N (d + 87)).

(** Hexadecimal digits of a non-negative number, most significant first;
    [fuel] bounds the number of digits. *)
Fixpoint hex_digits (fuel : nat) (n : Z) : str :=
  match fuel with
  | O => []
  | S fuel' =>
      (if n <? 16 then [] else hex_digits fuel' (n / 16)) ++ [hex_char (n mod 16)]
  end.

(** [hex(n)]: lower-case digits, no leading zero. *)
Definition hex (n : Z) : str :=
  match n with
  | Z0 => L "0x0"
  | Zpos p => L "0x" ++ hex_digits (Pos.size_nat p) n
  | Zneg p => L "-0x" ++ hex_digits (Pos.size_nat p) (Zpos p)
  end.

(** ** Conversion tables *)

Definition hex_bin_dic : list (str * str) :=
  [ (L "0", L "0000"); (L "1", L "0001"); (L "2", L "0010"); (L "3", L "0011");
    (L "4", L "0100"); (L "5", L "0101"); (L "6", L "0110"); (L "7", L "0111");
    (L "8", L "1000"); (L "9", L "1001"); (L "A", L "1010"); (L "B", L "1011");
    (L "C", L "1100"); (L "D", L "1101"); (L "E", L "1110"); (L "F", L "1111");
    (L "a", L "1010"); (L "b", L "1011"); (L "c", L "1100"); (L "d", L "1101");
    (L "e", L "1110"); (L "f", L "1111") ].

Definition kx134_1211_dic : list (str * Q) :=
  [ (L "0x0", 781 # 1000); (L "0x1", 1563 # 1000); (L "0x2", 3125 # 1000);
    (L "0x3", 625 # 100); (L "0x4", 125 # 10); (L "0x5", 25 # 1);
    (L "0x6", 50 # 1); (L "0x7", 100 # 1); (L "0x8", 200 # 1);
    (L "0x9", 400 # 1); (L "0xA", 800 # 1); (L "0xB", 1600 # 1);
    (L "0xC", 3200 # 1); (L "0xD", 6400 # 1); (L "0xE", 12800 # 1);
    (L "0xF", 25600 # 1); (L "0xa", 800 # 1); (L "0xb", 1600 # 1);
    (L "0xc", 3200 # 1); (L "0xd", 6400 # 1); (L "0xe", 12800 # 1);
    (L "0xf", 25600 # 1) ]%Q.

(** ** Conversion functions *)

Definition hex_str_to_int (hex_string : str) : result Z :=
  int_ hex_string 16.

Definition bin_to_hex (bin_string : str) : result str :=
  n ← int_ bin_string 2; Ok (hex n).

(** The loop of [hex_to_bin]: one table lookup per character. *)
Fixpoint hex_to_bin_loop (converted_string : str) (hex_string : str) : result str :=
  match hex_string with
  | [] => Ok converted_string
  | char :: rest =>
      b ← dict_get hex_bin_dic [char];
      hex_to_bin_loop (converted_string ++ b) rest
  end.

Definition hex_to_bin (hex_string : str) : result str :=
  let hex_string :=
    if decide (slice 0 2 hex_string = L "0x") then drop 2 hex_string else hex_string in
  hex_to_bin_loop [] hex_string.

Definition signed_hex_str_to_int (hex_string : str) : result Z :=
  bin_input ← hex_to_bin hex_string;
  b0 ← getitem bin_input 0;
  if decide (b0 = "1"%char) then
    v ← int_ (drop 1 bin_input) 2;
    Ok (v - 2 ^ (Z.of_nat (length bin_input) - 1))
  else
    int_ (drop 1 bin_input) 2.

Definition signed_bin_str_to_int (bin_string : str) : result Z :=
  n ← int_ bin_string 2;
  signed_hex_str_to_int (hex n).

(** Python's [a / b] on numbers with [b] non-zero, and [2 ** k], [a // b]. *)
Definition truediv (a b : Q) : Q := Qred (a / b).
Definition pow2 (k : Z) : Q := Qpower 2 k.
Definition floordiv (a : Z) (b : Q) : Z := Qfloor (inject_Z a / b).

(** [for x in l: s = body(s, x)], stopping at the first exception. *)
Fixpoint for_each {S A : Type} (body : S -> A -> result S) (s : S) (l : list A)
  : result S :=
  match l with
  | [] => Ok s
  | x :: l' => s' ← body s x; for_each body s' l'
  end.

(** [range(n)] and [range(0, stop, step)] for a positive [step]; the fuel of
    [range_from] is the number of elements. *)
Definition range (n : nat) : list nat := seq 0 n.

Fixpoint range_from (fuel : nat) (i step : Z) : list Z :=
  match fuel with
  | O => []
  | S fuel' => i :: range_from fuel' (i + step) step
  end.

Definition range_step (stop step : Z) : list Z :=
  range_from (Z.to_nat ((stop + step - 1) / step)) 0 step.

(** ** Packet classes *)

Module AltitudeData.

Record t : Type := mk {
  _time : option Z;
  _pressure : option Q;
  _temperature : option Q;
  _altitude : option Q
}.

Definition init : t := mk None None None None.

Definition convert_raw (raw_data : str) : result Z :=
  if decide (length raw_data ≠ 8%nat) then
    Raise (ValueError "Hexadecimal strings must contain 8 hexadecimal characters.")
  else hex_str_to_int raw_data.

Definition set_time (raw_time : str) (self : t) : result t :=
  v ← convert_raw raw_time;
  Ok (mk (Some v) (_pressure self) (_temperature self) (_altitude self)).

Definition set_pressure (raw_pressure : str) (self : t) : result t :=
  v ← convert_raw raw_pressure;
  Ok (mk (_time self) (Some (truediv (inject_Z v) 1000)) (_temperature self)
         (_altitude self)).

Definition set_temperature (raw_temperature : str) (self : t) : result t :=
  v ← convert_raw raw_temperature;
  Ok (mk (_time self) (_pressure self) (Some (truediv (inject_Z v) 1000))
         (_altitude self)).

Definition set_altitude (raw_altitude : str) (self : t) : result t :=
  v ← convert_raw raw_altitude;
  Ok (mk (_time self) (_pressure self) (_temperature self)
         (Some (truediv (inject_Z v) 1000))).

Definition create_from_raw (raw_data : str) : result t :=
  let packet := init in
  packet ← set_time (slice 0 8 raw_data) packet;
  packet ← set_pressure (slice 8 16 raw_data) packet;
  packet ← set_temperature (slice 16 24 raw_data) packet;
  packet ← set_altitude (slice 24 32 raw_data) packet;
  Ok packet.

End AltitudeData.

Module AccelerationData.

Record t : Type := mk {
  resolution : Z;
  _time : option Z;
  _fsr : option Z;
  _x_axis : option Q;
  _y_axis : option Q;
  _z_axis : option Q
}.

Definition init (resolution : Z) : t := mk resolution None None None None None.

(** The getter read by the axis setters. *)
Definition fsr (self : t) : result Z :=
  match _fsr self with
  | Some v => Ok v
  | None => Raise AttributeError
  end.

Definition convert_raw (raw_data : str) (hex_length : nat) : result Z :=
  if decide (length raw_data ≠ hex_length) then
    Raise (ValueError ("Hexadecimal string must be of length "
                         +:+ pretty hex_length +:+ "."))
  else hex_str_to_int raw_data.

Definition set_time (raw_time : str) (self : t) : result t :=
  v ← convert_raw raw_time 8;
  Ok (mk (resolution self) (Some v) (_fsr self) (_x_axis self) (_y_axis self)
         (_z_axis self)).

Definition set_fsr (raw_fsr : str) (self : t) : result t :=
  let adjustment_factor := 16 - resolution self + 1 in
  unadjusted_fsr ← convert_raw raw_fsr 4;
  Ok (mk (resolution self) (_time self)
         (Some (floordiv unadjusted_fsr (pow2 adjustment_factor)))
         (_x_axis self) (_y_axis self) (_z_axis self)).

Definition axis_value (raw_axis : str) (self : t) : result Q :=
  v ← convert_raw raw_axis 4;
  f ← fsr self;
  Ok (truediv (inject_Z (v * f)) (pow2 15)).

Definition set_x_axis (raw_x_axis : str) (self : t) : result t :=
  a ← axis_value raw_x_axis self;
  Ok (mk (resolution self) (_time self) (_fsr self) (Some a) (_y_axis self)
         (_z_axis self)).

Definition set_y_axis (raw_y_axis : str) (self : t) : result t :=
  a ← axis_value raw_y_axis self;
  Ok (mk (resolution self) (_time self) (_fsr self) (_x_axis self) (Some a)
         (_z_axis self)).

Definition set_z_axis (raw_z_axis : str) (self : t) : result t :=
  a ← axis_value raw_z_axis self;
  Ok (mk (resolution self) (_time self) (_fsr self) (_x_axis self) (_y_axis self)
         (Some a)).

Definition create_from_raw (raw_data : str) (resolution : Z) : result t :=
  let packet := init resolution in
  packet ← set_time (slice 0 8 raw_data) packet;
  packet ← set_fsr (slice 8 12 raw_data) packet;
  packet ← set_x_axis (slice 12 16 raw_data) packet;
  packet ← set_y_axis (slice 16 20 raw_data) packet;
  packet ← set_z_axis (slice 20 24 raw_data) packet;
  Ok packet.

End AccelerationData.

Module AngularVelocityData.

Record t : Type := mk {
  time_stamp : option Z;
  fsr : option Z;
  x_velocity : option Q;
  y_velocity : option Q;
  z_velocity : option Q
}.

Definition set_time (raw : str) (self : t) : result t :=
  v ← hex_str_to_int (slice 0 8 raw);
  Ok (mk (Some v) (fsr self) (x_velocity self) (y_velocity self) (z_velocity self)).

Definition set_fsr (raw : str) (resolution : Z) (self : t) : result t :=
  unadjusted_fsr ← hex_str_to_int (slice 8 12 raw);
  let adjustment_factor := 16 - (resolution + 1) in
  Ok (mk (time_stamp self) (Some (floordiv unadjusted_fsr (pow2 adjustment_factor)))
         (x_velocity self) (y_velocity self) (z_velocity self)).

(** [measurement * (self.fsr / (2 ** 15))]; dividing [None] is a
    [TypeError]. *)
Definition velocity (measurement : Z) (self : t) : result Q :=
  match fsr self with
  | Some f => Ok (Qred (inject_Z measurement * truediv (inject_Z f) (pow2 15)))
  | None => Raise TypeError
  end.

Definition set_x_velocity (raw : str) (resolution : Z) (self : t) : result t :=
  measurement ← hex_str_to_int (slice 12 16 raw);
  v ← velocity measurement self;
  Ok (mk (time_stamp self) (fsr self) (Some v) (y_velocity self) (z_velocity self)).

Definition set_y_velocity (raw : str) (resolution : Z) (self : t) : result t :=
  measurement ← hex_str_to_int (slice 16 20 raw);
  v ← velocity measurement self;
  Ok (mk (time_stamp self) (fsr self) (x_velocity self) (Some v) (z_velocity self)).

Definition set_z_velocity (raw : str) (resolution : Z) (self : t) : result t :=
  measurement ← hex_str_to_int (slice 20 24 raw);
  v ← velocity measurement self;
  Ok (mk (time_stamp self) (fsr self) (x_velocity self) (y_velocity self) (Some v)).

(** [__init__]. *)
Definition init (raw : str) (resolution : Z) : result t :=
  let self := mk None None None None None in
  self ← set_time raw self;
  self ← set_fsr raw resolution self;
  self ← set_x_velocity raw resolution self;
  self ← set_y_velocity raw resolution self;
  self ← set_z_velocity raw resolution self;
  Ok self.

End AngularVelocityData.

Module GNSSMetaData.

Module Info.

Record t : Type := mk {
  elevation : Z;
  SNR : Z;
  ID : Z;
  azimuth : Z;
  type : string
}.

Definition setup (raw : str) : result t :=
  elevation ← int_ (slice 0 8 raw) 2;
  SNR ← int_ (slice 8 16 raw) 2;
  ID ← int_ (slice 16 21 raw) 2;
  azimuth ← int_ (slice 21 30 raw) 2;
  type_bit ← getitem raw 31;
  if decide (type_bit = "1"%char) then Ok (mk elevation SNR ID azimuth "GLONASS")
  else Ok (mk elevation SNR ID azimuth "GPS").

End Info.

Record t : Type := mk {
  mission_time : Z;
  gps_sats_in_use : list Z;
  glonass_sats_in_use : list Z;
  sat_info : gmap Z Info.t
}.

(** One round of the loop over the two bitmaps; the state is the pair of
    lists being appended to. *)
Definition sats_step (bin_GPS_sats_in_use bin_GLONASS_sats_in_use : str)
    (st : list Z * list Z) (i : nat) : result (list Z * list Z) :=
  g ← getitem bin_GPS_sats_in_use i;
  let gps := if decide (g = "1"%char) then st.1 ++ [Z.of_nat i + 1] else st.1 in
  r ← getitem bin_GLONASS_sats_in_use i;
  let glonass := if decide (r = "1"%char) then st.2 ++ [Z.of_nat i + 1] else st.2 in
  Ok (gps, glonass).

(** One round of the loop over the satellite records; the state is the
    dictionary. *)
Definition info_step (sat_info : str) (d : gmap Z Info.t) (i : nat)
  : result (gmap Z Info.t) :=
  meta_data ← Info.setup (slice (i * 32) (i * 32 + 32) sat_info);
  Ok (<[Info.ID meta_data := meta_data]> d).

Definition setup (raw : str) : result t :=
  mission_time ← hex_str_to_int (slice 0 8 raw);
  n ← int_ raw 16;
  let bin_raw := bin n in
  let bin_GPS_sats_in_use := slice 34 66 bin_raw in
  let bin_GLONASS_sats_in_use := slice 66 98 bin_raw in
  sats ← for_each (sats_step bin_GPS_sats_in_use bin_GLONASS_sats_in_use)
                   ([], []) (range 32);
  let sat_info := drop 98 bin_raw in
  let num_sats := (length sat_info / 32)%nat in
  d ← for_each (info_step sat_info) ∅ (range num_sats);
  Ok (mk mission_time sats.1 sats.2 d).

End GNSSMetaData.

Module GNSSLocationData.

Record t : Type := mk {
  fix_time : Z;
  latitude : Z;
  longitude : Z;
  utc_time : Z;
  altitude : Z;
  rocket_speed : Z;
  rocket_course : Z;
  pdop : Z;
  hdop : Z;
  vdop : Z;
  num_sats : Z;
  fix_type : string
}.

(** The [if]/[elif] chain on the fix type. *)
Definition fix_type_name (fix_type : Z) : string :=
  if fix_type =? 0 then "unknown"
  else if fix_type =? 1 then "not available"
  else if fix_type =? 2 then "2D fix"
  else if fix_type =? 3 then "3D fix"
  else "error".

Definition setup (raw : str) : result t :=
  fix_time ← hex_str_to_int (slice 0 8 raw);
  latitude ← signed_hex_str_to_int (slice 8 16 raw);
  longitude ← signed_hex_str_to_int (slice 16 24 raw);
  utc_time ← hex_str_to_int (slice 24 32 raw);
  altitude ← hex_str_to_int (slice 32 40 raw);
  rocket_speed ← signed_hex_str_to_int (slice 40 44 raw);
  rocket_course ← signed_hex_str_to_int (slice 44 48 raw);
  pdop ← hex_str_to_int (slice 48 52 raw);
  hdop ← hex_str_to_int (slice 52 56 raw);
  vdop ← hex_str_to_int (slice 56 60 raw);
  num_sats ← hex_str_to_int (slice 60 62 raw);
  fix_type_temp ← hex_to_bin (drop 62 raw);
  let fix_type_temp := slice 2 4 fix_type_temp in
  fix_type ← int_ fix_type_temp 2;
  Ok (mk fix_time latitude longitude utc_time altitude rocket_speed rocket_course
         pdop hdop vdop num_sats (fix_type_name fix_type)).

End GNSSLocationData.

Module KX1341211Data.

Module Measurement.

Record t : Type := mk {
  x_accel : option Z;
  y_accel : option Z;
  z_accel : option Z
}.

Definition setup (raw : str) : result t :=
  if decide (length raw = 24%nat) then
    x ← signed_bin_str_to_int (slice 0 8 raw);
    y ← signed_bin_str_to_int (slice 8 16 raw);
    z ← signed_bin_str_to_int (slice 16 24 raw);
    Ok (mk (Some x) (Some y) (Some z))
  else if decide (length raw = 48%nat) then
    x ← int_ (slice 0 16 raw) 2;
    y ← int_ (slice 16 32 raw) 2;
    z ← int_ (slice 32 48 raw) 2;
    Ok (mk (Some x) (Some y) (Some z))
  else Ok (mk None None None).

End Measurement.

Record t : Type := mk {
  time_stamp : Z;
  data_rate : Q;
  full_scale_range : Z;
  corner_freq : option Q;
  measurements : list Measurement.t
}.

(** The [if]/[elif] chain on the full-scale-range code. *)
Definition full_scale_range_of (code : Z) : Z :=
  if code =? 0 then 8
  else if code =? 1 then 16
  else if code =? 2 then 32
  else if code =? 3 then 64
  else -1.

(** The local variables of [setup] when the sample loop is reached.
    [resolution] is [None] while the variable still holds the character read
    from the payload. *)
Record locals : Type := mk_locals {
  l_time_stamp : Z;
  l_data_rate : Q;
  l_full_scale_range : Z;
  l_corner_freq : option Q;
  resolution : option Z;
  padding : Z
}.

(** [setup] up to and including the computation of [padding]. *)
Definition setup_header (raw_bin : str) : result locals :=
  time_stamp ← int_ (slice 0 32 raw_bin) 2;
  code ← int_ (slice 32 36 raw_bin) 2;
  let data_rate := hex code in
  data_rate ← dict_get kx134_1211_dic data_rate;
  full_scale_range ← int_ (slice 36 38 raw_bin) 2;
  let full_scale_range := full_scale_range_of full_scale_range in
  corner_freq ← getitem raw_bin 38;
  let corner_freq :=
    if decide (corner_freq = "0"%char) then Some (truediv data_rate 9)
    else if decide (corner_freq = "1"%char) then Some (truediv data_rate 2)
    else None in
  resolution ← getitem raw_bin 39;
  let resolution :=
    if decide (resolution = "0"%char) then Some 8
    else if decide (resolution = "1"%char) then Some 16
    else None in
  padding ← int_ (slice 46 48 raw_bin) 2;
  let padding := padding * 8 in
  Ok (mk_locals time_stamp data_rate full_scale_range corner_freq resolution padding).

(** The rest of [setup]: chunking the samples and decoding each chunk.  A
    [resolution] that is still a string makes [range] raise. *)
Definition setup_measurements (raw_bin : str) (resolution : option Z) (padding : Z)
  : result (list Measurement.t) :=
  let accel_data := drop 48 raw_bin in
  match resolution with
  | None => Raise TypeError
  | Some resolution =>
      let chunk_size := resolution * 3 in
      let accel_data :=
        map (fun i => slice (Z.to_nat i) (Z.to_nat (i + chunk_size)) accel_data)
            (range_step (Z.of_nat (length accel_data) - padding) chunk_size) in
      for_each (fun ms data => m ← Measurement.setup data; Ok (ms ++ [m]))
               [] accel_data
  end.

Definition setup (raw : str) : result t :=
  raw_bin ← hex_to_bin raw;
  l ← setup_header raw_bin;
  ms ← setup_measurements raw_bin (resolution l) (padding l);
  Ok (mk (l_time_stamp l) (l_data_rate l) (l_full_scale_range l) (l_corner_freq l) ms).

End KX1341211Data.

Module MPU9250Data.

Module Measurement.

Record t : Type := mk {
  time_stamp : Z;
  accel_x : Z;
  accel_y : Z;
  accel_z : Z;
  temperature : Z;
  gyro_x : Z;
  gyro_y : Z;
  gyro_z : Z;
  mag_x : Z;
  mag_y : Z;
  mag_z : Z;
  mag_valid : Z;
  mag_resolution : Z
}.

(** [__init__]. *)
Definition init (raw_bin : str) : result t :=
  time_stamp ← int_ (slice 0 32 raw_bin) 2;
  accel_x ← int_ (slice 32 48 raw_bin) 2;
  accel_y ← int_ (slice 48 64 raw_bin) 2;
  accel_z ← int_ (slice 64 80 raw_bin) 2;
  temperature ← int_ (slice 80 96 raw_bin) 2;
  gyro_x ← int_ (slice 96 112 raw_bin) 2;
  gyro_y ← int_ (slice 112 128 raw_bin) 2;
  gyro_z ← int_ (slice 128 144 raw_bin) 2;
  mag_x ← int_ (slice 144 160 raw_bin) 2;
  mag_y ← int_ (slice 160 176 raw_bin) 2;
  mag_z ← int_ (slice 176 192 raw_bin) 2;
  c ← getitem raw_bin 195;
  mag_valid ← int_ [c] 2;
  c ← getitem raw_bin 196;
  mag_resolution ← int_ [c] 2;
  Ok (mk time_stamp accel_x accel_y accel_z temperature gyro_x gyro_y gyro_z
         mag_x mag_y mag_z mag_valid mag_resolution).

End Measurement.

(** The attributes [setup] never assigns keep the [None] of [__init__]. *)
Record t : Type := mk {
  time_stamp : Z;
  ag_sample_rate : Z;
  accelerometer_fsr : Z;
  gyroscope_fsr : option Z;
  accelerometer_bw : option Z;
  gyroscope_bw : option Z
}.

Definition setup (raw : str) : result t :=
  time_stamp ← hex_str_to_int (slice 0 8 raw);
  ag_sample_rate ← hex_str_to_int (slice 8 10 raw);
  raw_bin ← hex_to_bin raw;
  raw_a_fsr ← int_ (slice 39 41 raw_bin) 2;
  Ok (mk time_stamp ag_sample_rate (2 ^ (raw_a_fsr + 1)) None None None).

End MPU9250Data.

(** ** Vocabulary of the specification *)

Definition is_bit (c : ascii) : bool :=
  bool_decide (c = "0"%char) || bool_decide (c = "1"%char).

Definition is_hex (c : ascii) : bool :=
  match digit_val c with
  | Some d => d <? 16
  | None => false
  end.

(** Strings of binary, respectively hexadecimal, digits. *)
Definition bitstring (s : str) : bool := forallb is_bit s.
Definition hexstring (s : str) : bool := forallb is_hex s.

Definition bit_val (c : ascii) : Z := if decide (c = "1"%char) then 1 else 0.
Definition nibble (c : ascii) : Z := default 0 (digit_val c).

(** Base-2 and base-16 value, most significant digit first. *)
Definition unsigned (bits : str) : Z := foldl (fun acc c => 2 * acc + bit_val c) 0 bits.
Definition unsigned_hex (h : str) : Z := foldl (fun acc c => 16 * acc + nibble c) 0 h.

Definition bit_char (b : bool) : ascii := if b then "1"%char else "0"%char.

(** The four bits of a hexadecimal digit, and the bitstring of a payload:
    four bits per digit, in input order. *)
Definition nibble_bits (c : ascii) : str :=
  let d := nibble c in
  [bit_char (Z.testbit d 3); bit_char (Z.testbit d 2);
   bit_char (Z.testbit d 1); bit_char (Z.testbit d 0)].

Definition bits_of_hex (h : str) : str := flat_map nibble_bits h.

(** Two's complement over the exact width of [bits], in the words of the
    specification. *)
Definition signed_from_bits (bits : str) : Z :=
  if decide (bits !! 0%nat = Some "1"%char)
  then unsigned (drop 1 bits) - 2 ^ (Z.of_nat (length bits) - 1)
  else unsigned (drop 1 bits).

(** The [w]-bit two's-complement encoding of [v], most significant bit
    first. *)
Definition bits_of (v : Z) (w : nat) : str :=
  map (fun i => bit_char (Z.testbit v (Z.of_nat (w - 1 - i)))) (seq 0 w).

(** The value of the [w]-bit pattern [v], [0 <= v < 2^w], in two's
    complement. *)
Definition twos_complement (w : Z) (v : Z) : Z :=
  if v <? 2 ^ (w - 1) then v else v - 2 ^ w.

(** *** KX134 samples *)

(** The data rates in Hz, by code. *)
Definition data_rate_table : list Q :=
  [ 781 # 1000; 1563 # 1000; 3125 # 1000; 625 # 100; 125 # 10; 25 # 1; 50 # 1;
    100 # 1; 200 # 1; 400 # 1; 800 # 1; 1600 # 1; 3200 # 1; 6400 # 1; 12800 # 1;
    25600 # 1 ]%Q.

Definition data_rate_of (code : Z) : Q := nth (Z.to_nat code) data_rate_table 0%Q.

(** Header fields read off the bitstring of the payload. *)
Definition kx_resolution (bits : str) : nat :=
  if decide (bits !! 39%nat = Some "0"%char) then 8%nat else 16%nat.

Definition kx_padding (bits : str) : nat :=
  Z.to_nat (unsigned (slice 46 48 bits) * 8).

(** What [signed_bin_str_to_int] returns on the 8-bit pattern [v]: two's
    complement over 8 bits, except on the patterns 8..15, which [hex] writes
    with one digit. *)
Definition decoded_byte (v : Z) : Z :=
  if (8 <=? v) && (v <? 16) then v - 16 else twos_complement 8 v.

(** The measurement built from one chunk, by the length of the chunk. *)
Definition measurement_of (data : str) : KX1341211Data.Measurement.t :=
  if decide (length data = 24%nat) then
    KX1341211Data.Measurement.mk
      (Some (decoded_byte (unsigned (slice 0 8 data))))
      (Some (decoded_byte (unsigned (slice 8 16 data))))
      (Some (decoded_byte (unsigned (slice 16 24 data))))
  else if decide (length data = 48%nat) then
    KX1341211Data.Measurement.mk
      (Some (unsigned (slice 0 16 data)))
      (Some (unsigned (slice 16 32 data)))
      (Some (unsigned (slice 32 48 data)))
  else KX1341211Data.Measurement.mk None None None.

(** The chunks the sample loop runs over: one per offset of
    [range(0, len(accel_data) - padding, chunk_size)], cut from the data
    after bit 48. *)
Definition kx_chunks (bits : str) : list str :=
  let accel_data := drop 48 bits in
  let chunk_size := Z.of_nat (kx_resolution bits) * 3 in
  map (fun i => slice (Z.to_nat i) (Z.to_nat (i + chunk_size)) accel_data)
      (range_step (Z.of_nat (length accel_data) - Z.of_nat (kx_padding bits)) chunk_size).

(** The measurement sequence in the words of the specification: bits 48 to
    the end without the trailing padding, cut into whole chunks of
    [3 * resolution] bits, each split into three sub-chunks, signed at
    resolution 8 and unsigned at resolution 16. *)
Definition spec_measurement (resolution : nat) (chunk : str)
  : KX1341211Data.Measurement.t :=
  let dec := if decide (resolution = 8%nat) then signed_from_bits else unsigned in
  KX1341211Data.Measurement.mk
    (Some (dec (slice 0 resolution chunk)))
    (Some (dec (slice resolution (2 * resolution) chunk)))
    (Some (dec (slice (2 * resolution) (3 * resolution) chunk))).

Definition spec_region (bits : str) : str :=
  let accel_data := drop 48 bits in
  take (length accel_data - kx_padding bits) accel_data.

Definition spec_measurements (bits : str) : list KX1341211Data.Measurement.t :=
  let resolution := kx_resolution bits in
  let chunk_size := (3 * resolution)%nat in
  let region := spec_region bits in
  map (fun k => spec_measurement resolution
                  (slice (k * chunk_size) (k * chunk_size + chunk_size) region))
      (seq 0 (length region / chunk_size)).

(** *** GNSS metadata *)

(** The satellites of a 32-slot bitmap: bit [i] set means satellite [i + 1]. *)
Definition sats_of_bitmap (bitmap : str) : list Z :=
  flat_map (fun i => if decide (bitmap !! i = Some "1"%char)
                     then [Z.of_nat i + 1] else [])
           (seq 0 32).

(** The record of one 32-bit window. *)
Definition info_of_window (w : str) : GNSSMetaData.Info.t :=
  GNSSMetaData.Info.mk
    (unsigned (slice 0 8 w)) (unsigned (slice 8 16 w)) (unsigned (slice 16 21 w))
    (unsigned (slice 21 30 w))
    (if decide (w !! 31%nat = Some "1"%char) then "GLONASS" else "GPS")%string.

(** The consecutive whole 32-bit windows of [bits] from bit [start] on. *)
Definition sat_windows (start : nat) (bits : str) : list str :=
  map (fun i => slice (start + i * 32) (start + i * 32 + 32) bits)
      (seq 0 ((length bits - start) / 32)).

(** The last record carrying the identifier [key], if any. *)
Definition last_with_id (key : Z) (infos : list GNSSMetaData.Info.t)
  : option GNSSMetaData.Info.t :=
  last (List.filter (fun m => GNSSMetaData.Info.ID m =? key) infos).

(** A measurement with its three values, each from [lo] up to [hi]. *)
Definition axes_within (lo hi : Z) (m : KX1341211Data.Measurement.t) : Prop :=
  exists x y z,
    m = KX1341211Data.Measurement.mk (Some x) (Some y) (Some z)
    /\ lo <= x < hi /\ lo <= y < hi /\ lo <= z < hi.

(** The message of the length check of [AccelerationData]. *)
Definition length_message (hex_length : nat) : string :=
  "Hexadecimal string must be of length " +:+ pretty hex_length +:+ ".".

(** ** The numeric primitives *)

Section Primitives.

Lemma bind_ok {A B : Type} (m : result A) (k : A -> result B) (b : B) :
  m ≫= k = Ok b <-> exists a, m = Ok a /\ k a = Ok b.
Proof.
  destruct m as [a|e]; simpl; split.
  - eauto.
  - intros (a' & [= <-] & H); exact H.
  - discriminate.
  - intros (a' & [=] & _).
Qed.

Lemma is_bit_cases (c : ascii) :
  is_bit c = true -> c = "0"%char \/ c = "1"%char.
Proof.
  unfold is_bit. rewrite orb_true_iff, !bool_decide_eq_true. tauto.
Qed.

Lemma hex_bin_dic_hex (c : ascii) :
  is_hex c = true -> dict_get hex_bin_dic [c] = Ok (nibble_bits c).
Proof.
  destruct c as [[] [] [] [] [] [] [] []]; vm_compute; first [discriminate | reflexivity].
Qed.

Lemma hex_bin_dic_other (c : ascii) :
  is_hex c = false -> dict_get hex_bin_dic [c] = Raise (KeyError [c]).
Proof.
  destruct c as [[] [] [] [] [] [] [] []]; vm_compute; first [discriminate | reflexivity].
Qed.

Lemma is_hex_digit_val (c : ascii) :
  is_hex c = true -> digit_val c = Some (nibble c) /\ 0 <= nibble c < 16.
Proof.
  destruct c as [[] [] [] [] [] [] [] []]; vm_compute; first [discriminate | intuition congruence].
Qed.

Lemma is_bit_digit_val (c : ascii) :
  is_bit c = true -> digit_val c = Some (bit_val c) /\ 0 <= bit_val c < 2.
Proof.
  intros [-> | ->]%is_bit_cases; vm_compute; intuition congruence.
Qed.

Lemma nibble_bits_bitstring (c : ascii) : bitstring (nibble_bits c) = true.
Proof.
  unfold nibble_bits, bitstring.
  generalize (nibble c); intros d; cbn [forallb].
  destruct (Z.testbit d 3), (Z.testbit d 2), (Z.testbit d 1), (Z.testbit d 0);
    reflexivity.
Qed.

Lemma nibble_bits_unsigned (c : ascii) :
  is_hex c = true -> unsigned (nibble_bits c) = nibble c.
Proof.
  destruct c as [[] [] [] [] [] [] [] []]; vm_compute; first [discriminate | reflexivity].
Qed.

Lemma bitstring_cons (c : ascii) (s : str) :
  bitstring (c :: s) = true <-> is_bit c = true /\ bitstring s = true.
Proof. unfold bitstring; simpl. apply andb_true_iff. Qed.

Lemma hexstring_cons (c : ascii) (s : str) :
  hexstring (c :: s) = true <-> is_hex c = true /\ hexstring s = true.
Proof. unfold hexstring; simpl. apply andb_true_iff. Qed.

Lemma bitstring_app (s1 s2 : str) :
  bitstring (s1 ++ s2) = true <-> bitstring s1 = true /\ bitstring s2 = true.
Proof. unfold bitstring. rewrite forallb_app. apply andb_true_iff. Qed.

Lemma hexstring_app (s1 s2 : str) :
  hexstring (s1 ++ s2) = true <-> hexstring s1 = true /\ hexstring s2 = true.
Proof. unfold hexstring. rewrite forallb_app. apply andb_true_iff. Qed.

Lemma forallb_take_drop {A : Type} (f : A -> bool) (n : nat) (s : list A) :
  forallb f s = true -> forallb f (take n s) = true /\ forallb f (drop n s) = true.
Proof.
  intros H. rewrite <- (take_drop n s), forallb_app in H.
  apply andb_true_iff in H. exact H.
Qed.

Lemma bitstring_slice (a b : nat) (s : str) :
  bitstring s = true -> bitstring (slice a b s) = true.
Proof.
  intros H. unfold slice.
  apply (forallb_take_drop is_bit (b - a)), (forallb_take_drop is_bit a), H.
Qed.

Lemma hexstring_slice (a b : nat) (s : str) :
  hexstring s = true -> hexstring (slice a b s) = true.
Proof.
  intros H. unfold slice.
  apply (forallb_take_drop is_hex (b - a)), (forallb_take_drop is_hex a), H.
Qed.

Lemma bitstring_drop (a : nat) (s : str) :
  bitstring s = true -> bitstring (drop a s) = true.
Proof. intros H. apply (forallb_take_drop is_bit a), H. Qed.

Lemma hexstring_drop (a : nat) (s : str) :
  hexstring s = true -> hexstring (drop a s) = true.
Proof. intros H. apply (forallb_take_drop is_hex a), H. Qed.

Lemma length_slice {A : Type} (a b : nat) (s : list A) :
  (b <= length s)%nat -> length (slice a b s) = (b - a)%nat.
Proof. intros H. unfold slice. rewrite length_take, length_drop. lia. Qed.

(** *** [int] on digit strings *)

Lemma int_digits_hex (s : str) (acc : Z) :
  hexstring s = true ->
  int_digits 16 acc s = Ok (foldl (fun acc c => 16 * acc + nibble c) acc s).
Proof.
  revert acc. induction s as [|c s IH]; intros acc H; [reflexivity|].
  apply hexstring_cons in H as [Hc Hs]. simpl.
  destruct (is_hex_digit_val c Hc) as [-> Hr].
  destruct (Z.ltb_spec (nibble c) 16); [|lia].
  rewrite IH by exact Hs. do 2 f_equal. lia.
Qed.

Lemma int_digits_bits (s : str) (acc : Z) :
  bitstring s = true ->
  int_digits 2 acc s = Ok (foldl (fun acc c => 2 * acc + bit_val c) acc s).
Proof.
  revert acc. induction s as [|c s IH]; intros acc H; [reflexivity|].
  apply bitstring_cons in H as [Hc Hs]. simpl.
  destruct (is_bit_digit_val c Hc) as [-> Hr].
  destruct (Z.ltb_spec (bit_val c) 2); [|lia].
  rewrite IH by exact Hs. do 2 f_equal. lia.
Qed.

Lemma strip_prefix_hex (s : str) :
  hexstring s = true -> strip_prefix 16 s = s.
Proof.
  destruct s as [|z [|p s]]; try reflexivity.
  intros H. apply hexstring_cons in H as [_ H]. apply hexstring_cons in H as [Hp _].
  unfold strip_prefix. destruct (decide (z = "0"%char)); [|reflexivity].
  destruct (bool_decide_reflect (p = "x"%char)) as [->|_]; [discriminate Hp|].
  destruct (bool_decide_reflect (p = "X"%char)) as [->|_]; [discriminate Hp|].
  reflexivity.
Qed.

Lemma strip_prefix_bits (s : str) :
  bitstring s = true -> strip_prefix 2 s = s.
Proof.
  destruct s as [|z [|p s]]; try reflexivity.
  intros H. apply bitstring_cons in H as [_ H]. apply bitstring_cons in H as [Hp _].
  unfold strip_prefix. destruct (decide (z = "0"%char)); [|reflexivity].
  destruct (bool_decide_reflect (p = "b"%char)) as [->|_]; [discriminate Hp|].
  destruct (bool_decide_reflect (p = "B"%char)) as [->|_]; [discriminate Hp|].
  reflexivity.
Qed.

Lemma int_hex (s : str) :
  hexstring s = true -> s <> [] -> int_ s 16 = Ok (unsigned_hex s).
Proof.
  intros H Hne. unfold int_. rewrite strip_prefix_hex by exact H.
  destruct s as [|c s]; [congruence|]. apply int_digits_hex, H.
Qed.

Lemma int_bits (s : str) :
  bitstring s = true -> s <> [] -> int_ s 2 = Ok (unsigned s).
Proof.
  intros H Hne. unfold int_. rewrite strip_prefix_bits by exact H.
  destruct s as [|c s]; [congruence|]. apply int_digits_bits, H.
Qed.

Lemma int_empty (base : Z) : int_ [] base = Raise invalid_literal.
Proof. reflexivity. Qed.

(** *** Values of digit strings *)

Lemma unsigned_acc (s : str) (acc : Z) :
  foldl (fun acc c => 2 * acc + bit_val c) acc s
  = acc * 2 ^ Z.of_nat (length s) + unsigned s.
Proof.
  unfold unsigned. revert acc. induction s as [|c s IH]; intros acc.
  - simpl. lia.
  - cbn [foldl length]. rewrite IH, (IH (2 * 0 + bit_val c)).
    rewrite Nat2Z.inj_succ, Z.pow_succ_r by lia. lia.
Qed.

Lemma unsigned_app (s1 s2 : str) :
  unsigned (s1 ++ s2) = unsigned s1 * 2 ^ Z.of_nat (length s2) + unsigned s2.
Proof. unfold unsigned at 1. rewrite foldl_app, unsigned_acc. reflexivity. Qed.

Lemma unsigned_cons (c : ascii) (s : str) :
  unsigned (c :: s) = bit_val c * 2 ^ Z.of_nat (length s) + unsigned s.
Proof. change (c :: s) with ([c] ++ s). rewrite unsigned_app. f_equal. Qed.

Lemma unsigned_hex_acc (s : str) (acc : Z) :
  foldl (fun acc c => 16 * acc + nibble c) acc s
  = acc * 16 ^ Z.of_nat (length s) + unsigned_hex s.
Proof.
  unfold unsigned_hex. revert acc. induction s as [|c s IH]; intros acc.
  - simpl. lia.
  - cbn [foldl length]. rewrite IH, (IH (16 * 0 + nibble c)).
    rewrite Nat2Z.inj_succ, Z.pow_succ_r by lia. lia.
Qed.

Lemma unsigned_hex_cons (c : ascii) (s : str) :
  unsigned_hex (c :: s) = nibble c * 16 ^ Z.of_nat (length s) + unsigned_hex s.
Proof.
  unfold unsigned_hex at 1. cbn [foldl]. rewrite unsigned_hex_acc. lia.
Qed.

Lemma unsigned_range (s : str) :
  bitstring s = true -> 0 <= unsigned s < 2 ^ Z.of_nat (length s).
Proof.
  induction s as [|c s IH]; intros H; [vm_compute; split; congruence|].
  apply bitstring_cons in H as [Hc Hs]. specialize (IH Hs).
  rewrite unsigned_cons. cbn [length]. rewrite Nat2Z.inj_succ, Z.pow_succ_r by lia.
  destruct (is_bit_digit_val c Hc) as [_ Hr]. nia.
Qed.

(** *** The bitstring of a payload *)

Lemma length_nibble_bits (c : ascii) : length (nibble_bits c) = 4%nat.
Proof. reflexivity. Qed.

Lemma bits_of_hex_cons (c : ascii) (s : str) :
  bits_of_hex (c :: s) = nibble_bits c ++ bits_of_hex s.
Proof. reflexivity. Qed.

Lemma bits_of_hex_app (s1 s2 : str) :
  bits_of_hex (s1 ++ s2) = bits_of_hex s1 ++ bits_of_hex s2.
Proof. apply flat_map_app. Qed.

Lemma length_bits_of_hex (s : str) : length (bits_of_hex s) = (4 * length s)%nat.
Proof.
  induction s as [|c s IH]; [reflexivity|].
  rewrite bits_of_hex_cons, length_app, IH, length_nibble_bits. simpl. lia.
Qed.

Lemma bitstring_bits_of_hex (s : str) : bitstring (bits_of_hex s) = true.
Proof.
  induction s as [|c s IH]; [reflexivity|].
  rewrite bits_of_hex_cons. apply bitstring_app. split; [apply nibble_bits_bitstring|exact IH].
Qed.

Lemma drop_bits_of_hex (n : nat) (s : str) :
  drop (4 * n) (bits_of_hex s) = bits_of_hex (drop n s).
Proof.
  revert s. induction n as [|n IH]; intros s; [reflexivity|].
  destruct s as [|c s]; [reflexivity|].
  replace (4 * S n)%nat with (4 + 4 * n)%nat by lia.
  rewrite bits_of_hex_cons. cbn [drop]. rewrite <- IH. reflexivity.
Qed.

Lemma take_bits_of_hex (n : nat) (s : str) :
  take (4 * n) (bits_of_hex s) = bits_of_hex (take n s).
Proof.
  revert s. induction n as [|n IH]; intros s; [reflexivity|].
  destruct s as [|c s]; [reflexivity|].
  replace (4 * S n)%nat with (4 + 4 * n)%nat by lia.
  rewrite bits_of_hex_cons. cbn [take]. rewrite bits_of_hex_cons, <- IH. reflexivity.
Qed.

(** Slicing by bit offset agrees with slicing by nibble offset. *)
Lemma slice_bits_of_hex (a b : nat) (s : str) :
  slice (4 * a) (4 * b) (bits_of_hex s) = bits_of_hex (slice a b s).
Proof.
  unfold slice. rewrite drop_bits_of_hex.
  replace (4 * b - 4 * a)%nat with (4 * (b - a))%nat by lia.
  apply take_bits_of_hex.
Qed.

Lemma unsigned_bits_of_hex (s : str) :
  hexstring s = true -> unsigned (bits_of_hex s) = unsigned_hex s.
Proof.
  induction s as [|c s IH]; intros H; [reflexivity|].
  apply hexstring_cons in H as [Hc Hs].
  rewrite bits_of_hex_cons, unsigned_app, unsigned_hex_cons, IH by exact Hs.
  rewrite nibble_bits_unsigned by exact Hc.
  rewrite length_bits_of_hex, Nat2Z.inj_mul, Z.pow_mul_r by lia. reflexivity.
Qed.

(** *** [hex_to_bin] *)

Lemma hex_to_bin_loop_hex (s acc : str) :
  hexstring s = true -> hex_to_bin_loop acc s = Ok (acc ++ bits_of_hex s).
Proof.
  revert acc. induction s as [|c s IH]; intros acc H.
  - simpl. rewrite app_nil_r. reflexivity.
  - apply hexstring_cons in H as [Hc Hs]. cbn [hex_to_bin_loop].
    rewrite hex_bin_dic_hex by exact Hc. cbn [mbind result_bind].
    rewrite IH by exact Hs. rewrite bits_of_hex_cons, app_assoc. reflexivity.
Qed.

Lemma no_prefix_hex (s : str) :
  hexstring s = true -> slice 0 2 s <> L "0x".
Proof.
  destruct s as [|z [|p s]]; try discriminate.
  intros H. apply hexstring_cons in H as [_ H]. apply hexstring_cons in H as [Hp _].
  unfold slice. simpl. rewrite take_0. intros [= -> ->]. discriminate Hp.
Qed.

Lemma hex_to_bin_hex (s : str) :
  hexstring s = true -> hex_to_bin s = Ok (bits_of_hex s).
Proof.
  intros H. unfold hex_to_bin.
  destruct (decide (slice 0 2 s = L "0x")) as [E|_].
  - destruct (no_prefix_hex s H E).
  - apply (hex_to_bin_loop_hex s []), H.
Qed.

End Primitives.

(** ** Tactics *)

(** [step] runs the sequencing of [result] one step; [bind_inv H as x Hx]
    splits a successful sequence [H] into its first computation, which returns
    [x] by [Hx], and the rest, left in [H]. *)
Ltac step := cbn [mbind result_bind].

Tactic Notation "bind_inv" hyp(H) "as" ident(x) ident(Hx) :=
  apply bind_ok in H as (x & Hx & H).

(** [raises_or c] splits on the two outcomes [c] of a field conversion: it
    returns, or it raises a [ValueError], which closes a goal asking for
    one. *)
Ltac raises_or c :=
  destruct c as [(? & -> & ?)|(? & ->)]; [|eauto].

(** ** The builtins [hex] and [bin] *)

Section Builtins.

Lemma hex_char_nibble (d : Z) :
  0 <= d < 16 -> is_hex (hex_char d) = true /\ nibble (hex_char d) = d.
Proof.
  intros Hd. rewrite <- (Z2Nat.id d) by lia.
  assert (Z.to_nat d < 16)%nat as Hn by lia.
  remember (Z.to_nat d) as n eqn:E. clear E Hd.
  do 16 (destruct n as [|n]; [split; reflexivity|]). lia.
Qed.

Lemma unsigned_hex_snoc (s : str) (c : ascii) :
  unsigned_hex (s ++ [c]) = 16 * unsigned_hex s + nibble c.
Proof. unfold unsigned_hex. rewrite foldl_app. reflexivity. Qed.

(** With fuel for every digit, [hex_digits] writes the number. *)
Lemma hex_digits_value (fuel : nat) (n : Z) :
  (0 < fuel)%nat -> 0 <= n < 16 ^ Z.of_nat fuel ->
  hexstring (hex_digits fuel n) = true
  /\ hex_digits fuel n <> []
  /\ unsigned_hex (hex_digits fuel n) = n.
Proof.
  revert n. induction fuel as [|fuel IH]; intros n Hf Hn; [lia|].
  cbn [hex_digits].
  pose proof (Z.mod_pos_bound n 16 ltac:(lia)) as Hm.
  destruct (hex_char_nibble (n mod 16) Hm) as [Hc Hv].
  destruct (Z.ltb_spec n 16) as [Hlt|Hge].
  - cbn [app]. split; [unfold hexstring; simpl; rewrite Hc; reflexivity|].
    split; [discriminate|].
    change [hex_char (n mod 16)] with ([] ++ [hex_char (n mod 16)]).
    rewrite unsigned_hex_snoc, Hv. change (unsigned_hex []) with 0.
    rewrite Z.mod_small by lia. lia.
  - rewrite Nat2Z.inj_succ, Z.pow_succ_r in Hn by lia.
    assert (0 < fuel)%nat as Hf' by (destruct fuel; [simpl in Hn; lia|lia]).
    destruct (IH (n / 16) Hf') as (Hh & Hne & Hu).
    { split; [apply Z.div_pos; lia|]. apply Z.div_lt_upper_bound; lia. }
    split; [apply hexstring_app; split;
            [exact Hh|unfold hexstring; simpl; rewrite Hc; reflexivity]|].
    split; [intros E; apply app_eq_nil in E as [_ E]; discriminate E|].
    rewrite unsigned_hex_snoc, Hu, Hv. symmetry. apply Z.div_mod. lia.
Qed.

Lemma size_nat_bound (p : positive) : Zpos p < 2 ^ Z.of_nat (Pos.size_nat p).
Proof.
  induction p as [p IH|p IH|]; cbn [Pos.size_nat];
    rewrite ?Nat2Z.inj_succ, ?Z.pow_succ_r by lia; lia.
Qed.

(** [int] reads back what [hex] and [bin] write. *)
Lemma int_of_hex (n : Z) : 0 <= n -> int_ (hex n) 16 = Ok n.
Proof.
  intros Hn. destruct n as [|p|p]; [reflexivity| |lia].
  unfold hex, int_.
  change (strip_prefix 16 (L "0x" ++ hex_digits (Pos.size_nat p) (Z.pos p)))
    with (hex_digits (Pos.size_nat p) (Z.pos p)).
  destruct (hex_digits_value (Pos.size_nat p) (Z.pos p)) as (Hh & Hne & Hu).
  - destruct p; simpl; lia.
  - split; [lia|]. pose proof (size_nat_bound p) as Hb.
    assert (2 ^ Z.of_nat (Pos.size_nat p) <= 16 ^ Z.of_nat (Pos.size_nat p))
      by (apply Z.pow_le_mono_l; lia).
    lia.
  - destruct (hex_digits (Pos.size_nat p) (Z.pos p)) as [|c ds] eqn:E; [congruence|].
    rewrite int_digits_hex by exact Hh. f_equal. exact Hu.
Qed.

Lemma bin_pos_value (p : positive) :
  bitstring (bin_pos p) = true /\ bin_pos p <> [] /\ unsigned (bin_pos p) = Zpos p.
Proof.
  induction p as [p (Hb & Hne & Hu)|p (Hb & Hne & Hu)|]; cbn [bin_pos].
  - split; [apply bitstring_app; split; [exact Hb|reflexivity]|].
    split; [intros E; apply app_eq_nil in E as [_ E]; discriminate E|].
    rewrite unsigned_app, Hu. change (unsigned ["1"%char]) with 1.
    change (2 ^ Z.of_nat (length ["1"%char])) with 2. lia.
  - split; [apply bitstring_app; split; [exact Hb|reflexivity]|].
    split; [intros E; apply app_eq_nil in E as [_ E]; discriminate E|].
    rewrite unsigned_app, Hu. change (unsigned ["0"%char]) with 0.
    change (2 ^ Z.of_nat (length ["0"%char])) with 2. lia.
  - repeat split. discriminate.
Qed.

Lemma int_of_bin (n : Z) : 0 <= n -> int_ (bin n) 2 = Ok n.
Proof.
  intros Hn. destruct n as [|p|p]; [reflexivity| |lia].
  unfold bin, int_.
  change (strip_prefix 2 (L "0b" ++ bin_pos p)) with (bin_pos p).
  destruct (bin_pos_value p) as (Hb & Hne & Hu).
  destruct (bin_pos p) as [|c ds] eqn:E; [congruence|].
  rewrite int_digits_bits by exact Hb. f_equal. exact Hu.
Qed.

End Builtins.

(** ** [hex_to_bin] and the signed decoders *)

Section Conversions.

Lemma hex_to_bin_loop_ok (s acc r : str) :
  hex_to_bin_loop acc s = Ok r -> hexstring s = true.
Proof.
  revert acc. induction s as [|c s IH]; intros acc H; [reflexivity|].
  cbn [hex_to_bin_loop] in H. apply hexstring_cons.
  destruct (is_hex c) eqn:Hc.
  - rewrite hex_bin_dic_hex in H by exact Hc. split; [reflexivity|]. exact (IH _ H).
  - rewrite hex_bin_dic_other in H by exact Hc. discriminate H.
Qed.

(** A successful [hex_to_bin] has read hexadecimal digits, after an optional
    lower-case prefix. *)
Lemma hex_to_bin_ok (h bits : str) :
  hex_to_bin h = Ok bits ->
  exists body, (h = body \/ h = L "0x" ++ body)
               /\ hexstring body = true /\ bits = bits_of_hex body.
Proof.
  unfold hex_to_bin. intros H.
  destruct (decide (slice 0 2 h = L "0x")) as [E|_].
  - exists (drop 2 h). pose proof (hex_to_bin_loop_ok _ _ _ H) as Hh.
    rewrite hex_to_bin_loop_hex in H by exact Hh. injection H as <-.
    split; [right|split; [exact Hh|reflexivity]].
    destruct h as [|z [|p h]]; try discriminate E.
    unfold slice in E. simpl in E. rewrite ?take_0 in E. injection E as -> ->.
    reflexivity.
  - exists h. pose proof (hex_to_bin_loop_ok _ _ _ H) as Hh.
    rewrite hex_to_bin_loop_hex in H by exact Hh. injection H as <-.
    split; [left; reflexivity|split; [exact Hh|reflexivity]].
Qed.

Lemma hex_to_bin_prefixed (h : str) :
  hexstring h = true -> hex_to_bin (L "0x" ++ h) = Ok (bits_of_hex h).
Proof.
  intros H. unfold hex_to_bin, slice. simpl. rewrite ?take_0.
  destruct (decide (L "0x" = L "0x")) as [_|N]; [|destruct N; reflexivity].
  apply (hex_to_bin_loop_hex h []), H.
Qed.

Lemma hex_to_bin_loop_bad (h1 h2 acc : str) (c : ascii) :
  hexstring h1 = true -> is_hex c = false ->
  hex_to_bin_loop acc (h1 ++ c :: h2) = Raise (KeyError [c]).
Proof.
  revert acc. induction h1 as [|d h1 IH]; intros acc H Hc.
  - cbn [app hex_to_bin_loop]. rewrite hex_bin_dic_other by exact Hc. reflexivity.
  - apply hexstring_cons in H as [Hd H]. cbn [app hex_to_bin_loop].
    rewrite hex_bin_dic_hex by exact Hd. step. apply IH; assumption.
Qed.

Lemma int_prefixed (h : str) :
  hexstring h = true -> h <> [] -> int_ (L "0x" ++ h) 16 = Ok (unsigned_hex h).
Proof.
  intros H Hne. unfold int_.
  change (strip_prefix 16 (L "0x" ++ h)) with h.
  destruct h as [|c h]; [congruence|]. apply int_digits_hex, H.
Qed.

Lemma bits_of_hex_nil (h : str) : bits_of_hex h = [] -> h = [].
Proof.
  intros E. apply (f_equal length) in E. rewrite length_bits_of_hex in E.
  destruct h; [reflexivity|simpl in E; lia].
Qed.

Lemma signed_hex_str_to_int_hex (h : str) :
  hexstring h = true -> h <> [] ->
  signed_hex_str_to_int h = Ok (signed_from_bits (bits_of_hex h)).
Proof.
  intros H Hne. unfold signed_hex_str_to_int, signed_from_bits.
  rewrite hex_to_bin_hex by exact H. step.
  pose proof (bitstring_bits_of_hex h) as Hb.
  pose proof (length_bits_of_hex h) as Hl.
  destruct h as [|c h]; [congruence|].
  destruct (bits_of_hex (c :: h)) as [|b0 bits] eqn:E; [discriminate Hl|].
  cbn [getitem lookup list_lookup mbind result_bind drop].
  apply bitstring_cons in Hb as [_ Hb].
  assert (bits <> []) as Hbits by (destruct bits; [simpl in Hl; lia|discriminate]).
  rewrite int_bits by assumption.
  destruct (decide (b0 = "1"%char)) as [->|N].
  - rewrite decide_True by reflexivity. reflexivity.
  - rewrite decide_False by congruence. reflexivity.
Qed.

(** C1, at the failing input.  The binary decoder goes through [hex], which
    drops leading zero digits, so the width of the sub-chunk is lost: the
    8-bit string 00001000, the encoding of 8, is decoded over 4 bits as -8,
    and the 9-bit string 100000000, the encoding of -256, is decoded over 12
    bits as 256; the two's-complement value over the exact width is 8,
    respectively -256. *)
Theorem signed_bin_str_to_int_loses_width :
  bits_of 8 8 = L "00001000"
  /\ signed_from_bits (L "00001000") = 8
  /\ signed_bin_str_to_int (L "00001000") = Ok (-8)
  /\ bits_of (-256) 9 = L "100000000"
  /\ signed_from_bits (L "100000000") = -256
  /\ signed_bin_str_to_int (L "100000000") = Ok 256.
Proof. repeat split; vm_compute; reflexivity. Qed.

(** C6 as stated fails: an upper-case [0X] prefix is not stripped, the
    decoder raises on the character X. *)
Lemma hex_to_bin_upper_prefix :
  hex_to_bin (L "0X1F") = Raise (KeyError (L "X"))
  /\ hex_to_bin (L "0X1F") <> Ok (bits_of_hex (L "1F"))
  /\ hex_str_to_int (L "0X1F") = Ok 31.
Proof. repeat split; vm_compute; congruence. Qed.

(** C6, amended: [hex_to_bin] maps each hexadecimal digit, in either case,
    to its four bits, in input order; it strips a leading lower-case [0x]
    and nothing else, so that an upper-case [0X] prefix raises like any
    other character that is not a hexadecimal digit (a [KeyError] on the first
    such character, with or without the lower-case prefix); and whenever [hex_to_bin h] succeeds, reading its result in
    base 2 and reading [h] in base 16 give the same value or both fail, and
    both fail exactly when no digit follows the optional prefix, that is when
    [h] is empty or is the prefix [0x] alone. *)
Theorem hex_to_bin_spec (h : str) :
  (hexstring h = true ->
     hex_to_bin h = Ok (bits_of_hex h)
     /\ hex_to_bin (L "0x" ++ h) = Ok (bits_of_hex h))
  /\ map nibble_bits (L "abcdef") = map nibble_bits (L "ABCDEF")
  /\ hex_to_bin (L "0X" ++ h) = Raise (KeyError (L "X"))
  /\ (forall h1 c h2, h = h1 ++ c :: h2 -> hexstring h1 = true -> is_hex c = false ->
        (slice 0 2 h <> L "0x" -> hex_to_bin h = Raise (KeyError [c]))
        /\ hex_to_bin (L "0x" ++ h) = Raise (KeyError [c]))
  /\ (forall bits, hex_to_bin h = Ok bits ->
        forall v, int_ bits 2 = Ok v <-> hex_str_to_int h = Ok v)
  /\ (forall bits, hex_to_bin h = Ok bits ->
        (((exists e, int_ bits 2 = Raise e) /\ (exists e, hex_str_to_int h = Raise e))
         <-> (h = [] \/ h = L "0x"))
        /\ ((exists e, int_ bits 2 = Raise e) <-> (exists e, hex_str_to_int h = Raise e))).
Proof.
  split; [|split; [|split; [|split; [|split]]]].
  - intros H. split; [apply hex_to_bin_hex|apply hex_to_bin_prefixed]; exact H.
  - reflexivity.
  - unfold hex_to_bin, slice. simpl. rewrite ?take_0.
    destruct (decide (L "0X" = L "0x")) as [E|_]; [discriminate E|reflexivity].
  - intros h1 c h2 -> H1 Hc. split.
    + intros Hp. unfold hex_to_bin.
      rewrite decide_False by exact Hp. apply hex_to_bin_loop_bad; assumption.
    + unfold hex_to_bin, slice. simpl. rewrite ?take_0.
      destruct (decide (L "0x" = L "0x")) as [_|N]; [|destruct N; reflexivity].
      apply hex_to_bin_loop_bad; assumption.
  - intros bits H v. unfold hex_str_to_int.
    destruct (hex_to_bin_ok _ _ H) as (body & Hh & Hb & ->).
    destruct body as [|c body].
    + destruct Hh as [-> | ->]; vm_compute; split; discriminate.
    + assert (bits_of_hex (c :: body) <> []) as Hne
        by (intros E%bits_of_hex_nil; discriminate E).
      rewrite int_bits by (auto using bitstring_bits_of_hex).
      rewrite unsigned_bits_of_hex by exact Hb.
      destruct Hh as [-> | ->].
      * rewrite int_hex by (auto; discriminate). reflexivity.
      * rewrite int_prefixed by (auto; discriminate). reflexivity.
  - intros bits H. unfold hex_str_to_int.
    destruct (hex_to_bin_ok _ _ H) as (body & Hh & Hb & ->).
    destruct body as [|c body].
    + assert (int_ (bits_of_hex []) 2 = Raise invalid_literal) as E2 by reflexivity.
      assert (int_ h 16 = Raise invalid_literal) as E16
        by (destruct Hh as [-> | ->]; reflexivity).
      rewrite E2, E16. split; [|split; intros _; eauto].
      split; [intros _|intros _; eauto].
      destruct Hh as [-> | ->]; [left|right]; reflexivity.
    + assert (bits_of_hex (c :: body) <> []) as Hne
        by (intros E%bits_of_hex_nil; discriminate E).
      rewrite int_bits by (auto using bitstring_bits_of_hex).
      assert (int_ h 16 = Ok (unsigned_hex (c :: body))) as E16.
      { destruct Hh as [-> | ->];
          [apply int_hex|apply int_prefixed]; auto; discriminate. }
      rewrite E16. split.
      * split.
        -- intros [[e E] _]. discriminate E.
        -- intros [-> | ->]; destruct Hh as [E | E]; try discriminate E.
           rewrite <- E in Hb. discriminate Hb.
      * split; intros [e E]; discriminate E.
Qed.

Lemma hex_to_bin_spec_witness :
  hex_to_bin (L "1f") = Ok (L "00011111")
  /\ hex_to_bin (L "0x1f") = Ok (L "00011111")
  /\ hex_to_bin (L "1g") = Raise (KeyError (L "g"))
  /\ (int_ (L "00011111") 2 = Ok 31 <-> hex_str_to_int (L "1f") = Ok 31)
  /\ ((exists e, int_ [] 2 = Raise e) /\ (exists e, hex_str_to_int (L "0x") = Raise e)).
Proof.
  destruct (hex_to_bin_spec (L "1f")) as (H1 & _ & _ & _ & H5 & _).
  destruct (hex_to_bin_spec (L "1g")) as (_ & _ & _ & H4 & _).
  destruct (hex_to_bin_spec (L "0x")) as (_ & _ & _ & _ & _ & H6).
  split; [exact (proj1 (H1 eq_refl))|].
  split; [exact (proj2 (H1 eq_refl))|].
  split; [|split].
  - apply (proj1 (H4 (L "1") "g"%char [] eq_refl eq_refl eq_refl)).
    vm_compute; discriminate.
  - apply (H5 (L "00011111")). vm_compute; reflexivity.
  - apply (proj2 (proj1 (H6 [] eq_refl))). right. reflexivity.
Defined.

End Conversions.


(** ** The fixed-width decoders *)

Section FixedWidth.

Lemma slice_take {A : Type} (a b n : nat) (s : list A) :
  (b <= n)%nat -> slice a b (take n s) = slice a b s.
Proof.
  intros H. unfold slice. rewrite skipn_firstn_comm, take_take.
  f_equal. lia.
Qed.

Lemma slice_nonempty {A : Type} (a b : nat) (s : list A) :
  (a < b)%nat -> (b <= length s)%nat -> slice a b s <> [].
Proof.
  intros Hab Hb E. apply (f_equal length) in E.
  rewrite length_slice in E by exact Hb. simpl in E. lia.
Qed.

Lemma hex_str_to_int_slice (a b : nat) (raw : str) :
  hexstring raw = true -> (a < b)%nat -> (b <= length raw)%nat ->
  hex_str_to_int (slice a b raw) = Ok (unsigned_hex (slice a b raw)).
Proof.
  intros H Hab Hb. apply int_hex; [apply hexstring_slice, H|].
  apply slice_nonempty; assumption.
Qed.

Lemma unsigned_hex_range (s : str) :
  hexstring s = true -> 0 <= unsigned_hex s < 2 ^ (4 * Z.of_nat (length s)).
Proof.
  intros H. rewrite <- unsigned_bits_of_hex by exact H.
  pose proof (unsigned_range (bits_of_hex s) (bitstring_bits_of_hex s)) as Hr.
  rewrite length_bits_of_hex, Nat2Z.inj_mul in Hr. exact Hr.
Qed.

(** [int] raises nothing but its [ValueError]. *)
Lemma int_digits_raises (base acc : Z) (s : str) (e : exn) :
  int_digits base acc s = Raise e -> e = invalid_literal.
Proof.
  revert acc. induction s as [|c s IH]; intros acc; simpl; [discriminate|].
  destruct (digit_val c) as [d|]; [|congruence].
  destruct (d <? base); [apply IH|congruence].
Qed.

Lemma int_raises (s : str) (base : Z) (e : exn) :
  int_ s base = Raise e -> e = invalid_literal.
Proof.
  unfold int_. destruct (strip_prefix base s) as [|c body]; [congruence|].
  apply int_digits_raises.
Qed.

Lemma floordiv_pow2 (u k : Z) : floordiv u (pow2 k) = Z.shiftr u k.
Proof.
  unfold floordiv, pow2. destruct (Z.le_gt_cases 0 k) as [Hk|Hk].
  - rewrite Z.shiftr_div_pow2, Zdiv_Qdiv by lia. apply Qfloor_comp.
    rewrite Zpower_Qpower by lia. reflexivity.
  - rewrite Z.shiftr_mul_pow2 by lia.
    rewrite <- (Qfloor_Z (u * 2 ^ (- k))). apply Qfloor_comp.
    rewrite inject_Z_mult, Zpower_Qpower by lia.
    change (inject_Z 2) with 2%Q. rewrite Qpower_opp.
    unfold Qdiv. reflexivity.
Qed.

Lemma truediv_pow2_15 (n : Z) :
  (truediv (inject_Z n) (pow2 15) == inject_Z n / inject_Z (2 ^ 15))%Q.
Proof. unfold truediv. rewrite Qred_correct. reflexivity. Qed.

(** *** AltitudeData *)

Lemma AltitudeData_convert_raw_hex (s : str) :
  hexstring s = true -> length s = 8%nat ->
  AltitudeData.convert_raw s = Ok (unsigned_hex s).
Proof.
  intros H Hl. unfold AltitudeData.convert_raw.
  rewrite decide_False by (intros N; apply N, Hl).
  apply int_hex; [exact H|]. destruct s; [discriminate Hl|discriminate].
Qed.

Lemma AltitudeData_convert_raw_cases (s : str) :
  (exists v, AltitudeData.convert_raw s = Ok v /\ length s = 8%nat)
  \/ (exists msg, AltitudeData.convert_raw s = Raise (ValueError msg)).
Proof.
  unfold AltitudeData.convert_raw.
  destruct (decide (length s ≠ 8%nat)) as [N|E]; [right; eauto|].
  destruct (hex_str_to_int s) as [v|e] eqn:Hv.
  - left. exists v. split; [reflexivity|]. destruct (decide (length s = 8%nat)); tauto.
  - right. apply int_raises in Hv as ->. unfold invalid_literal. eauto.
Qed.

Lemma AltitudeData_convert_raw_short (s : str) :
  hexstring s = true -> length s <> 8%nat ->
  AltitudeData.convert_raw s
  = Raise (ValueError "Hexadecimal strings must contain 8 hexadecimal characters.").
Proof.
  intros _ Hl. unfold AltitudeData.convert_raw. rewrite decide_True by exact Hl.
  reflexivity.
Qed.

Lemma AltitudeData_create_from_raw_hex (raw : str) :
  hexstring raw = true -> (32 <= length raw)%nat ->
  AltitudeData.create_from_raw raw
  = Ok (AltitudeData.mk
          (Some (unsigned_hex (slice 0 8 raw)))
          (Some (truediv (inject_Z (unsigned_hex (slice 8 16 raw))) 1000))
          (Some (truediv (inject_Z (unsigned_hex (slice 16 24 raw))) 1000))
          (Some (truediv (inject_Z (unsigned_hex (slice 24 32 raw))) 1000))).
Proof.
  intros H Hl. unfold AltitudeData.create_from_raw, AltitudeData.set_time,
    AltitudeData.set_pressure, AltitudeData.set_temperature, AltitudeData.set_altitude.
  rewrite !AltitudeData_convert_raw_hex
    by (first [apply hexstring_slice, H | rewrite length_slice; lia]).
  reflexivity.
Qed.

(** C5 as stated fails on its own example: the third field of the payload is
    000003E8, so the temperature is 1000/1000 = 1, not 10. *)
Lemma AltitudeData_example_temperature :
  exists p,
    AltitudeData.create_from_raw (L "000003E800002710000003E800000BB8") = Ok p
    /\ AltitudeData._temperature p = Some 1%Q
    /\ ~ (1 == 10)%Q.
Proof.
  eexists. split; [vm_compute; reflexivity|]. split; [reflexivity|]. discriminate.
Qed.

(** C5, amended: the payload 000003E800002710000003E800000BB8 decodes to
    time 1000, pressure 10, temperature 1 and altitude 3; and for every payload
    of at least 32 hexadecimal digits the decoder returns a record whose time is
    the unsigned 32-bit value of nibbles 0..8 and whose pressure, temperature
    and altitude are the unsigned 32-bit values of nibbles 8..16, 16..24 and
    24..32, each divided by 1000. *)
Theorem AltitudeData_decode :
  AltitudeData.create_from_raw (L "000003E800002710000003E800000BB8")
  = Ok (AltitudeData.mk (Some 1000) (Some 10%Q) (Some 1%Q) (Some 3%Q))
  /\ forall raw : str,
       hexstring raw = true -> (32 <= length raw)%nat ->
       exists time pressure temperature altitude,
         AltitudeData.create_from_raw raw
         = Ok (AltitudeData.mk (Some time) (Some pressure) (Some temperature)
                            (Some altitude))
         /\ time = unsigned_hex (slice 0 8 raw) /\ 0 <= time < 2 ^ 32
         /\ (pressure == inject_Z (unsigned_hex (slice 8 16 raw)) / 1000)%Q
         /\ (temperature == inject_Z (unsigned_hex (slice 16 24 raw)) / 1000)%Q
         /\ (altitude == inject_Z (unsigned_hex (slice 24 32 raw)) / 1000)%Q
         /\ 0 <= unsigned_hex (slice 8 16 raw) < 2 ^ 32
         /\ 0 <= unsigned_hex (slice 16 24 raw) < 2 ^ 32
         /\ 0 <= unsigned_hex (slice 24 32 raw) < 2 ^ 32.
Proof.
  split; [vm_compute; reflexivity|].
  intros raw H Hl. do 4 eexists.
  split; [apply AltitudeData_create_from_raw_hex; assumption|].
  assert (forall a, (a + 8 <= 32)%nat ->
            0 <= unsigned_hex (slice a (a + 8) raw) < 2 ^ 32) as Hr.
  { intros a Ha.
    pose proof (unsigned_hex_range (slice a (a + 8) raw) (hexstring_slice _ _ _ H)) as Hu.
    rewrite length_slice in Hu by lia.
    replace (4 * Z.of_nat (a + 8 - a)) with 32 in Hu by lia. exact Hu. }
  split; [reflexivity|]. split; [apply (Hr 0%nat); lia|].
  unfold truediv. rewrite !Qred_correct.
  split; [reflexivity|]. split; [reflexivity|]. split; [reflexivity|].
  split; [apply (Hr 8%nat); lia|]. split; [apply (Hr 16%nat); lia|apply (Hr 24%nat); lia].
Qed.

Lemma AltitudeData_decode_witness :
  exists time pressure temperature altitude,
    AltitudeData.create_from_raw (L "000000010000000200000003000001F4")
    = Ok (AltitudeData.mk (Some time) (Some pressure) (Some temperature) (Some altitude))
    /\ time = 1 /\ (altitude == 1 # 2)%Q.
Proof.
  destruct (proj2 AltitudeData_decode (L "000000010000000200000003000001F4"))
    as (t & p & c & a & E & Ht & _ & _ & _ & Ha & _).
  - reflexivity.
  - simpl. lia.
  - exists t, p, c, a. split; [exact E|]. split; [exact Ht|].
    rewrite Ha. reflexivity.
Defined.

End FixedWidth.


(** ** Length checks of the fixed-width decoders *)

Section Lengths.

Lemma length_slice_min {A : Type} (a b : nat) (s : list A) :
  length (slice a b s) = ((b - a) `min` (length s - a))%nat.
Proof. unfold slice. rewrite length_take, length_drop. reflexivity. Qed.

Lemma AccelerationData_convert_raw_hex (s : str) (n : nat) :
  hexstring s = true -> length s = n -> n <> 0%nat ->
  AccelerationData.convert_raw s n = Ok (unsigned_hex s).
Proof.
  intros H Hl Hn. unfold AccelerationData.convert_raw.
  rewrite decide_False by (intros N; apply N, Hl).
  apply int_hex; [exact H|]. destruct s; [simpl in Hl; congruence|discriminate].
Qed.

Lemma AccelerationData_convert_raw_cases (s : str) (n : nat) :
  (exists v, AccelerationData.convert_raw s n = Ok v /\ length s = n)
  \/ (exists msg, AccelerationData.convert_raw s n = Raise (ValueError msg)).
Proof.
  unfold AccelerationData.convert_raw.
  destruct (decide (length s ≠ n)) as [N|E]; [right; eauto|].
  destruct (hex_str_to_int s) as [v|e] eqn:Hv.
  - left. exists v. split; [reflexivity|]. destruct (decide (length s = n)); tauto.
  - right. apply int_raises in Hv as ->. unfold invalid_literal. eauto.
Qed.

Lemma AccelerationData_convert_raw_short (s : str) (n : nat) :
  length s <> n ->
  AccelerationData.convert_raw s n = Raise (ValueError (length_message n)).
Proof.
  intros Hl. unfold AccelerationData.convert_raw. rewrite decide_True by exact Hl.
  reflexivity.
Qed.

Lemma AltitudeData_short (raw : str) :
  (length raw < 32)%nat ->
  exists msg, AltitudeData.create_from_raw raw = Raise (ValueError msg).
Proof.
  intros Hl. unfold AltitudeData.create_from_raw, AltitudeData.set_time,
    AltitudeData.set_pressure, AltitudeData.set_temperature, AltitudeData.set_altitude.
  raises_or (AltitudeData_convert_raw_cases (slice 0 8 raw)).
  raises_or (AltitudeData_convert_raw_cases (slice 8 16 raw)).
  raises_or (AltitudeData_convert_raw_cases (slice 16 24 raw)).
  raises_or (AltitudeData_convert_raw_cases (slice 24 32 raw)).
  match goal with
  | L4 : length (slice 24 32 raw) = 8%nat |- _ => rewrite length_slice_min in L4; lia
  end.
Qed.

Lemma AltitudeData_short_hex (raw : str) :
  hexstring raw = true -> (length raw < 32)%nat ->
  AltitudeData.create_from_raw raw
  = Raise (ValueError "Hexadecimal strings must contain 8 hexadecimal characters.").
Proof.
  intros H Hl. unfold AltitudeData.create_from_raw, AltitudeData.set_time,
    AltitudeData.set_pressure, AltitudeData.set_temperature, AltitudeData.set_altitude.
  pose proof (fun a b => hexstring_slice a b raw H) as Hs.
  destruct (decide (length (slice 0 8 raw) = 8%nat)) as [L1|L1];
    [rewrite (AltitudeData_convert_raw_hex _ (Hs _ _) L1)
    |rewrite (AltitudeData_convert_raw_short _ (Hs _ _) L1); reflexivity].
  destruct (decide (length (slice 8 16 raw) = 8%nat)) as [L2|L2];
    [rewrite (AltitudeData_convert_raw_hex _ (Hs _ _) L2)
    |rewrite (AltitudeData_convert_raw_short _ (Hs _ _) L2); reflexivity].
  destruct (decide (length (slice 16 24 raw) = 8%nat)) as [L3|L3];
    [rewrite (AltitudeData_convert_raw_hex _ (Hs _ _) L3)
    |rewrite (AltitudeData_convert_raw_short _ (Hs _ _) L3); reflexivity].
  destruct (decide (length (slice 24 32 raw) = 8%nat)) as [L4|L4];
    [|rewrite (AltitudeData_convert_raw_short _ (Hs _ _) L4); reflexivity].
  rewrite length_slice_min in L4. lia.
Qed.

Lemma AccelerationData_short (raw : str) (resolution : Z) :
  (length raw < 24)%nat ->
  exists msg, AccelerationData.create_from_raw raw resolution = Raise (ValueError msg).
Proof.
  intros Hl. unfold AccelerationData.create_from_raw, AccelerationData.set_time,
    AccelerationData.set_fsr, AccelerationData.set_x_axis, AccelerationData.set_y_axis,
    AccelerationData.set_z_axis, AccelerationData.axis_value.
  raises_or (AccelerationData_convert_raw_cases (slice 0 8 raw) 8).
  raises_or (AccelerationData_convert_raw_cases (slice 8 12 raw) 4).
  raises_or (AccelerationData_convert_raw_cases (slice 12 16 raw) 4).
  raises_or (AccelerationData_convert_raw_cases (slice 16 20 raw) 4).
  raises_or (AccelerationData_convert_raw_cases (slice 20 24 raw) 4).
  match goal with
  | L5 : length (slice 20 24 raw) = 4%nat |- _ => rewrite length_slice_min in L5; lia
  end.
Qed.

Lemma AccelerationData_short_hex (raw : str) (resolution : Z) :
  hexstring raw = true -> (length raw < 24)%nat ->
  exists n, AccelerationData.create_from_raw raw resolution
            = Raise (ValueError (length_message n)).
Proof.
  intros H Hl. unfold AccelerationData.create_from_raw, AccelerationData.set_time,
    AccelerationData.set_fsr, AccelerationData.set_x_axis, AccelerationData.set_y_axis,
    AccelerationData.set_z_axis, AccelerationData.axis_value.
  pose proof (fun a b => hexstring_slice a b raw H) as Hs.
  destruct (decide (length (slice 0 8 raw) = 8%nat)) as [L1|L1];
    [rewrite (AccelerationData_convert_raw_hex _ _ (Hs _ _) L1) by lia
    |rewrite (AccelerationData_convert_raw_short _ _ L1); eexists; reflexivity].
  destruct (decide (length (slice 8 12 raw) = 4%nat)) as [L2|L2];
    [rewrite (AccelerationData_convert_raw_hex _ _ (Hs _ _) L2) by lia
    |rewrite (AccelerationData_convert_raw_short _ _ L2); eexists; reflexivity].
  destruct (decide (length (slice 12 16 raw) = 4%nat)) as [L3|L3];
    [rewrite (AccelerationData_convert_raw_hex _ _ (Hs _ _) L3) by lia
    |rewrite (AccelerationData_convert_raw_short _ _ L3); eexists; reflexivity].
  destruct (decide (length (slice 16 20 raw) = 4%nat)) as [L4|L4];
    [rewrite (AccelerationData_convert_raw_hex _ _ (Hs _ _) L4) by lia
    |rewrite (AccelerationData_convert_raw_short _ _ L4); eexists; reflexivity].
  destruct (decide (length (slice 20 24 raw) = 4%nat)) as [L5|L5];
    [|rewrite (AccelerationData_convert_raw_short _ _ L5); eexists; reflexivity].
  rewrite length_slice_min in L5. lia.
Qed.

Lemma AltitudeData_prefix (raw : str) :
  AltitudeData.create_from_raw raw = AltitudeData.create_from_raw (take 32 raw).
Proof.
  unfold AltitudeData.create_from_raw. rewrite !slice_take by lia. reflexivity.
Qed.

Lemma AccelerationData_prefix (raw : str) (resolution : Z) :
  AccelerationData.create_from_raw raw resolution
  = AccelerationData.create_from_raw (take 24 raw) resolution.
Proof.
  unfold AccelerationData.create_from_raw. rewrite !slice_take by lia. reflexivity.
Qed.

Lemma AngularVelocityData_prefix (raw : str) (resolution : Z) :
  AngularVelocityData.init raw resolution
  = AngularVelocityData.init (take 24 raw) resolution.
Proof.
  unfold AngularVelocityData.init, AngularVelocityData.set_time,
    AngularVelocityData.set_fsr, AngularVelocityData.set_x_velocity,
    AngularVelocityData.set_y_velocity, AngularVelocityData.set_z_velocity.
  rewrite !slice_take by lia. reflexivity.
Qed.

End Lengths.


(** ** Full-scale range and axes *)

Section Axes.

Lemma AccelerationData_create_from_raw_hex (raw : str) (resolution : Z) :
  hexstring raw = true -> (24 <= length raw)%nat ->
  let fsr := floordiv (unsigned_hex (slice 8 12 raw)) (pow2 (16 - resolution + 1)) in
  AccelerationData.create_from_raw raw resolution
  = Ok (AccelerationData.mk resolution
          (Some (unsigned_hex (slice 0 8 raw)))
          (Some fsr)
          (Some (truediv (inject_Z (unsigned_hex (slice 12 16 raw) * fsr)) (pow2 15)))
          (Some (truediv (inject_Z (unsigned_hex (slice 16 20 raw) * fsr)) (pow2 15)))
          (Some (truediv (inject_Z (unsigned_hex (slice 20 24 raw) * fsr)) (pow2 15)))).
Proof.
  intros H Hl fsr. unfold AccelerationData.create_from_raw, AccelerationData.set_time,
    AccelerationData.set_fsr, AccelerationData.set_x_axis, AccelerationData.set_y_axis,
    AccelerationData.set_z_axis, AccelerationData.axis_value.
  rewrite !AccelerationData_convert_raw_hex
    by (first [apply hexstring_slice, H | rewrite length_slice; lia | lia]).
  reflexivity.
Qed.

Lemma AngularVelocityData_init_hex (raw : str) (resolution : Z) :
  hexstring raw = true -> (24 <= length raw)%nat ->
  let fsr := floordiv (unsigned_hex (slice 8 12 raw)) (pow2 (16 - (resolution + 1))) in
  let scale := truediv (inject_Z fsr) (pow2 15) in
  AngularVelocityData.init raw resolution
  = Ok (AngularVelocityData.mk
          (Some (unsigned_hex (slice 0 8 raw)))
          (Some fsr)
          (Some (Qred (inject_Z (unsigned_hex (slice 12 16 raw)) * scale)))
          (Some (Qred (inject_Z (unsigned_hex (slice 16 20 raw)) * scale)))
          (Some (Qred (inject_Z (unsigned_hex (slice 20 24 raw)) * scale)))).
Proof.
  intros H Hl fsr scale. unfold AngularVelocityData.init, AngularVelocityData.set_time,
    AngularVelocityData.set_fsr, AngularVelocityData.set_x_velocity,
    AngularVelocityData.set_y_velocity, AngularVelocityData.set_z_velocity.
  rewrite !hex_str_to_int_slice by (first [exact H | lia]).
  reflexivity.
Qed.

Lemma acceleration_axis_value (v f : Z) :
  (truediv (inject_Z (v * f)) (pow2 15) == inject_Z v * inject_Z f / inject_Z (2 ^ 15))%Q.
Proof. rewrite truediv_pow2_15, inject_Z_mult. reflexivity. Qed.

Lemma angular_axis_value (v f : Z) :
  (Qred (inject_Z v * truediv (inject_Z f) (pow2 15))
   == inject_Z v * inject_Z f / inject_Z (2 ^ 15))%Q.
Proof.
  rewrite Qred_correct, truediv_pow2_15. unfold Qdiv. apply Qmult_assoc.
Qed.

Lemma unsigned_hex_16 (a : nat) (raw : str) :
  hexstring raw = true -> (a + 4 <= length raw)%nat ->
  0 <= unsigned_hex (slice a (a + 4) raw) < 2 ^ 16.
Proof.
  intros H Ha.
  pose proof (unsigned_hex_range (slice a (a + 4) raw) (hexstring_slice _ _ _ H)) as Hu.
  rewrite length_slice in Hu by lia.
  replace (4 * Z.of_nat (a + 4 - a)) with 16 in Hu by lia. exact Hu.
Qed.

(** C7.  For every payload of at least 24 hexadecimal digits and every
    resolution, both decoders return a record; its full-scale range is the
    unsigned 16-bit value of nibbles 8..12 shifted right by
    [16 - resolution + 1] (AccelerationData), respectively
    [16 - (resolution + 1)] (AngularVelocityData), the shift being the floor
    division by that power of two ([Z.shiftr] by a negative amount is the
    left shift, as is the floor division by a negative power of two); and each
    axis is the unsigned 16-bit value of its nibbles times that adjusted range
    over 2^15.  The axis setters read the range from the record: on a record
    whose range is not set yet they raise.  The resolution is bounded because
    the rationals of the embedding have no range: up to 1000 every power of two
    and every product involved is a binary64 number. *)
Theorem fsr_before_axes (raw : str) (resolution : Z) :
  hexstring raw = true -> (24 <= length raw)%nat -> resolution <= 1000 ->
  let raw_fsr := unsigned_hex (slice 8 12 raw) in
  let raw_x := unsigned_hex (slice 12 16 raw) in
  let raw_y := unsigned_hex (slice 16 20 raw) in
  let raw_z := unsigned_hex (slice 20 24 raw) in
  (0 <= raw_fsr < 2 ^ 16 /\ 0 <= raw_x < 2 ^ 16 /\ 0 <= raw_y < 2 ^ 16
   /\ 0 <= raw_z < 2 ^ 16)
  /\ (exists fsr x y z,
        AccelerationData.create_from_raw raw resolution
        = Ok (AccelerationData.mk resolution (Some (unsigned_hex (slice 0 8 raw)))
                (Some fsr) (Some x) (Some y) (Some z))
        /\ fsr = Z.shiftr raw_fsr (16 - resolution + 1)
        /\ fsr = Qfloor (inject_Z raw_fsr / 2 ^ (16 - resolution + 1))%Q
        /\ (x == inject_Z raw_x * inject_Z fsr / inject_Z (2 ^ 15))%Q
        /\ (y == inject_Z raw_y * inject_Z fsr / inject_Z (2 ^ 15))%Q
        /\ (z == inject_Z raw_z * inject_Z fsr / inject_Z (2 ^ 15))%Q)
  /\ (exists fsr x y z,
        AngularVelocityData.init raw resolution
        = Ok (AngularVelocityData.mk (Some (unsigned_hex (slice 0 8 raw)))
                (Some fsr) (Some x) (Some y) (Some z))
        /\ fsr = Z.shiftr raw_fsr (16 - (resolution + 1))
        /\ fsr = Qfloor (inject_Z raw_fsr / 2 ^ (16 - (resolution + 1)))%Q
        /\ (x == inject_Z raw_x * inject_Z fsr / inject_Z (2 ^ 15))%Q
        /\ (y == inject_Z raw_y * inject_Z fsr / inject_Z (2 ^ 15))%Q
        /\ (z == inject_Z raw_z * inject_Z fsr / inject_Z (2 ^ 15))%Q)
  /\ AccelerationData.set_x_axis (slice 12 16 raw) (AccelerationData.init resolution)
     = Raise AttributeError
  /\ AngularVelocityData.set_x_velocity raw resolution
       (AngularVelocityData.mk None None None None None)
     = Raise TypeError.
Proof.
  intros H Hl _ raw_fsr raw_x raw_y raw_z.
  split; [|split; [|split; [|split]]].
  - repeat split;
      first [apply (unsigned_hex_16 8 raw) | apply (unsigned_hex_16 12 raw)
            | apply (unsigned_hex_16 16 raw) | apply (unsigned_hex_16 20 raw)];
      first [exact H | lia].
  - do 4 eexists. split; [apply AccelerationData_create_from_raw_hex; assumption|].
    fold raw_fsr raw_x raw_y raw_z.
    split; [apply floordiv_pow2|]. split; [reflexivity|].
    repeat split; apply acceleration_axis_value.
  - do 4 eexists. split; [apply AngularVelocityData_init_hex; assumption|].
    fold raw_fsr raw_x raw_y raw_z.
    split; [apply floordiv_pow2|]. split; [reflexivity|].
    repeat split; apply angular_axis_value.
  - unfold AccelerationData.set_x_axis, AccelerationData.axis_value.
    rewrite AccelerationData_convert_raw_hex
      by (first [apply hexstring_slice, H | rewrite length_slice; lia | lia]).
    reflexivity.
  - unfold AngularVelocityData.set_x_velocity.
    rewrite hex_str_to_int_slice by (first [exact H | lia]). reflexivity.
Qed.

Lemma fsr_before_axes_witness :
  exists x y z,
    AccelerationData.create_from_raw (L "000003E8800040002000FFFF") 16
    = Ok (AccelerationData.mk 16 (Some 1000) (Some 16384) (Some x) (Some y) (Some z))
    /\ (x == 8192)%Q.
Proof.
  destruct (fsr_before_axes (L "000003E8800040002000FFFF") 16)
    as (_ & (f & x & y & z & E & Hf & _ & Hx & _) & _).
  - reflexivity.
  - simpl. lia.
  - lia.
  - exists x, y, z. subst f. split; [exact E|]. rewrite Hx. reflexivity.
Defined.

(** C4 as stated fails: a payload longer than the declared length is
    decoded, its tail ignored; and [AngularVelocityData], which checks no
    length, also decodes a payload of 21 nibbles. *)
Lemma longer_payload_decoded :
  AltitudeData.create_from_raw (L "000003E800002710000003E800000BB8FF")
  = Ok (AltitudeData.mk (Some 1000) (Some 10%Q) (Some 1%Q) (Some 3%Q))
  /\ length (L "000003E800002710000003E800000BB8FF") = 34%nat
  /\ is_ok (AccelerationData.create_from_raw (L "000003E8800040002000FFFFFF") 16)
  /\ is_ok (AngularVelocityData.init (L "000003E8800040002000FFFFFF") 16)
  /\ is_ok (AngularVelocityData.init (L "000003E8800040002000F") 16)
  /\ length (L "000003E8800040002000F") = 21%nat.
Proof.
  repeat split; try (vm_compute; reflexivity); eexists; vm_compute; reflexivity.
Qed.

(** C4, amended.  AltitudeData (32 nibbles) and AccelerationData (24 nibbles)
    raise a [ValueError] and return no record on every payload shorter than
    the declared length; on a payload of hexadecimal digits the error is the
    one of the length check.  No decoder rejects a longer payload: each decodes
    the first 32, respectively 24, characters and ignores the rest, so a longer
    payload of hexadecimal digits yields a record.  (The resolution is bounded
    as for the full-scale range above: the rationals of the embedding have no
    range.) *)
Theorem fixed_width_lengths (raw : str) (resolution : Z) :
  resolution <= 1000 ->
  ((length raw < 32)%nat ->
     exists msg, AltitudeData.create_from_raw raw = Raise (ValueError msg))
  /\ ((length raw < 24)%nat ->
        exists msg,
          AccelerationData.create_from_raw raw resolution = Raise (ValueError msg))
  /\ (hexstring raw = true -> (length raw < 32)%nat ->
        AltitudeData.create_from_raw raw
        = Raise (ValueError "Hexadecimal strings must contain 8 hexadecimal characters."))
  /\ (hexstring raw = true -> (length raw < 24)%nat ->
        exists n, AccelerationData.create_from_raw raw resolution
                  = Raise (ValueError (length_message n)))
  /\ AltitudeData.create_from_raw raw = AltitudeData.create_from_raw (take 32 raw)
  /\ AccelerationData.create_from_raw raw resolution
     = AccelerationData.create_from_raw (take 24 raw) resolution
  /\ AngularVelocityData.init raw resolution
     = AngularVelocityData.init (take 24 raw) resolution
  /\ (hexstring raw = true -> (32 <= length raw)%nat ->
        is_ok (AltitudeData.create_from_raw raw))
  /\ (hexstring raw = true -> (24 <= length raw)%nat ->
        is_ok (AccelerationData.create_from_raw raw resolution)
        /\ is_ok (AngularVelocityData.init raw resolution)).
Proof.
  intros _.
  split; [apply AltitudeData_short|].
  split; [apply AccelerationData_short|].
  split; [apply AltitudeData_short_hex|].
  split; [apply AccelerationData_short_hex|].
  split; [apply AltitudeData_prefix|].
  split; [apply AccelerationData_prefix|].
  split; [apply AngularVelocityData_prefix|].
  split.
  - intros H Hl. eexists. apply AltitudeData_create_from_raw_hex; assumption.
  - intros H Hl. split; eexists;
      [apply AccelerationData_create_from_raw_hex
      |apply AngularVelocityData_init_hex]; assumption.
Qed.

Lemma fixed_width_lengths_witness :
  (exists msg, AltitudeData.create_from_raw (L "000003E800002710000003E800000BB")
               = Raise (ValueError msg))
  /\ (exists msg, AccelerationData.create_from_raw (L "000003E8800040002000FFF") 16
                  = Raise (ValueError msg))
  /\ is_ok (AltitudeData.create_from_raw (L "000003E800002710000003E800000BB8FF")).
Proof.
  destruct (fixed_width_lengths (L "000003E800002710000003E800000BB") 16 ltac:(lia))
    as (H1 & _).
  destruct (fixed_width_lengths (L "000003E8800040002000FFF") 16 ltac:(lia))
    as (_ & H2 & _).
  destruct (fixed_width_lengths (L "000003E800002710000003E800000BB8FF") 16 ltac:(lia))
    as (_ & _ & _ & _ & _ & _ & _ & H8 & _).
  split; [apply H1; simpl; lia|].
  split; [apply H2; simpl; lia|].
  apply H8; [reflexivity|simpl; lia].
Defined.

End Axes.


(** ** Two's complement *)

Section TwosComplement.

(** The formula of the specification is two's complement over the width of
    the bitstring. *)
Lemma signed_from_bits_twos_complement (bits : str) :
  bitstring bits = true -> bits <> [] ->
  signed_from_bits bits = twos_complement (Z.of_nat (length bits)) (unsigned bits).
Proof.
  intros H Hne. destruct bits as [|c bits]; [congruence|].
  apply bitstring_cons in H as [Hc Hb].
  pose proof (unsigned_range bits Hb) as Hr.
  unfold signed_from_bits, twos_complement. rewrite unsigned_cons.
  cbn [lookup list_lookup drop length]. rewrite drop_0, Nat2Z.inj_succ.
  replace (Z.succ (Z.of_nat (length bits)) - 1) with (Z.of_nat (length bits)) by lia.
  rewrite Z.pow_succ_r by lia.
  destruct (is_bit_cases c Hc) as [-> | ->].
  - rewrite decide_False by discriminate.
    change (bit_val "0") with 0.
    destruct (Z.ltb_spec (0 * 2 ^ Z.of_nat (length bits) + unsigned bits)
                (2 ^ Z.of_nat (length bits))); lia.
  - rewrite decide_True by reflexivity.
    change (bit_val "1") with 1.
    destruct (Z.ltb_spec (1 * 2 ^ Z.of_nat (length bits) + unsigned bits)
                (2 ^ Z.of_nat (length bits))); lia.
Qed.

Lemma bits_of_succ (v : Z) (w : nat) :
  bits_of v (S w) = bit_char (Z.testbit v (Z.of_nat w)) :: bits_of v w.
Proof.
  unfold bits_of. cbn [seq map]. f_equal.
  - do 2 f_equal. lia.
  - rewrite <- seq_shift, map_map. apply map_ext. intros i. do 3 f_equal. lia.
Qed.

Lemma length_bits_of (v : Z) (w : nat) : length (bits_of v w) = w.
Proof. unfold bits_of. rewrite length_map, length_seq. reflexivity. Qed.

Lemma bitstring_bits_of (v : Z) (w : nat) : bitstring (bits_of v w) = true.
Proof.
  induction w as [|w IH]; [reflexivity|].
  rewrite bits_of_succ. apply bitstring_cons. split; [|exact IH].
  destruct (Z.testbit v (Z.of_nat w)); reflexivity.
Qed.

Lemma unsigned_bits_of (v : Z) (w : nat) :
  unsigned (bits_of v w) = v mod 2 ^ Z.of_nat w.
Proof.
  induction w as [|w IH]; [simpl; rewrite Z.mod_1_r; reflexivity|].
  rewrite bits_of_succ, unsigned_cons, IH, length_bits_of.
  rewrite Nat2Z.inj_succ, Z.pow_succ_r by lia.
  rewrite (Z.mul_comm 2), Z.rem_mul_r by lia.
  replace (bit_val (bit_char (Z.testbit v (Z.of_nat w))))
    with (Z.b2z (Z.testbit v (Z.of_nat w)))
    by (destruct (Z.testbit v (Z.of_nat w)); reflexivity).
  rewrite Z.testbit_spec' by lia.
  pose proof (Z.mod_pos_bound (v / 2 ^ Z.of_nat w) 2 ltac:(lia)) as Hm.
  assert ((v / 2 ^ Z.of_nat w) mod 2 = 0 \/ (v / 2 ^ Z.of_nat w) mod 2 = 1) as [E|E]
    by lia; rewrite E; simpl; lia.
Qed.

(** The round trip of the specification: decoding the [w]-bit encoding of
    [v] by the formula gives back [v]. *)
Lemma signed_from_bits_of (v : Z) (w : nat) :
  (0 < w)%nat -> - 2 ^ (Z.of_nat w - 1) <= v < 2 ^ (Z.of_nat w - 1) ->
  signed_from_bits (bits_of v w) = v.
Proof.
  intros Hw Hv.
  rewrite signed_from_bits_twos_complement
    by (first [apply bitstring_bits_of | destruct w; [lia|rewrite bits_of_succ; discriminate]]).
  rewrite length_bits_of, unsigned_bits_of. unfold twos_complement.
  assert (2 ^ Z.of_nat w = 2 * 2 ^ (Z.of_nat w - 1)) as E
    by (rewrite <- Z.pow_succ_r by lia; f_equal; lia).
  destruct (Z.lt_ge_cases v 0) as [Hn|Hn].
  - rewrite <- (Z.mod_add v 1) by lia. rewrite Z.mod_small by lia.
    destruct (Z.ltb_spec (v + 1 * 2 ^ Z.of_nat w) (2 ^ (Z.of_nat w - 1))); lia.
  - rewrite Z.mod_small by lia.
    destruct (Z.ltb_spec v (2 ^ (Z.of_nat w - 1))); lia.
Qed.

End TwosComplement.


(** ** GNSSLocationData *)

Section Location.

Lemma signed_slice (a b : nat) (raw : str) :
  hexstring raw = true -> (a < b)%nat -> (b <= length raw)%nat ->
  signed_hex_str_to_int (slice a b raw)
  = Ok (twos_complement (4 * Z.of_nat (b - a)) (unsigned_hex (slice a b raw))).
Proof.
  intros H Hab Hb.
  pose proof (hexstring_slice a b raw H) as Hs.
  pose proof (slice_nonempty a b raw Hab Hb) as Hne.
  rewrite signed_hex_str_to_int_hex by assumption.
  rewrite signed_from_bits_twos_complement
    by (first [apply bitstring_bits_of_hex | intros E%bits_of_hex_nil; congruence]).
  rewrite length_bits_of_hex, length_slice, unsigned_bits_of_hex by assumption.
  do 2 f_equal. lia.
Qed.

Lemma fix_type_bits (raw : str) :
  hexstring raw = true -> (63 <= length raw)%nat ->
  int_ (slice 2 4 (bits_of_hex (drop 62 raw))) 2
  = Ok (unsigned (slice 2 4 (bits_of_hex (drop 62 raw))))
  /\ 0 <= unsigned (slice 2 4 (bits_of_hex (drop 62 raw))) < 4.
Proof.
  intros H Hl.
  assert (length (slice 2 4 (bits_of_hex (drop 62 raw))) = 2%nat) as Hlen.
  { rewrite length_slice; [reflexivity|].
    rewrite length_bits_of_hex, length_drop. lia. }
  pose proof (bitstring_slice 2 4 _ (bitstring_bits_of_hex (drop 62 raw))) as Hb.
  split.
  - apply int_bits; [exact Hb|]. intros E. rewrite E in Hlen. discriminate Hlen.
  - pose proof (unsigned_range _ Hb) as Hr. rewrite Hlen in Hr. exact Hr.
Qed.

(** C8.  For every payload of at least 63 hexadecimal digits the decoder
    returns a record in which fix_time, utc_time, altitude, pdop, hdop, vdop
    and num_sats are the unsigned values of their nibbles, latitude and
    longitude the 32-bit and rocket_speed and rocket_course the 16-bit
    two's-complement values of theirs, and fix_type is the name of the value
    of bits 2..4 of the bit expansion of the payload from nibble 62 on: 0 is
    unknown, 1 not available, 2 a 2D fix, 3 a 3D fix, anything else error. *)
Theorem GNSSLocationData_fields (raw : str) :
  hexstring raw = true -> (63 <= length raw)%nat ->
  (exists r,
     GNSSLocationData.setup raw = Ok r
     /\ GNSSLocationData.fix_time r = unsigned_hex (slice 0 8 raw)
     /\ GNSSLocationData.latitude r = twos_complement 32 (unsigned_hex (slice 8 16 raw))
     /\ GNSSLocationData.longitude r = twos_complement 32 (unsigned_hex (slice 16 24 raw))
     /\ GNSSLocationData.utc_time r = unsigned_hex (slice 24 32 raw)
     /\ GNSSLocationData.altitude r = unsigned_hex (slice 32 40 raw)
     /\ GNSSLocationData.rocket_speed r
        = twos_complement 16 (unsigned_hex (slice 40 44 raw))
     /\ GNSSLocationData.rocket_course r
        = twos_complement 16 (unsigned_hex (slice 44 48 raw))
     /\ GNSSLocationData.pdop r = unsigned_hex (slice 48 52 raw)
     /\ GNSSLocationData.hdop r = unsigned_hex (slice 52 56 raw)
     /\ GNSSLocationData.vdop r = unsigned_hex (slice 56 60 raw)
     /\ GNSSLocationData.num_sats r = unsigned_hex (slice 60 62 raw)
     /\ GNSSLocationData.fix_type r
        = GNSSLocationData.fix_type_name
            (unsigned (slice 2 4 (bits_of_hex (drop 62 raw)))))
  /\ GNSSLocationData.fix_type_name 0 = "unknown"%string
  /\ GNSSLocationData.fix_type_name 1 = "not available"%string
  /\ GNSSLocationData.fix_type_name 2 = "2D fix"%string
  /\ GNSSLocationData.fix_type_name 3 = "3D fix"%string
  /\ forall n, ~ (0 <= n <= 3) -> GNSSLocationData.fix_type_name n = "error"%string.
Proof.
  intros H Hl. split.
  - unfold GNSSLocationData.setup.
    rewrite !hex_str_to_int_slice by (first [exact H | lia]).
    rewrite !signed_slice by (first [exact H | lia]).
    rewrite hex_to_bin_hex by (apply hexstring_drop, H).
    step.
    rewrite (proj1 (fix_type_bits raw H Hl)). step.
    eexists. split; [reflexivity|]. cbn. repeat split; reflexivity.
  - do 4 (split; [reflexivity|]). intros n Hn.
    unfold GNSSLocationData.fix_type_name.
    destruct (Z.eqb_spec n 0); [lia|]. destruct (Z.eqb_spec n 1); [lia|].
    destruct (Z.eqb_spec n 2); [lia|]. destruct (Z.eqb_spec n 3); [lia|reflexivity].
Qed.

Lemma GNSSLocationData_fields_witness :
  exists r,
    GNSSLocationData.setup
      (L "000003E8FFFFFFFF7FFFFFFF0000000100000002FFFE80000001000200030427") = Ok r
    /\ GNSSLocationData.latitude r = -1
    /\ GNSSLocationData.rocket_course r = -32768
    /\ GNSSLocationData.fix_type r = "2D fix"%string.
Proof.
  destruct (GNSSLocationData_fields
              (L "000003E8FFFFFFFF7FFFFFFF0000000100000002FFFE80000001000200030427"))
    as ((r & E & _ & Hlat & _ & _ & _ & _ & Hc & _ & _ & _ & _ & Hf) & _).
  - reflexivity.
  - simpl. lia.
  - exists r. split; [exact E|]. rewrite Hlat, Hc, Hf. repeat split.
Defined.

End Location.


(** ** KX134: header *)

Section KX134Header.

Lemma bitstring_lookup (bits : str) (i : nat) (c : ascii) :
  bitstring bits = true -> bits !! i = Some c -> c = "0"%char \/ c = "1"%char.
Proof.
  intros H Hc. apply is_bit_cases.
  unfold bitstring in H. rewrite forallb_forall in H. apply H.
  apply list_elem_of_In, list_elem_of_lookup. eauto.
Qed.

Lemma getitem_bits (bits : str) (i : nat) :
  bitstring bits = true -> (i < length bits)%nat ->
  exists c, bits !! i = Some c /\ getitem bits i = Ok c
            /\ (c = "0"%char \/ c = "1"%char).
Proof.
  intros H Hi. destruct (lookup_lt_is_Some_2 bits i Hi) as [c Hc].
  exists c. unfold getitem. rewrite Hc. eauto using bitstring_lookup.
Qed.

Lemma int_bits_slice (a b : nat) (bits : str) :
  bitstring bits = true -> (a < b)%nat -> (b <= length bits)%nat ->
  int_ (slice a b bits) 2 = Ok (unsigned (slice a b bits)).
Proof.
  intros H Hab Hb. apply int_bits; [apply bitstring_slice, H|].
  apply slice_nonempty; assumption.
Qed.

Lemma unsigned_slice_range (a b : nat) (bits : str) :
  bitstring bits = true -> (b <= length bits)%nat ->
  0 <= unsigned (slice a b bits) < 2 ^ Z.of_nat (b - a).
Proof.
  intros H Hb. pose proof (unsigned_range _ (bitstring_slice a b bits H)) as Hr.
  rewrite length_slice in Hr by exact Hb. exact Hr.
Qed.

Lemma data_rate_lookup (code : Z) :
  0 <= code < 16 -> dict_get kx134_1211_dic (hex code) = Ok (data_rate_of code).
Proof.
  intros Hc. rewrite <- (Z2Nat.id code) by lia.
  assert (Z.to_nat code < 16)%nat as Hn by lia.
  remember (Z.to_nat code) as n eqn:E. clear E Hc.
  do 16 (destruct n as [|n]; [reflexivity|]). lia.
Qed.

Lemma full_scale_range_cases (code : Z) :
  0 <= code < 4 ->
  KX1341211Data.full_scale_range_of code = 8 * 2 ^ code
  /\ (KX1341211Data.full_scale_range_of code = 8
      \/ KX1341211Data.full_scale_range_of code = 16
      \/ KX1341211Data.full_scale_range_of code = 32
      \/ KX1341211Data.full_scale_range_of code = 64).
Proof.
  intros Hc. assert (code = 0 \/ code = 1 \/ code = 2 \/ code = 3) as Hcases by lia.
  destruct Hcases as [-> | [-> | [-> | ->]]]; vm_compute; intuition congruence.
Qed.

Lemma setup_header_bits (bits : str) :
  bitstring bits = true -> (48 <= length bits)%nat ->
  let data_rate := data_rate_of (unsigned (slice 32 36 bits)) in
  KX1341211Data.setup_header bits
  = Ok (KX1341211Data.mk_locals
          (unsigned (slice 0 32 bits))
          data_rate
          (KX1341211Data.full_scale_range_of (unsigned (slice 36 38 bits)))
          (Some (truediv data_rate
                   (if decide (bits !! 38%nat = Some "0"%char) then 9 else 2)))
          (Some (Z.of_nat (kx_resolution bits)))
          (unsigned (slice 46 48 bits) * 8)).
Proof.
  intros H Hl data_rate. unfold KX1341211Data.setup_header.
  rewrite !int_bits_slice by (first [exact H | lia]). step.
  rewrite data_rate_lookup
    by (pose proof (unsigned_slice_range 32 36 bits H ltac:(lia)) as Hr;
        simpl in Hr; lia).
  step.
  destruct (getitem_bits bits 38 H ltac:(lia)) as (c & Hc & -> & Hcb).
  destruct (getitem_bits bits 39 H ltac:(lia)) as (r & Hr & -> & Hrb).
  step. unfold kx_resolution. rewrite Hc, Hr. fold data_rate.
  destruct Hcb as [-> | ->], Hrb as [-> | ->]; reflexivity.
Qed.

End KX134Header.


(** ** KX134: samples *)

Section KX134Samples.

Lemma signed_hex_byte (v : Z) :
  0 <= v < 256 -> signed_hex_str_to_int (hex v) = Ok (decoded_byte v).
Proof.
  intros Hv.
  assert (forallb (fun n => match signed_hex_str_to_int (hex (Z.of_nat n)) with
                            | Ok r => r =? decoded_byte (Z.of_nat n)
                            | Raise _ => false
                            end) (seq 0 256) = true) as Hall
    by (vm_compute; reflexivity).
  rewrite forallb_forall in Hall. specialize (Hall (Z.to_nat v)).
  rewrite Z2Nat.id in Hall by lia.
  destruct (signed_hex_str_to_int (hex v)) as [r|e].
  - f_equal. apply Z.eqb_eq, Hall, in_seq. lia.
  - discriminate Hall. apply in_seq. lia.
Qed.

Lemma signed_bin_str_to_int_byte (s : str) :
  bitstring s = true -> length s = 8%nat ->
  signed_bin_str_to_int s = Ok (decoded_byte (unsigned s)).
Proof.
  intros H Hl. unfold signed_bin_str_to_int.
  rewrite int_bits by (first [exact H | intros ->; discriminate Hl]).
  step. apply signed_hex_byte.
  pose proof (unsigned_range s H) as Hr. rewrite Hl in Hr. exact Hr.
Qed.

Lemma Measurement_setup_bits (data : str) :
  bitstring data = true ->
  KX1341211Data.Measurement.setup data = Ok (measurement_of data).
Proof.
  intros H. unfold KX1341211Data.Measurement.setup, measurement_of.
  destruct (decide (length data = 24%nat)) as [E|_].
  - rewrite !signed_bin_str_to_int_byte
      by (first [apply bitstring_slice, H | rewrite length_slice; lia]).
    reflexivity.
  - destruct (decide (length data = 48%nat)) as [E|_]; [|reflexivity].
    rewrite !int_bits_slice by (first [exact H | lia]). reflexivity.
Qed.

Lemma for_each_append {A B : Type} (f : A -> result B) (g : A -> B)
    (l : list A) (acc : list B) :
  (forall x, In x l -> f x = Ok (g x)) ->
  for_each (fun ms data => f data ≫= fun m => Ok (ms ++ [m])) acc l
  = Ok (acc ++ map g l).
Proof.
  revert acc. induction l as [|x l IH]; intros acc Hf.
  - simpl. rewrite app_nil_r. reflexivity.
  - cbn [for_each map]. rewrite (Hf x) by (left; reflexivity).
    step. rewrite IH by (intros y Hy; apply Hf; right; exact Hy).
    rewrite <- app_assoc. reflexivity.
Qed.

Lemma setup_measurements_bits (bits : str) :
  bitstring bits = true -> (48 <= length bits)%nat ->
  KX1341211Data.setup_measurements bits (Some (Z.of_nat (kx_resolution bits)))
    (unsigned (slice 46 48 bits) * 8)
  = Ok (map measurement_of (kx_chunks bits)).
Proof.
  intros H Hl. unfold KX1341211Data.setup_measurements.
  pose proof (unsigned_slice_range 46 48 bits H ltac:(lia)) as Hp.
  replace (unsigned (slice 46 48 bits) * 8) with (Z.of_nat (kx_padding bits))
    by (unfold kx_padding; lia).
  fold (kx_chunks bits).
  apply (for_each_append KX1341211Data.Measurement.setup measurement_of _ []).
  intros data Hd. apply Measurement_setup_bits.
  unfold kx_chunks in Hd. apply in_map_iff in Hd as (i & <- & _).
  apply bitstring_slice, bitstring_drop, H.
Qed.

Lemma KX1341211Data_setup_hex (raw : str) :
  hexstring raw = true -> (12 <= length raw)%nat ->
  let bits := bits_of_hex raw in
  let data_rate := data_rate_of (unsigned (slice 32 36 bits)) in
  KX1341211Data.setup raw
  = Ok (KX1341211Data.mk
          (unsigned (slice 0 32 bits))
          data_rate
          (KX1341211Data.full_scale_range_of (unsigned (slice 36 38 bits)))
          (Some (truediv data_rate
                   (if decide (bits !! 38%nat = Some "0"%char) then 9 else 2)))
          (map measurement_of (kx_chunks bits))).
Proof.
  intros H Hl bits data_rate. unfold KX1341211Data.setup.
  rewrite hex_to_bin_hex by exact H. step. fold bits.
  assert (48 <= length bits)%nat as Hb
    by (unfold bits; rewrite length_bits_of_hex; lia).
  rewrite setup_header_bits by (first [apply bitstring_bits_of_hex | exact Hb]).
  cbn [mbind result_bind KX1341211Data.resolution KX1341211Data.padding].
  rewrite setup_measurements_bits by (first [apply bitstring_bits_of_hex | exact Hb]).
  reflexivity.
Qed.

End KX134Samples.


(** ** KX134: chunking *)

Section KX134Chunks.

Lemma range_from_seq (fuel : nat) (i step : Z) :
  range_from fuel i step = map (fun k => i + Z.of_nat k * step) (seq 0 fuel).
Proof.
  revert i. induction fuel as [|fuel IH]; intros i; [reflexivity|].
  cbn [range_from seq map]. f_equal; [lia|].
  rewrite IH, <- seq_shift, map_map. apply map_ext. intros k. lia.
Qed.

Lemma range_step_whole (n : nat) (step : Z) :
  0 < step ->
  range_step (Z.of_nat n * step) step = map (fun k => Z.of_nat k * step) (seq 0 n).
Proof.
  intros Hs. unfold range_step.
  replace ((Z.of_nat n * step + step - 1) / step) with (Z.of_nat n).
  - rewrite Nat2Z.id, range_from_seq. apply map_ext. intros k. lia.
  - apply (Z.div_unique_pos _ _ _ (step - 1)); lia.
Qed.

Lemma range_step_empty (stop step : Z) :
  0 < step -> stop <= 0 -> range_step stop step = [].
Proof.
  intros Hs Hstop. unfold range_step.
  assert ((stop + step - 1) / step <= 0) as Hq.
  { apply Z.lt_succ_r. apply Z.div_lt_upper_bound; lia. }
  replace (Z.to_nat ((stop + step - 1) / step)) with 0%nat by lia. reflexivity.
Qed.

Lemma lookup_map_seq {A : Type} (f : nat -> A) (n k : nat) :
  map f (seq 0 n) !! k = if decide (k < n)%nat then Some (f k) else None.
Proof.
  assert (forall a, map f (seq a n) !! k
                    = if decide (k < n)%nat then Some (f (a + k)%nat) else None) as G.
  { revert k. induction n as [|n IH]; intros k a.
    - destruct (decide (k < 0)%nat); [lia|reflexivity].
    - destruct k as [|k]; cbn [seq map lookup list_lookup].
      + rewrite decide_True by lia. do 2 f_equal. lia.
      + change (map f (seq (S a) n) !! k = if decide (S k < S n)%nat
                                           then Some (f (a + S k)%nat) else None).
        rewrite IH. destruct (decide (k < n)%nat), (decide (S k < S n)%nat);
          try lia; [do 2 f_equal; lia|reflexivity]. }
  apply (G 0%nat).
Qed.

Lemma kx_resolution_cases (bits : str) :
  kx_resolution bits = 8%nat \/ kx_resolution bits = 16%nat.
Proof. unfold kx_resolution. destruct (decide _); tauto. Qed.

(** When the samples fill the region exactly, the loop runs over the whole
    chunks of the region without its padding. *)
Lemma kx_chunks_whole (bits : str) :
  let resolution := kx_resolution bits in
  let chunk_size := (3 * resolution)%nat in
  ((length (drop 48 bits) - kx_padding bits) `mod` chunk_size = 0)%nat ->
  kx_chunks bits
  = map (fun k => slice (k * chunk_size) (k * chunk_size + chunk_size) (spec_region bits))
        (seq 0 (length (spec_region bits) / chunk_size)).
Proof.
  intros resolution chunk_size Hmod.
  assert (0 < chunk_size)%nat as Hcs
    by (unfold chunk_size, resolution; destruct (kx_resolution_cases bits) as [-> | ->]; lia).
  set (data := drop 48 bits) in *. set (pad := kx_padding bits) in *.
  assert (length (spec_region bits) = (length data - pad)%nat) as Hreg.
  { unfold spec_region. fold data pad. rewrite length_take. lia. }
  rewrite Hreg.
  set (n := ((length data - pad) / chunk_size)%nat).
  assert ((length data - pad)%nat = (n * chunk_size)%nat) as Hn.
  { unfold n. pose proof (Nat.div_mod_eq (length data - pad) chunk_size). lia. }
  unfold kx_chunks. fold data pad resolution.
  replace (Z.of_nat resolution * 3) with (Z.of_nat chunk_size) by (unfold chunk_size; lia).
  destruct (decide (pad <= length data)%nat) as [Hp|Hp].
  - replace (Z.of_nat (length data) - Z.of_nat pad) with (Z.of_nat n * Z.of_nat chunk_size)
      by lia.
    rewrite range_step_whole, map_map by lia.
    apply map_ext_in. intros k Hk%in_seq.
    replace (Z.to_nat (Z.of_nat k * Z.of_nat chunk_size)) with (k * chunk_size)%nat by lia.
    replace (Z.to_nat (Z.of_nat k * Z.of_nat chunk_size + Z.of_nat chunk_size))
      with (k * chunk_size + chunk_size)%nat by lia.
    unfold spec_region. fold data pad. symmetry. apply slice_take. nia.
  - rewrite range_step_empty by lia.
    assert (n = 0%nat) as -> by (destruct n; [reflexivity|nia]). reflexivity.
Qed.

Lemma bitstring_spec_region (bits : str) :
  bitstring bits = true -> bitstring (spec_region bits) = true.
Proof.
  intros H. unfold spec_region.
  apply (forallb_take_drop is_bit), bitstring_drop, H.
Qed.

Lemma decoded_byte_twos_complement (sub : str) :
  bitstring sub = true -> length sub = 8%nat ->
  ~ 8 <= unsigned sub < 16 ->
  decoded_byte (unsigned sub) = signed_from_bits sub.
Proof.
  intros H Hl Hv.
  rewrite signed_from_bits_twos_complement
    by (first [exact H | intros ->; discriminate Hl]).
  rewrite Hl. unfold decoded_byte.
  destruct (Z.leb_spec 8 (unsigned sub)), (Z.ltb_spec (unsigned sub) 16);
    try reflexivity. lia.
Qed.

End KX134Chunks.


(** ** KX134: the decoder *)

Section KX134.

(** C9.  For every payload of at least 12 hexadecimal digits, with [bits]
    its bitstring, the decoder returns a record and its local variables are:
    time, the value of nibbles 0..8; data rate, the table entry of the 4-bit
    code at bits 32..36, the table running from 0.781 Hz at code 0 to 25600 Hz
    at code 15, each entry from code 3 on the double of the one before, and the
    dictionary answering to both cases of the hexadecimal key; full-scale range,
    8, 16, 32, 64 for the 2-bit code 0, 1, 2, 3 at bits 36..38 (and -1 for any
    other number); corner frequency, the data rate over 9 if bit 38 is 0 and
    over 2 if it is 1; resolution, 8 if bit 39 is 0 and 16 if it is 1; padding,
    8 times the 2-bit code at bits 46..48. *)
Theorem KX134_header (raw : str) :
  hexstring raw = true -> (12 <= length raw)%nat ->
  let bits := bits_of_hex raw in
  let rate_code := unsigned (slice 32 36 bits) in
  let range_code := unsigned (slice 36 38 bits) in
  (exists r l cf,
     hex_to_bin raw = Ok bits
     /\ KX1341211Data.setup_header bits = Ok l
     /\ KX1341211Data.setup raw = Ok r
     /\ KX1341211Data.time_stamp r = unsigned_hex (slice 0 8 raw)
     /\ 0 <= rate_code < 16
     /\ KX1341211Data.data_rate r = data_rate_of rate_code
     /\ 0 <= range_code < 4
     /\ KX1341211Data.full_scale_range r = KX1341211Data.full_scale_range_of range_code
     /\ KX1341211Data.corner_freq r = Some cf
     /\ (bits !! 38%nat = Some "0"%char \/ bits !! 38%nat = Some "1"%char)
     /\ (bits !! 38%nat = Some "0"%char -> (cf == KX1341211Data.data_rate r / 9)%Q)
     /\ (bits !! 38%nat = Some "1"%char -> (cf == KX1341211Data.data_rate r / 2)%Q)
     /\ (bits !! 39%nat = Some "0"%char \/ bits !! 39%nat = Some "1"%char)
     /\ (bits !! 39%nat = Some "0"%char -> KX1341211Data.resolution l = Some 8)
     /\ (bits !! 39%nat = Some "1"%char -> KX1341211Data.resolution l = Some 16)
     /\ KX1341211Data.padding l = unsigned (slice 46 48 bits) * 8
     /\ KX1341211Data.setup_measurements bits (KX1341211Data.resolution l)
          (KX1341211Data.padding l) = Ok (KX1341211Data.measurements r))
  /\ map (dict_get kx134_1211_dic)
       [L "0x0"; L "0x1"; L "0x2"; L "0x3"; L "0x4"; L "0x5"; L "0x6"; L "0x7";
        L "0x8"; L "0x9"; L "0xa"; L "0xb"; L "0xc"; L "0xd"; L "0xe"; L "0xf"]
     = map Ok data_rate_table
  /\ map (dict_get kx134_1211_dic)
       [L "0xA"; L "0xB"; L "0xC"; L "0xD"; L "0xE"; L "0xF"]
     = map (dict_get kx134_1211_dic)
         [L "0xa"; L "0xb"; L "0xc"; L "0xd"; L "0xe"; L "0xf"]
  /\ data_rate_of 0 = (781 # 1000)%Q
  /\ data_rate_of 15 = (25600 # 1)%Q
  /\ (forall code, 2 <= code < 15 ->
        (data_rate_of (code + 1) == 2 * data_rate_of code)%Q)
  /\ KX1341211Data.full_scale_range_of 0 = 8
  /\ KX1341211Data.full_scale_range_of 1 = 16
  /\ KX1341211Data.full_scale_range_of 2 = 32
  /\ KX1341211Data.full_scale_range_of 3 = 64
  /\ (forall n, ~ 0 <= n <= 3 -> KX1341211Data.full_scale_range_of n = -1).
Proof.
  intros H Hl bits rate_code range_code.
  pose proof (bitstring_bits_of_hex raw) as Hb. fold bits in Hb.
  assert (48 <= length bits)%nat as Hlen
    by (unfold bits; rewrite length_bits_of_hex; lia).
  split.
  - eexists. eexists. eexists.
    split; [apply hex_to_bin_hex, H|].
    split; [apply setup_header_bits; assumption|].
    split; [apply KX1341211Data_setup_hex; assumption|].
    cbn [KX1341211Data.time_stamp KX1341211Data.data_rate
           KX1341211Data.full_scale_range KX1341211Data.corner_freq
           KX1341211Data.measurements KX1341211Data.resolution KX1341211Data.padding].
    fold bits.
    split.
    { change (slice 0 32 bits) with (slice (4 * 0) (4 * 8) (bits_of_hex raw)).
      rewrite slice_bits_of_hex. apply unsigned_bits_of_hex, hexstring_slice, H. }
    split; [apply (unsigned_slice_range 32 36 bits Hb); lia|].
    split; [reflexivity|].
    split; [apply (unsigned_slice_range 36 38 bits Hb); lia|].
    split; [reflexivity|]. split; [reflexivity|].
    destruct (getitem_bits bits 38 Hb ltac:(lia)) as (c & Hc & _ & Hcb).
    destruct (getitem_bits bits 39 Hb ltac:(lia)) as (d & Hd & _ & Hdb).
    split; [rewrite Hc; destruct Hcb as [-> | ->]; tauto|].
    split; [intros E; rewrite decide_True by exact E; apply Qred_correct|].
    split.
    { intros E. rewrite decide_False by (rewrite E; discriminate). apply Qred_correct. }
    split; [rewrite Hd; destruct Hdb as [-> | ->]; tauto|].
    unfold kx_resolution.
    split; [intros E; rewrite decide_True by exact E; reflexivity|].
    split.
    { intros E. rewrite decide_False by (rewrite E; discriminate). reflexivity. }
    split; [reflexivity|].
    apply setup_measurements_bits; assumption.
  - do 4 (split; [reflexivity|]).
    split.
    { intros code Hc.
      assert (exists n, code = Z.of_nat n /\ (2 <= n < 15)%nat) as (n & -> & Hn)
        by (exists (Z.to_nat code); lia).
      do 2 (destruct n as [|n]; [lia|]).
      do 13 (destruct n as [|n]; [reflexivity|]). lia. }
    do 4 (split; [reflexivity|]).
    intros n Hn. unfold KX1341211Data.full_scale_range_of.
    destruct (Z.eqb_spec n 0); [lia|]. destruct (Z.eqb_spec n 1); [lia|].
    destruct (Z.eqb_spec n 2); [lia|]. destruct (Z.eqb_spec n 3); [lia|reflexivity].
Qed.

Lemma KX134_header_witness :
  exists r,
    KX1341211Data.setup (L "000003E8A400010203FF080F") = Ok r
    /\ KX1341211Data.time_stamp r = 1000
    /\ KX1341211Data.data_rate r = (800 # 1)%Q
    /\ KX1341211Data.full_scale_range r = 16.
Proof.
  destruct (KX134_header (L "000003E8A400010203FF080F"))
    as ((r & l & cf & _ & _ & E & Ht & _ & Hd & _ & Hf & _) & _).
  - reflexivity.
  - simpl. lia.
  - exists r. split; [exact E|]. rewrite Ht, Hd, Hf. repeat split.
Defined.

(** C10.  Whenever the decoder returns a record, whatever the payload, its
    full-scale range is 8, 16, 32 or 64: the code is read from two binary
    digits, so the branch of -1 is never taken. *)
Theorem KX134_full_scale_range (raw : str) (r : KX1341211Data.t) :
  KX1341211Data.setup raw = Ok r ->
  KX1341211Data.full_scale_range r = 8 \/ KX1341211Data.full_scale_range r = 16
  \/ KX1341211Data.full_scale_range r = 32 \/ KX1341211Data.full_scale_range r = 64.
Proof.
  unfold KX1341211Data.setup. intros H.
  bind_inv H as raw_bin Hbin. bind_inv H as l Hhdr. bind_inv H as ms Hms.
  injection H as <-.
  cbn [KX1341211Data.full_scale_range].
  destruct (hex_to_bin_ok _ _ Hbin) as (body & _ & _ & ->).
  pose proof (bitstring_bits_of_hex body) as Hb.
  unfold KX1341211Data.setup_header in Hhdr.
  bind_inv Hhdr as t Ht. bind_inv Hhdr as code Hcode. cbv zeta in Hhdr.
  bind_inv Hhdr as rate Hrate. bind_inv Hhdr as fc Hfc.
  bind_inv Hhdr as c Hc. bind_inv Hhdr as d Hd. bind_inv Hhdr as p Hp.
  injection Hhdr as <-.
  cbn [KX1341211Data.l_full_scale_range].
  apply full_scale_range_cases.
  set (s := slice 36 38 (bits_of_hex body)) in *.
  assert (bitstring s = true) as Hs by (apply bitstring_slice, Hb).
  destruct s as [|c0 s'] eqn:Es; [discriminate Hfc|].
  rewrite int_bits in Hfc by (first [exact Hs | discriminate]). injection Hfc as <-.
  pose proof (unsigned_range _ Hs) as Hr.
  assert (length (c0 :: s') <= 2)%nat as Hlen.
  { rewrite <- Es. subst s. rewrite length_slice_min. lia. }
  assert (2 ^ Z.of_nat (length (c0 :: s')) <= 2 ^ 2) as Hpow
    by (apply Z.pow_le_mono_r; lia).
  lia.
Qed.

Lemma KX134_full_scale_range_witness :
  exists r,
    KX1341211Data.setup (L "000003E8A400010203FF080F") = Ok r
    /\ (KX1341211Data.full_scale_range r = 8 \/ KX1341211Data.full_scale_range r = 16
        \/ KX1341211Data.full_scale_range r = 32
        \/ KX1341211Data.full_scale_range r = 64).
Proof.
  eexists. split; [vm_compute; reflexivity|].
  apply (KX134_full_scale_range (L "000003E8A400010203FF080F")).
  vm_compute. reflexivity.
Defined.

End KX134.


(** ** KX134: the measurement sequence *)

Section KX134Measurements.

(** C3 as stated fails.  At resolution 8 with no padding, five sample bytes
    01..05 give a second measurement with no values for the partial chunk
    0405, which is not dropped; and with 8 padding bits after six bytes
    01..06 the second chunk 040506 is decoded although its last byte is the
    padding. *)
Lemma KX134_partial_chunk_kept :
  (exists r,
     KX1341211Data.setup (L "000003E8A4000102030405") = Ok r
     /\ KX1341211Data.measurements r
        = [KX1341211Data.Measurement.mk (Some 1) (Some 2) (Some 3);
           KX1341211Data.Measurement.mk None None None]
     /\ spec_measurements (bits_of_hex (L "000003E8A4000102030405"))
        = [KX1341211Data.Measurement.mk (Some 1) (Some 2) (Some 3)]
     /\ KX1341211Data.measurements r
        <> spec_measurements (bits_of_hex (L "000003E8A4000102030405")))
  /\ (exists r,
        KX1341211Data.setup (L "000003E8A401010203040506") = Ok r
        /\ kx_padding (bits_of_hex (L "000003E8A401010203040506")) = 8%nat
        /\ KX1341211Data.measurements r
           = [KX1341211Data.Measurement.mk (Some 1) (Some 2) (Some 3);
              KX1341211Data.Measurement.mk (Some 4) (Some 5) (Some 6)]
        /\ spec_measurements (bits_of_hex (L "000003E8A401010203040506"))
           = [KX1341211Data.Measurement.mk (Some 1) (Some 2) (Some 3)]).
Proof.
  split; eexists; (split; [vm_compute; reflexivity|]).
  - split; [reflexivity|]. split; [vm_compute; reflexivity|].
    vm_compute. discriminate.
  - split; [vm_compute; reflexivity|]. split; [reflexivity|].
    vm_compute. reflexivity.
Qed.

Lemma spec_chunk_length (bits : str) (k : nat) :
  let chunk_size := (3 * kx_resolution bits)%nat in
  (k < length (spec_region bits) / chunk_size)%nat ->
  length (slice (k * chunk_size) (k * chunk_size + chunk_size) (spec_region bits))
  = chunk_size.
Proof.
  intros chunk_size Hk.
  assert (0 < chunk_size)%nat as Hcs
    by (unfold chunk_size; destruct (kx_resolution_cases bits) as [-> | ->]; lia).
  pose proof (Nat.div_mod_eq (length (spec_region bits)) chunk_size) as Hd.
  rewrite length_slice; [lia|]. nia.
Qed.

(** C3, amended.  For every payload of at least 12 hexadecimal digits the
    decoder returns a record with one measurement per offset of
    [range(0, len(data) - padding, 3 * resolution)], built from the chunk cut at
    that offset from the data after bit 48: a whole chunk of 48 bits gives
    three unsigned 16-bit values, one of 24 bits three values of
    [signed_bin_str_to_int], a chunk of any other length a measurement without
    values.  When the data without its padding is a whole number of chunks,
    the measurements are those of the sample region of the specification, in
    order, one per chunk and none from a padding bit: equal to them at
    resolution 16, and at resolution 8 equal on every axis whose 8-bit
    sub-chunk is not one of the patterns 8..15. *)
Theorem KX134_measurements (raw : str) :
  hexstring raw = true -> (12 <= length raw)%nat ->
  let bits := bits_of_hex raw in
  let resolution := kx_resolution bits in
  let chunk_size := (3 * resolution)%nat in
  exists r,
    KX1341211Data.setup raw = Ok r
    /\ KX1341211Data.measurements r = map measurement_of (kx_chunks bits)
    /\ (((length (drop 48 bits) - kx_padding bits) `mod` chunk_size = 0)%nat ->
        length (KX1341211Data.measurements r) = length (spec_measurements bits)
        /\ length (spec_measurements bits)
           = ((length (drop 48 bits) - kx_padding bits) / chunk_size)%nat
        /\ forall (k : nat) (m s : KX1341211Data.Measurement.t),
             KX1341211Data.measurements r !! k = Some m ->
             spec_measurements bits !! k = Some s ->
             let chunk :=
               slice (k * chunk_size) (k * chunk_size + chunk_size) (spec_region bits) in
             (resolution = 16%nat -> m = s)
             /\ (resolution = 8%nat ->
                 (~ 8 <= unsigned (slice 0 8 chunk) < 16 ->
                    KX1341211Data.Measurement.x_accel m
                    = KX1341211Data.Measurement.x_accel s)
                 /\ (~ 8 <= unsigned (slice 8 16 chunk) < 16 ->
                       KX1341211Data.Measurement.y_accel m
                       = KX1341211Data.Measurement.y_accel s)
                 /\ (~ 8 <= unsigned (slice 16 24 chunk) < 16 ->
                       KX1341211Data.Measurement.z_accel m
                       = KX1341211Data.Measurement.z_accel s))).
Proof.
  intros H Hl bits resolution chunk_size.
  eexists. split; [apply KX1341211Data_setup_hex; assumption|].
  cbn [KX1341211Data.measurements]. fold bits.
  split; [reflexivity|].
  intros Hmod. rewrite (kx_chunks_whole bits Hmod).
  fold resolution chunk_size. unfold spec_measurements. fold resolution chunk_size.
  rewrite !length_map, !length_seq.
  split; [reflexivity|].
  split.
  { unfold spec_region. rewrite length_take. f_equal. lia. }
  intros k m s Hm Hs.
  set (chunk := slice (k * chunk_size) (k * chunk_size + chunk_size) (spec_region bits)).
  rewrite map_map, lookup_map_seq in Hm. rewrite lookup_map_seq in Hs.
  destruct (decide (k < length (spec_region bits) / chunk_size)%nat) as [Hk|_];
    [|discriminate Hm].
  injection Hm as <-. injection Hs as <-. fold chunk.
  pose proof (spec_chunk_length bits k Hk) as Hlen. fold resolution chunk_size chunk in Hlen.
  assert (bitstring chunk = true) as Hb
    by (apply bitstring_slice, bitstring_spec_region, bitstring_bits_of_hex).
  split.
  - intros E. unfold chunk_size in Hlen. rewrite E in Hlen |- *.
    unfold measurement_of, spec_measurement.
    rewrite decide_False by lia. rewrite decide_True by exact Hlen.
    rewrite decide_False by lia. reflexivity.
  - intros E. unfold chunk_size in Hlen. rewrite E in Hlen |- *.
    unfold measurement_of, spec_measurement.
    rewrite decide_True by exact Hlen. rewrite decide_True by reflexivity.
    cbn [KX1341211Data.Measurement.x_accel KX1341211Data.Measurement.y_accel
           KX1341211Data.Measurement.z_accel].
    repeat split; intros Hv; f_equal;
      (apply decoded_byte_twos_complement;
       [apply bitstring_slice, Hb | rewrite length_slice; lia | exact Hv]).
Qed.

Lemma KX134_measurements_witness :
  exists r,
    KX1341211Data.setup (L "000003E8A401FF020300") = Ok r
    /\ KX1341211Data.measurements r
       = [KX1341211Data.Measurement.mk (Some (-1)) (Some 2) (Some 3)]
    /\ length (KX1341211Data.measurements r)
       = length (spec_measurements (bits_of_hex (L "000003E8A401FF020300"))).
Proof.
  destruct (KX134_measurements (L "000003E8A401FF020300"))
    as (r & E & Hm & Hw).
  - reflexivity.
  - simpl. lia.
  - exists r. split; [exact E|]. split; [rewrite Hm; vm_compute; reflexivity|].
    apply Hw. vm_compute. reflexivity.
Defined.

End KX134Measurements.


(** ** GNSSMetaData *)

Section MetaData.

(** [bin] writes a number back as the digits it was read from, once the
    leading digit is 1. *)
Lemma bin_pos_unsigned (s : str) :
  bitstring s = true ->
  exists p, unsigned ("1"%char :: s) = Zpos p /\ bin_pos p = "1"%char :: s.
Proof.
  induction s as [|c s IH] using rev_ind; intros H.
  - exists xH. split; reflexivity.
  - apply bitstring_app in H as [Hs Hc]. destruct (IH Hs) as (p & Hp & Hb).
    rewrite app_comm_cons, unsigned_app, Hp.
    apply bitstring_cons in Hc as [Hc _].
    destruct (is_bit_cases c Hc) as [-> | ->].
    + exists (xO p). change (2 ^ Z.of_nat (length ["0"%char])) with 2.
      change (unsigned ["0"%char]) with 0.
      split; [lia|]. simpl. rewrite Hb. reflexivity.
    + exists (xI p). change (2 ^ Z.of_nat (length ["1"%char])) with 2.
      change (unsigned ["1"%char]) with 1.
      split; [lia|]. simpl. rewrite Hb. reflexivity.
Qed.

Lemma bin_unsigned (bits : str) :
  bitstring bits = true -> bits !! 0%nat = Some "1"%char ->
  bin (unsigned bits) = L "0b" ++ bits.
Proof.
  intros H H0. destruct bits as [|c s]; [discriminate H0|].
  injection H0 as ->. apply bitstring_cons in H as [_ H].
  destruct (bin_pos_unsigned s H) as (p & -> & Hb). simpl. rewrite Hb. reflexivity.
Qed.

Lemma slice_prefix2 {A : Type} (a b : nat) (x y : A) (s : list A) :
  slice (S (S a)) (S (S b)) (x :: y :: s) = slice a b s.
Proof. reflexivity. Qed.

Lemma sats_of_bitmap_in (bitmap : str) (i : nat) :
  (i < 32)%nat ->
  In (Z.of_nat i + 1) (sats_of_bitmap bitmap) <-> bitmap !! i = Some "1"%char.
Proof.
  intros Hi. unfold sats_of_bitmap. rewrite in_flat_map. split.
  - intros (j & _ & Hj). destruct (decide (bitmap !! j = Some "1"%char)) as [E|_].
    + destruct Hj as [Hj|[]]. replace i with j by lia. exact E.
    + destruct Hj.
  - intros E. exists i. split; [apply in_seq; lia|].
    rewrite decide_True by exact E. left. reflexivity.
Qed.

(** The loop over the two bitmaps. *)
Lemma sats_loop (gps_bits glonass_bits : str) (n k : nat) (gps glonass : list Z) :
  (k + n <= length gps_bits)%nat -> (k + n <= length glonass_bits)%nat ->
  let select (bitmap : str) :=
    flat_map (fun i => if decide (bitmap !! i = Some "1"%char)
                       then [Z.of_nat i + 1] else []) (seq k n) in
  for_each (GNSSMetaData.sats_step gps_bits glonass_bits) (gps, glonass) (seq k n)
  = Ok (gps ++ select gps_bits, glonass ++ select glonass_bits).
Proof.
  revert k gps glonass. induction n as [|n IH]; intros k gps glonass Hg Hr select.
  - simpl. rewrite !app_nil_r. reflexivity.
  - cbn [seq for_each].
    destruct (lookup_lt_is_Some_2 gps_bits k ltac:(lia)) as [c Hc].
    destruct (lookup_lt_is_Some_2 glonass_bits k ltac:(lia)) as [d Hd].
    assert (GNSSMetaData.sats_step gps_bits glonass_bits (gps, glonass) k
            = Ok (if decide (c = "1"%char) then gps ++ [Z.of_nat k + 1] else gps,
                  if decide (d = "1"%char) then glonass ++ [Z.of_nat k + 1] else glonass))
      as Hstep.
    { unfold GNSSMetaData.sats_step, getitem. rewrite Hc, Hd. reflexivity. }
    rewrite Hstep. step.
    rewrite IH by lia. unfold select.
    change (seq k (S n)) with (k :: seq (S k) n).
    change (flat_map ?f (k :: ?l)) with (f k ++ flat_map f l).
    cbv beta.
    repeat match goal with
           | |- context [decide ?P] => destruct (decide P)
           end;
      rewrite <- ?app_assoc; try reflexivity; congruence.
Qed.

Lemma Info_setup_bits (w : str) :
  bitstring w = true -> length w = 32%nat ->
  GNSSMetaData.Info.setup w = Ok (info_of_window w).
Proof.
  intros H Hl. unfold GNSSMetaData.Info.setup, info_of_window.
  rewrite !int_bits_slice by (first [exact H | lia]). step.
  destruct (getitem_bits w 31 H ltac:(lia)) as (c & Hc & -> & Hcb).
  step. rewrite Hc.
  destruct Hcb as [-> | ->]; reflexivity.
Qed.

(** The loop over the satellite records inserts them in order. *)
Lemma info_loop (sat_info : str) (l : list nat) (d : gmap Z GNSSMetaData.Info.t) :
  bitstring sat_info = true ->
  (forall i, In i l -> (i * 32 + 32 <= length sat_info)%nat) ->
  for_each (GNSSMetaData.info_step sat_info) d l
  = Ok (foldl (fun d m => <[GNSSMetaData.Info.ID m := m]> d) d
          (map (fun i => info_of_window (slice (i * 32) (i * 32 + 32) sat_info)) l)).
Proof.
  intros H. revert d. induction l as [|i l IH]; intros d Hl; [reflexivity|].
  cbn [for_each map foldl].
  assert (GNSSMetaData.info_step sat_info d i
          = Ok (<[GNSSMetaData.Info.ID
                    (info_of_window (slice (i * 32) (i * 32 + 32) sat_info))
                  := info_of_window (slice (i * 32) (i * 32 + 32) sat_info)]> d)) as ->.
  { unfold GNSSMetaData.info_step.
    rewrite Info_setup_bits
      by (first [apply bitstring_slice, H
                | rewrite length_slice; [lia|apply Hl; left; reflexivity]]).
    reflexivity. }
  step. apply IH. intros j Hj. apply Hl. right. exact Hj.
Qed.

Lemma last_cons_cons {A : Type} (x y : A) (l : list A) :
  last (x :: y :: l) = last (y :: l).
Proof. reflexivity. Qed.

(** Looking up an identifier after the insertions finds the last record that
    carries it. *)
Lemma lookup_inserted (infos : list GNSSMetaData.Info.t)
    (d : gmap Z GNSSMetaData.Info.t) (key : Z) :
  foldl (fun d m => <[GNSSMetaData.Info.ID m := m]> d) d infos !! key
  = match last_with_id key infos with
    | Some m => Some m
    | None => d !! key
    end.
Proof.
  revert d. induction infos as [|m infos IH]; intros d; [reflexivity|].
  cbn [foldl]. rewrite IH. unfold last_with_id. cbn [List.filter].
  destruct (Z.eqb_spec (GNSSMetaData.Info.ID m) key) as [E|N].
  - destruct (List.filter _ infos) as [|x l] eqn:Ef.
    + simpl. rewrite <- E. apply lookup_insert_eq.
    + rewrite last_cons_cons. destruct (last (x :: l)) eqn:El; [reflexivity|].
      apply last_None in El. discriminate El.
  - destruct (last (List.filter _ infos)); [reflexivity|].
    apply lookup_insert_ne, N.
Qed.

End MetaData.


(** ** GNSSMetaData: layout *)

Section MetaDataLayout.

Lemma slice_drop {A : Type} (n a b : nat) (s : list A) :
  slice a b (drop n s) = slice (n + a) (n + b) s.
Proof. unfold slice. rewrite drop_drop. f_equal. lia. Qed.

Lemma lookup_slice {A : Type} (a b i : nat) (s : list A) :
  (i < b - a)%nat -> slice a b s !! i = s !! (a + i)%nat.
Proof. intros Hi. unfold slice. rewrite lookup_take_lt by lia. apply lookup_drop. Qed.

Lemma GNSSMetaData_setup_hex (raw : str) :
  hexstring raw = true -> (24 <= length raw)%nat ->
  let bits := bits_of_hex raw in
  bits !! 0%nat = Some "1"%char ->
  GNSSMetaData.setup raw
  = Ok (GNSSMetaData.mk
          (unsigned_hex (slice 0 8 raw))
          (sats_of_bitmap (slice 32 64 bits))
          (sats_of_bitmap (slice 64 96 bits))
          (foldl (fun d m => <[GNSSMetaData.Info.ID m := m]> d) ∅
             (map info_of_window (sat_windows 96 bits)))).
Proof.
  intros H Hl bits H0.
  pose proof (bitstring_bits_of_hex raw) as Hb. fold bits in Hb.
  assert (length bits = (4 * length raw)%nat) as Hlen by apply length_bits_of_hex.
  unfold GNSSMetaData.setup.
  rewrite hex_str_to_int_slice by (first [exact H | lia]).
  rewrite int_hex by (first [exact H | intros ->; simpl in Hl; lia]).
  step.
  rewrite <- (unsigned_bits_of_hex raw H). fold bits.
  rewrite (bin_unsigned bits Hb H0).
  change (slice 34 66 (L "0b" ++ bits)) with (slice 32 64 bits).
  change (slice 66 98 (L "0b" ++ bits)) with (slice 64 96 bits).
  change (drop 98 (L "0b" ++ bits)) with (drop 96 bits).
  unfold range.
  rewrite (sats_loop (slice 32 64 bits) (slice 64 96 bits) 32 0 [] [])
    by (rewrite length_slice; lia).
  cbn [mbind result_bind fst snd app]. fold (sats_of_bitmap (slice 32 64 bits)).
  fold (sats_of_bitmap (slice 64 96 bits)).
  rewrite info_loop.
  - step. do 3 f_equal.
    unfold sat_windows. rewrite map_map, length_drop.
    apply map_ext. intros i. f_equal. rewrite slice_drop. f_equal; lia.
  - apply bitstring_drop, Hb.
  - intros i Hi%in_seq.
    pose proof (Nat.div_mod_eq (length (drop 96 bits)) 32). lia.
Qed.

(** C2 as stated fails: the decoder indexes [bin(int(raw, 16))], whose first
    two characters are the prefix 0b, so offset 34 is bit 32 of the payload.
    With bits 0, 32 and 65 set, the decoder reports GPS satellite 1 and
    GLONASS satellite 2; bits 34..66 and 66..98 of the bitstring would give GPS
    satellite 32 and no GLONASS satellite. *)
Lemma GNSSMetaData_offsets :
  exists r,
    GNSSMetaData.setup (L "800000008000000040000000") = Ok r
    /\ GNSSMetaData.gps_sats_in_use r = [1]
    /\ GNSSMetaData.glonass_sats_in_use r = [2]
    /\ sats_of_bitmap (slice 34 66 (bits_of_hex (L "800000008000000040000000"))) = [32]
    /\ sats_of_bitmap (slice 66 98 (bits_of_hex (L "800000008000000040000000"))) = []
    /\ GNSSMetaData.gps_sats_in_use r
       <> sats_of_bitmap (slice 34 66 (bits_of_hex (L "800000008000000040000000"))).
Proof.
  eexists. split; [vm_compute; reflexivity|].
  split; [reflexivity|]. split; [reflexivity|].
  split; [vm_compute; reflexivity|]. split; [vm_compute; reflexivity|].
  vm_compute. discriminate.
Qed.

(** C2, amended.  For every payload of at least 24 hexadecimal digits whose
    first bit is 1, with [bits] its bitstring, the decoder returns a record
    whose GPS satellites are those of the bitmap at bits 32..64 (bit [i] of the
    bitmap set exactly when satellite [i + 1] is listed), whose GLONASS
    satellites are those of the bitmap at bits 64..96, and whose satellite
    dictionary holds, from bit 96 on, the [(len - 96) / 32] whole 32-bit
    windows (elevation at window bits 0..8, SNR 8..16, id 16..21, azimuth
    21..30, type from window bit 31), inserted in order, so that an identifier
    maps to the last window that carries it. *)
Theorem GNSSMetaData_layout (raw : str) :
  hexstring raw = true -> (24 <= length raw)%nat ->
  let bits := bits_of_hex raw in
  bits !! 0%nat = Some "1"%char ->
  exists r,
    GNSSMetaData.setup raw = Ok r
    /\ GNSSMetaData.mission_time r = unsigned_hex (slice 0 8 raw)
    /\ GNSSMetaData.gps_sats_in_use r = sats_of_bitmap (slice 32 64 bits)
    /\ GNSSMetaData.glonass_sats_in_use r = sats_of_bitmap (slice 64 96 bits)
    /\ (forall i, (i < 32)%nat ->
          (In (Z.of_nat i + 1) (GNSSMetaData.gps_sats_in_use r)
           <-> bits !! (32 + i)%nat = Some "1"%char)
          /\ (In (Z.of_nat i + 1) (GNSSMetaData.glonass_sats_in_use r)
              <-> bits !! (64 + i)%nat = Some "1"%char))
    /\ length (sat_windows 96 bits) = ((length bits - 96) / 32)%nat
    /\ (forall w, In w (sat_windows 96 bits) -> length w = 32%nat)
    /\ forall key,
         GNSSMetaData.sat_info r !! key
         = last_with_id key (map info_of_window (sat_windows 96 bits)).
Proof.
  intros H Hl bits H0. eexists.
  split; [apply GNSSMetaData_setup_hex; assumption|].
  cbn [GNSSMetaData.mission_time GNSSMetaData.gps_sats_in_use
         GNSSMetaData.glonass_sats_in_use GNSSMetaData.sat_info].
  fold bits. do 3 (split; [reflexivity|]).
  split.
  { intros i Hi. rewrite !sats_of_bitmap_in by exact Hi.
    rewrite !lookup_slice by lia. tauto. }
  split; [unfold sat_windows; rewrite length_map, length_seq; reflexivity|].
  split.
  { intros w Hw. unfold sat_windows in Hw. apply in_map_iff in Hw as (i & <- & Hi%in_seq).
    rewrite length_slice; [lia|].
    pose proof (Nat.div_mod_eq (length bits - 96) 32). lia. }
  intros key. rewrite lookup_inserted, lookup_empty.
  destruct (last_with_id key _); reflexivity.
Qed.

Lemma GNSSMetaData_layout_witness :
  exists r,
    GNSSMetaData.setup (L "8000000080000000400000000102FFFF0304FFFE") = Ok r
    /\ GNSSMetaData.gps_sats_in_use r = [1]
    /\ GNSSMetaData.glonass_sats_in_use r = [2]
    /\ GNSSMetaData.sat_info r !! 31
       = Some (GNSSMetaData.Info.mk 3 4 31 511 "GPS").
Proof.
  destruct (GNSSMetaData_layout (L "8000000080000000400000000102FFFF0304FFFE"))
    as (r & E & _ & Hg & Hr & _ & _ & _ & Hi).
  - reflexivity.
  - simpl. lia.
  - reflexivity.
  - exists r. split; [exact E|]. rewrite Hg, Hr, Hi.
    repeat split; vm_compute; reflexivity.
Defined.

End MetaDataLayout.

(** When the first bit of the payload is 0, [bin] drops the leading zeros and
    every offset moves: a mission time of 1 ms leaves too few characters for
    the GLONASS bitmap, and a first nibble of 4 moves the bitmaps by one bit,
    so that the GPS bit of satellite 1 is lost. *)
Remark GNSSMetaData_leading_zeros :
  GNSSMetaData.setup (L "000000018000000040000000") = Raise IndexError
  /\ (exists r,
        GNSSMetaData.setup (L "40000000800000004000000000000000") = Ok r
        /\ GNSSMetaData.gps_sats_in_use r = []
        /\ GNSSMetaData.glonass_sats_in_use r = [1])
  /\ sats_of_bitmap (slice 32 64 (bits_of_hex (L "40000000800000004000000000000000")))
     = [1]
  /\ sats_of_bitmap (slice 64 96 (bits_of_hex (L "40000000800000004000000000000000")))
     = [2].
Proof.
  split; [vm_compute; reflexivity|].
  split; [eexists; split; [vm_compute; reflexivity|split; reflexivity]|].
  split; vm_compute; reflexivity.
Qed.


(** * Further properties of the decoders *)

(** ** The signed decoders on every input *)

Section SignedDecoders.

Lemma hex_digits_length (k fuel : nat) (n : Z) :
  (0 < k)%nat -> (k <= fuel)%nat ->
  16 ^ (Z.of_nat k - 1) <= n < 16 ^ Z.of_nat k ->
  length (hex_digits fuel n) = k.
Proof.
  revert fuel n. induction k as [|k IH]; intros fuel n Hk Hf Hn; [lia|].
  destruct fuel as [|fuel]; [lia|]. cbn [hex_digits].
  rewrite length_app. cbn [length].
  replace (Z.of_nat (S k) - 1) with (Z.of_nat k) in Hn by lia.
  rewrite Nat2Z.inj_succ, Z.pow_succ_r in Hn by lia.
  destruct (Z.ltb_spec n 16) as [Hlt|Hge].
  - destruct k as [|k]; [reflexivity|].
    rewrite Nat2Z.inj_succ, Z.pow_succ_r in Hn by lia.
    assert (0 < 16 ^ Z.of_nat k) by (apply Z.pow_pos_nonneg; lia). lia.
  - destruct k as [|k]; [simpl in Hn; lia|].
    rewrite (IH fuel (n / 16)); [lia|lia|lia|].
    replace (Z.of_nat (S k)) with (Z.succ (Z.of_nat (S k) - 1)) in Hn at 1 by lia.
    rewrite Z.pow_succ_r in Hn by lia.
    split; [apply Z.div_le_lower_bound; lia|apply Z.div_lt_upper_bound; lia].
Qed.

(** [hex] writes a positive number below [16^k] and not below [16^(k-1)]
    with exactly [k] digits. *)
Lemma hex_shape (n : Z) (k : nat) :
  (0 < k)%nat -> 16 ^ (Z.of_nat k - 1) <= n < 16 ^ Z.of_nat k ->
  exists ds, hex n = L "0x" ++ ds /\ hexstring ds = true /\ length ds = k
             /\ unsigned_hex ds = n.
Proof.
  intros Hk Hn.
  assert (0 < n) as Hpos
    by (assert (0 < 16 ^ (Z.of_nat k - 1)) by (apply Z.pow_pos_nonneg; lia); lia).
  destruct n as [|p|p]; try lia.
  pose proof (size_nat_bound p) as Hs.
  assert (k <= Pos.size_nat p)%nat as Hfuel.
  { assert (2 ^ (4 * (Z.of_nat k - 1)) < 2 ^ Z.of_nat (Pos.size_nat p)) as Hlt.
    { rewrite Z.pow_mul_r by lia. change (2 ^ 4) with 16. lia. }
    apply Z.pow_lt_mono_r_iff in Hlt; lia. }
  exists (hex_digits (Pos.size_nat p) (Z.pos p)).
  destruct (hex_digits_value (Pos.size_nat p) (Z.pos p)) as (Hh & _ & Hu).
  - lia.
  - split; [lia|].
    assert (2 ^ Z.of_nat (Pos.size_nat p) <= 16 ^ Z.of_nat (Pos.size_nat p))
      by (apply Z.pow_le_mono_l; lia).
    lia.
  - split; [reflexivity|]. split; [exact Hh|].
    split; [apply hex_digits_length; assumption|exact Hu].
Qed.

Lemma signed_hex_prefixed (h : str) :
  hexstring h = true ->
  signed_hex_str_to_int (L "0x" ++ h) = signed_hex_str_to_int h.
Proof.
  intros H. unfold signed_hex_str_to_int.
  rewrite hex_to_bin_prefixed, hex_to_bin_hex by exact H. reflexivity.
Qed.

Lemma signed_hex_value (h : str) :
  hexstring h = true -> h <> [] ->
  signed_hex_str_to_int h
  = Ok (twos_complement (4 * Z.of_nat (length h)) (unsigned_hex h)).
Proof.
  intros H Hne. rewrite signed_hex_str_to_int_hex by assumption.
  rewrite signed_from_bits_twos_complement
    by (first [apply bitstring_bits_of_hex | intros E%bits_of_hex_nil; congruence]).
  rewrite length_bits_of_hex, unsigned_bits_of_hex by exact H.
  do 2 f_equal. lia.
Qed.

Lemma twos_complement_range (w v : Z) :
  0 < w -> 0 <= v < 2 ^ w ->
  - 2 ^ (w - 1) <= twos_complement w v < 2 ^ (w - 1).
Proof.
  intros Hw Hv. unfold twos_complement.
  assert (2 ^ w = 2 * 2 ^ (w - 1)) as E
    by (rewrite <- Z.pow_succ_r by lia; f_equal; lia).
  destruct (Z.ltb_spec v (2 ^ (w - 1))); lia.
Qed.

Lemma unsigned_zeros (z : nat) (b : str) :
  unsigned (replicate z "0"%char ++ b) = unsigned b.
Proof.
  induction z as [|z IH]; [reflexivity|].
  cbn [replicate app]. rewrite unsigned_cons, IH. change (bit_val "0") with 0. lia.
Qed.

Lemma bitstring_zeros (z : nat) : bitstring (replicate z "0"%char) = true.
Proof. induction z as [|z IH]; [reflexivity|]. apply bitstring_cons. split; [reflexivity|exact IH]. Qed.

(** X1.  [signed_bin_str_to_int] reads a bitstring as two's complement over
    the smallest whole number of nibbles that holds its value, not over its
    own width: a value from [16^(k-1)] up to [16^k] is decoded over [4k]
    bits, and the value 0 gives 0.  Hence the result is the one of the
    specification formula exactly when the width is [4k] for that [k], that
    is, when the bitstring is a whole number of nibbles and its first nibble is
    not 0. *)
Theorem signed_bin_str_to_int_width (b : str) (k : nat) :
  bitstring b = true -> (0 < k)%nat ->
  16 ^ (Z.of_nat k - 1) <= unsigned b < 16 ^ Z.of_nat k ->
  signed_bin_str_to_int b = Ok (twos_complement (4 * Z.of_nat k) (unsigned b))
  /\ (length b = (4 * k)%nat -> signed_bin_str_to_int b = Ok (signed_from_bits b)).
Proof.
  intros H Hk Hv.
  assert (b <> []) as Hne by (intros ->; change (unsigned []) with 0 in Hv;
    assert (0 < 16 ^ (Z.of_nat k - 1)) by (apply Z.pow_pos_nonneg; lia); lia).
  assert (signed_bin_str_to_int b
          = Ok (twos_complement (4 * Z.of_nat k) (unsigned b))) as E.
  { unfold signed_bin_str_to_int. rewrite int_bits by assumption. step.
    destruct (hex_shape (unsigned b) k Hk Hv) as (ds & -> & Hh & Hl & Hu).
    rewrite signed_hex_prefixed by exact Hh.
    rewrite signed_hex_value by (first [exact Hh | intros ->; simpl in Hl; lia]).
    rewrite Hl, Hu. reflexivity. }
  split; [exact E|].
  intros Hl. rewrite E, signed_from_bits_twos_complement by assumption.
  rewrite Hl. do 2 f_equal. lia.
Qed.

Lemma signed_bin_str_to_int_width_witness :
  signed_bin_str_to_int (L "11111111") = Ok (-1)
  /\ signed_bin_str_to_int (L "000011111111") = Ok (-1).
Proof.
  split.
  - exact (proj1 (signed_bin_str_to_int_width (L "11111111") 2 eq_refl
                    ltac:(lia) ltac:(vm_compute; split; congruence))).
  - exact (proj1 (signed_bin_str_to_int_width (L "000011111111") 2 eq_refl
                    ltac:(lia) ltac:(vm_compute; split; congruence))).
Defined.

(** X2.  Leading zeros never reach [signed_bin_str_to_int]: a bitstring and
    the same bitstring behind any number of 0 digits decode alike, and a
    bitstring of zeros only decodes to 0; the empty string raises the
    [ValueError] of [int]. *)
Theorem signed_bin_str_to_int_leading_zeros (b : str) (z : nat) :
  bitstring b = true -> b <> [] ->
  signed_bin_str_to_int (replicate z "0"%char ++ b) = signed_bin_str_to_int b
  /\ signed_bin_str_to_int (replicate (S z) "0"%char) = Ok 0
  /\ signed_bin_str_to_int [] = Raise invalid_literal.
Proof.
  intros H Hne. split; [|split; [|reflexivity]].
  - unfold signed_bin_str_to_int.
    rewrite (int_bits b) by assumption.
    rewrite int_bits.
    + rewrite unsigned_zeros. reflexivity.
    + apply bitstring_app. split; [apply bitstring_zeros|exact H].
    + destruct z; [exact Hne|discriminate].
  - unfold signed_bin_str_to_int.
    rewrite int_bits by (first [apply bitstring_zeros | discriminate]).
    rewrite <- (app_nil_r (replicate (S z) _)), unsigned_zeros. reflexivity.
Qed.

Lemma signed_bin_str_to_int_leading_zeros_witness :
  signed_bin_str_to_int (L "0001000") = signed_bin_str_to_int (L "1000")
  /\ signed_bin_str_to_int (L "1000") = Ok (-8).
Proof.
  split; [|reflexivity].
  exact (proj1 (signed_bin_str_to_int_leading_zeros (L "1000") 3 eq_refl
                  ltac:(discriminate))).
Defined.

(** X3.  [signed_hex_str_to_int] on digits: a non-empty string of [n]
    hexadecimal digits gives its two's-complement value over [4n] bits, which
    lies from [-2^(4n-1)] up to [2^(4n-1)]; a leading lower-case [0x] changes
    nothing; without any digit the decoder raises [IndexError]; and the first
    character that is not a hexadecimal digit raises [KeyError]. *)
Theorem signed_hex_str_to_int_cases (h : str) :
  hexstring h = true ->
  (h <> [] ->
     exists v, signed_hex_str_to_int h = Ok v
               /\ v = twos_complement (4 * Z.of_nat (length h)) (unsigned_hex h)
               /\ - 2 ^ (4 * Z.of_nat (length h) - 1) <= v
                  < 2 ^ (4 * Z.of_nat (length h) - 1))
  /\ signed_hex_str_to_int (L "0x" ++ h) = signed_hex_str_to_int h
  /\ (h = [] -> signed_hex_str_to_int h = Raise IndexError)
  /\ (forall c h2, is_hex c = false -> slice 0 2 (h ++ c :: h2) <> L "0x" ->
        signed_hex_str_to_int (h ++ c :: h2) = Raise (KeyError [c])).
Proof.
  intros H. split; [|split; [|split]].
  - intros Hne. eexists. split; [apply signed_hex_value; assumption|].
    split; [reflexivity|].
    apply twos_complement_range; [destruct h; [congruence|simpl; lia]|].
    apply unsigned_hex_range, H.
  - apply signed_hex_prefixed, H.
  - intros ->. reflexivity.
  - intros c h2 Hc Hp. unfold signed_hex_str_to_int, hex_to_bin.
    rewrite decide_False by exact Hp.
    rewrite hex_to_bin_loop_bad by assumption. reflexivity.
Qed.

Lemma signed_hex_str_to_int_cases_witness :
  (exists v, signed_hex_str_to_int (L "FFFE") = Ok v /\ v = -2)
  /\ signed_hex_str_to_int (L "FFxE") = Raise (KeyError (L "x")).
Proof.
  destruct (signed_hex_str_to_int_cases (L "FFFE") eq_refl) as (H1 & _).
  destruct (signed_hex_str_to_int_cases (L "FF") eq_refl) as (_ & _ & _ & H4).
  split.
  - destruct (H1 ltac:(discriminate)) as (v & E & Hv & _).
    exists v. split; [exact E|]. rewrite Hv. reflexivity.
  - apply (H4 "x"%char (L "E")); [reflexivity|]. vm_compute. discriminate.
Defined.

(** X4.  [bin_to_hex] and [hex_to_bin] keep the value and lose the width:
    for a non-empty bitstring, [bin_to_hex] returns a literal that [hex_to_bin]
    expands to a whole number of nibbles of the same value, the value that
    [hex_str_to_int] reads from the literal; the empty string raises. *)
Theorem bin_to_hex_round_trip (b : str) :
  bitstring b = true -> b <> [] ->
  (exists h bits,
     bin_to_hex b = Ok h
     /\ hex_str_to_int h = Ok (unsigned b)
     /\ hex_to_bin h = Ok bits
     /\ bitstring bits = true
     /\ unsigned bits = unsigned b
     /\ (length bits `mod` 4 = 0)%nat
     /\ (0 < length bits)%nat)
  /\ bin_to_hex [] = Raise invalid_literal.
Proof.
  intros H Hne. split; [|reflexivity].
  unfold bin_to_hex. rewrite int_bits by assumption. step.
  pose proof (unsigned_range b H) as Hr.
  exists (hex (unsigned b)).
  assert (hex_str_to_int (hex (unsigned b)) = Ok (unsigned b)) as Hint
    by (apply int_of_hex; lia).
  assert (exists ds, hex (unsigned b) = L "0x" ++ ds /\ hexstring ds = true
                     /\ ds <> [] /\ unsigned_hex ds = unsigned b)
    as (ds & E & Hh & Hds & Hu).
  { destruct (unsigned b) as [|p|p] eqn:Ev; [|clear Hint|lia].
    - exists (L "0"). repeat split. discriminate.
    - exists (hex_digits (Pos.size_nat p) (Z.pos p)).
      destruct (hex_digits_value (Pos.size_nat p) (Z.pos p)) as (Hh & Hn & Hu).
      + destruct p; simpl; lia.
      + split; [lia|]. pose proof (size_nat_bound p).
        assert (2 ^ Z.of_nat (Pos.size_nat p) <= 16 ^ Z.of_nat (Pos.size_nat p))
          by (apply Z.pow_le_mono_l; lia).
        lia.
      + repeat split; assumption. }
  exists (bits_of_hex ds).
  split; [reflexivity|]. split; [exact Hint|].
  split; [rewrite E; apply hex_to_bin_prefixed, Hh|].
  split; [apply bitstring_bits_of_hex|].
  split; [rewrite unsigned_bits_of_hex by exact Hh; exact Hu|].
  rewrite length_bits_of_hex.
  split; [rewrite Nat.mul_comm; apply Nat.Div0.mod_mul|].
  destruct ds; [congruence|simpl; lia].
Qed.

Lemma bin_to_hex_round_trip_witness :
  exists h bits,
    bin_to_hex (L "0011010") = Ok h
    /\ hex_to_bin h = Ok bits
    /\ unsigned bits = 26.
Proof.
  destruct (proj1 (bin_to_hex_round_trip (L "0011010") eq_refl ltac:(discriminate)))
    as (h & bits & E & _ & Hb & _ & Hu & _).
  exists h, bits. split; [exact E|]. split; [exact Hb|]. rewrite Hu. reflexivity.
Defined.

End SignedDecoders.


(** ** The fixed-width decoders on every payload of digits *)

Section FixedWidthMore.

Lemma hex_str_to_int_slice_lt (a b : nat) (raw : str) :
  hexstring raw = true -> (a < b)%nat -> (a < length raw)%nat ->
  hex_str_to_int (slice a b raw) = Ok (unsigned_hex (slice a b raw)).
Proof.
  intros H Hab Ha. apply int_hex; [apply hexstring_slice, H|].
  intros E. apply (f_equal length) in E. rewrite length_slice_min in E.
  simpl in E. lia.
Qed.

Lemma hex_str_to_int_slice_empty (a b : nat) (raw : str) :
  (length raw <= a)%nat -> hex_str_to_int (slice a b raw) = Raise invalid_literal.
Proof.
  intros Ha. unfold slice. rewrite drop_ge by exact Ha. rewrite take_nil. reflexivity.
Qed.

(** X5.  [AngularVelocityData] checks no length: on a payload of hexadecimal
    digits it returns a record as soon as there are 21 of them, reading the z
    field from the digits that are left after nibble 20 (one to four), and
    raises the [ValueError] of [int] on an empty field when there are
    fewer. *)
Theorem AngularVelocityData_threshold (raw : str) (resolution : Z) :
  hexstring raw = true -> resolution <= 1000 ->
  ((length raw < 21)%nat ->
     AngularVelocityData.init raw resolution = Raise invalid_literal)
  /\ ((21 <= length raw)%nat ->
        exists t f x y z,
          AngularVelocityData.init raw resolution
          = Ok (AngularVelocityData.mk (Some t) (Some f) (Some x) (Some y) (Some z))
          /\ (z == inject_Z (unsigned_hex (slice 20 24 raw)) * inject_Z f
                   / inject_Z (2 ^ 15))%Q
          /\ length (slice 20 24 raw) = (4 `min` (length raw - 20))%nat).
Proof.
  intros H _. unfold AngularVelocityData.init, AngularVelocityData.set_time,
    AngularVelocityData.set_fsr, AngularVelocityData.set_x_velocity,
    AngularVelocityData.set_y_velocity, AngularVelocityData.set_z_velocity.
  split.
  - intros Hl.
    destruct (le_lt_dec (length raw) 0) as [L0|L0];
      [rewrite (hex_str_to_int_slice_empty 0 8) by exact L0; reflexivity|].
    rewrite (hex_str_to_int_slice_lt 0 8) by (first [exact H | lia]). step.
    destruct (le_lt_dec (length raw) 8) as [L1|L1];
      [rewrite (hex_str_to_int_slice_empty 8 12) by exact L1; reflexivity|].
    rewrite (hex_str_to_int_slice_lt 8 12) by (first [exact H | lia]). step.
    destruct (le_lt_dec (length raw) 12) as [L2|L2];
      [rewrite (hex_str_to_int_slice_empty 12 16) by exact L2; reflexivity|].
    rewrite (hex_str_to_int_slice_lt 12 16) by (first [exact H | lia]). step.
    cbn [AngularVelocityData.velocity AngularVelocityData.fsr]. step.
    destruct (le_lt_dec (length raw) 16) as [L3|L3];
      [rewrite (hex_str_to_int_slice_empty 16 20) by exact L3; reflexivity|].
    rewrite (hex_str_to_int_slice_lt 16 20) by (first [exact H | lia]). step.
    cbn [AngularVelocityData.velocity AngularVelocityData.fsr]. step.
    rewrite (hex_str_to_int_slice_empty 20 24) by lia. reflexivity.
  - intros Hl.
    rewrite !hex_str_to_int_slice_lt by (first [exact H | lia]).
    do 5 eexists. split; [reflexivity|].
    split; [apply angular_axis_value|apply length_slice_min].
Qed.

Lemma AngularVelocityData_threshold_witness :
  AngularVelocityData.init (L "000003E8800040002000") 16 = Raise invalid_literal
  /\ exists t f x y z,
       AngularVelocityData.init (L "000003E8800040002000F") 16
       = Ok (AngularVelocityData.mk (Some t) (Some f) (Some x) (Some y) (Some z))
       /\ (z == 30)%Q.
Proof.
  split.
  - apply (proj1 (AngularVelocityData_threshold (L "000003E8800040002000") 16
                    eq_refl ltac:(lia))).
    simpl. lia.
  - destruct (proj2 (AngularVelocityData_threshold (L "000003E8800040002000F") 16
                       eq_refl ltac:(lia)))
      as (t & f & x & y & z & E & Hz & _); [simpl; lia|].
    exists t, f, x, y, z. split; [exact E|].
    injection E as _ <- _ _ _. rewrite Hz. reflexivity.
Defined.

Lemma axis_bounds (n B : Z) :
  0 <= n < B * 2 ^ 15 ->
  (0 <= truediv (inject_Z n) (pow2 15)
   /\ truediv (inject_Z n) (pow2 15) < inject_Z B)%Q.
Proof.
  intros Hn. rewrite truediv_pow2_15. change (2 ^ 15) with 32768 in *.
  unfold Qle, Qlt, Qdiv, Qmult, Qinv, inject_Z. simpl. lia.
Qed.

Lemma axis_nonneg (n : Z) :
  0 <= n -> (0 <= truediv (inject_Z n) (pow2 15))%Q.
Proof.
  intros Hn. rewrite truediv_pow2_15. change (2 ^ 15) with 32768.
  unfold Qle, Qdiv, Qmult, Qinv, inject_Z. simpl. lia.
Qed.

Lemma angular_axis_nonneg (m f : Z) :
  0 <= m -> 0 <= f ->
  (0 <= Qred (inject_Z m * truediv (inject_Z f) (pow2 15)))%Q.
Proof.
  intros Hm Hf. rewrite angular_axis_value, <- inject_Z_mult.
  change (2 ^ 15) with 32768.
  unfold Qle, Qdiv, Qmult, Qinv, inject_Z. simpl. nia.
Qed.

(** X6.  The axes are read unsigned: for every payload of at least 24
    hexadecimal digits, the full-scale range and the three axes of
    [AccelerationData] and of [AngularVelocityData] are never negative; and for
    a resolution from 1 to 17 the range of [AccelerationData] stays below
    [2^(resolution-1)] and each axis below [2^resolution]. *)
Theorem axes_never_negative (raw : str) (resolution : Z) :
  hexstring raw = true -> (24 <= length raw)%nat -> resolution <= 1000 ->
  (exists t f x y z,
     AccelerationData.create_from_raw raw resolution
     = Ok (AccelerationData.mk resolution (Some t) (Some f) (Some x) (Some y) (Some z))
     /\ 0 <= f /\ (0 <= x)%Q /\ (0 <= y)%Q /\ (0 <= z)%Q
     /\ (1 <= resolution <= 17 ->
         f < 2 ^ (resolution - 1)
         /\ (x < inject_Z (2 ^ resolution))%Q
         /\ (y < inject_Z (2 ^ resolution))%Q
         /\ (z < inject_Z (2 ^ resolution))%Q))
  /\ (exists t f x y z,
        AngularVelocityData.init raw resolution
        = Ok (AngularVelocityData.mk (Some t) (Some f) (Some x) (Some y) (Some z))
        /\ 0 <= f /\ (0 <= x)%Q /\ (0 <= y)%Q /\ (0 <= z)%Q).
Proof.
  intros H Hl _.
  pose proof (unsigned_hex_16 8 raw H ltac:(lia)) as Hf. cbn [Nat.add] in Hf.
  pose proof (unsigned_hex_16 12 raw H ltac:(lia)) as Hx. cbn [Nat.add] in Hx.
  pose proof (unsigned_hex_16 16 raw H ltac:(lia)) as Hy. cbn [Nat.add] in Hy.
  pose proof (unsigned_hex_16 20 raw H ltac:(lia)) as Hz. cbn [Nat.add] in Hz.
  split.
  - do 5 eexists. split; [apply AccelerationData_create_from_raw_hex; assumption|].
    rewrite floordiv_pow2.
    set (f := Z.shiftr (unsigned_hex (slice 8 12 raw)) (16 - resolution + 1)).
    assert (0 <= f) as Hf0 by (apply Z.shiftr_nonneg; lia).
    split; [exact Hf0|].
    split; [apply axis_nonneg; nia|]. split; [apply axis_nonneg; nia|].
    split; [apply axis_nonneg; nia|].
    intros Hres.
    assert (f < 2 ^ (resolution - 1)) as Hfb.
    { unfold f. rewrite Z.shiftr_div_pow2 by lia.
      apply Z.div_lt_upper_bound; [apply Z.pow_pos_nonneg; lia|].
      rewrite <- Z.pow_add_r by lia.
      replace (16 - resolution + 1 + (resolution - 1)) with 16 by lia. lia. }
    assert (2 ^ resolution = 2 * 2 ^ (resolution - 1)) as Ep
      by (rewrite <- Z.pow_succ_r by lia; f_equal; lia).
    change (2 ^ 16) with 65536 in *.
    split; [exact Hfb|].
    repeat split; apply axis_bounds; change (2 ^ 15) with 32768; nia.
  - do 5 eexists. split; [apply AngularVelocityData_init_hex; assumption|].
    rewrite floordiv_pow2.
    assert (0 <= Z.shiftr (unsigned_hex (slice 8 12 raw)) (16 - (resolution + 1)))
      as Hf0 by (apply Z.shiftr_nonneg; lia).
    split; [exact Hf0|].
    repeat split; apply angular_axis_nonneg; lia.
Qed.

Lemma axes_never_negative_witness :
  exists t f x y z,
    AccelerationData.create_from_raw (L "000003E8800040002000FFFF") 16
    = Ok (AccelerationData.mk 16 (Some t) (Some f) (Some x) (Some y) (Some z))
    /\ (0 <= z)%Q /\ (z < inject_Z (2 ^ 16))%Q.
Proof.
  destruct (proj1 (axes_never_negative (L "000003E8800040002000FFFF") 16
                     eq_refl ltac:(simpl; lia) ltac:(lia)))
    as (t & f & x & y & z & E & _ & _ & _ & Hz & Hb).
  exists t, f, x, y, z. split; [exact E|]. split; [exact Hz|].
  apply (Hb ltac:(lia)).
Defined.

End FixedWidthMore.


(** ** MPU9250Data *)

Section MPU9250.

Lemma int_slice_empty (a b : nat) (s : str) (base : Z) :
  (length s <= a)%nat -> int_ (slice a b s) base = Raise invalid_literal.
Proof.
  intros Ha. unfold slice. rewrite drop_ge by exact Ha. rewrite take_nil. reflexivity.
Qed.

Lemma int_bits_slice_lt (a b : nat) (bits : str) :
  bitstring bits = true -> (a < b)%nat -> (a < length bits)%nat ->
  int_ (slice a b bits) 2 = Ok (unsigned (slice a b bits)).
Proof.
  intros H Hab Ha. apply int_bits; [apply bitstring_slice, H|].
  intros E. apply (f_equal length) in E. rewrite length_slice_min in E.
  simpl in E. lia.
Qed.

Lemma slice_split {A : Type} (a b c : nat) (s : list A) :
  (a <= b)%nat -> (b <= c)%nat -> slice a c s = slice a b s ++ slice b c s.
Proof.
  intros Hab Hbc. unfold slice.
  replace (drop b s) with (drop (b - a) (drop a s))
    by (rewrite drop_drop; f_equal; lia).
  rewrite take_take_drop. f_equal. lia.
Qed.

Lemma slice_single {A : Type} (i : nat) (c : A) (s : list A) :
  s !! i = Some c -> slice i (S i) s = [c].
Proof.
  intros Hc. unfold slice. rewrite (drop_S _ _ _ Hc).
  replace (S i - i)%nat with 1%nat by lia. reflexivity.
Qed.

Lemma unsigned_single (c : ascii) : unsigned [c] = bit_val c.
Proof. unfold unsigned. simpl. lia. Qed.

Lemma bit_val_cases (bits : str) (i : nat) (c : ascii) :
  bitstring bits = true -> bits !! i = Some c -> bit_val c = 0 \/ bit_val c = 1.
Proof.
  intros H Hc. destruct (bitstring_lookup bits i c H Hc) as [-> | ->]; [left|right];
    reflexivity.
Qed.

(** X7.  [MPU9250Data.setup] on a payload of hexadecimal digits: it raises
    the [ValueError] of [int] below 10 digits and returns a record from 10 on;
    the accelerometer range is then 2, 4, 8 or 16, the gyroscope range and the
    two bandwidths stay unset.  The 2-bit code of the range starts at bit 39,
    the last bit of the sample rate: with 11 digits or more the range is 8 or
    16 exactly when the sample rate is odd, and with 10 digits the code has
    that single bit, so the range is 4 when the rate is odd and 2 when it is
    even. *)
Theorem MPU9250Data_setup_cases (raw : str) :
  hexstring raw = true ->
  ((length raw < 10)%nat -> MPU9250Data.setup raw = Raise invalid_literal)
  /\ ((10 <= length raw)%nat ->
        exists r,
          MPU9250Data.setup raw = Ok r
          /\ MPU9250Data.time_stamp r = unsigned_hex (slice 0 8 raw)
          /\ MPU9250Data.ag_sample_rate r = unsigned_hex (slice 8 10 raw)
          /\ 0 <= MPU9250Data.ag_sample_rate r < 256
          /\ MPU9250Data.accelerometer_fsr r
             = 2 ^ (unsigned (slice 39 41 (bits_of_hex raw)) + 1)
          /\ (MPU9250Data.accelerometer_fsr r = 2 \/ MPU9250Data.accelerometer_fsr r = 4
              \/ MPU9250Data.accelerometer_fsr r = 8
              \/ MPU9250Data.accelerometer_fsr r = 16)
          /\ MPU9250Data.gyroscope_fsr r = None
          /\ MPU9250Data.accelerometer_bw r = None
          /\ MPU9250Data.gyroscope_bw r = None
          /\ ((11 <= length raw)%nat ->
              (Z.odd (MPU9250Data.ag_sample_rate r) = true
               <-> 8 <= MPU9250Data.accelerometer_fsr r))
          /\ (length raw = 10%nat ->
              MPU9250Data.accelerometer_fsr r
              = if Z.odd (MPU9250Data.ag_sample_rate r) then 4 else 2)).
Proof.
  intros H. unfold MPU9250Data.setup.
  pose proof (bitstring_bits_of_hex raw) as Hb.
  pose proof (length_bits_of_hex raw) as Hlen.
  split.
  - intros Hl.
    destruct (le_lt_dec (length raw) 0) as [L0|L0];
      [rewrite (hex_str_to_int_slice_empty 0 8) by exact L0; reflexivity|].
    rewrite (hex_str_to_int_slice_lt 0 8) by (first [exact H | lia]). step.
    destruct (le_lt_dec (length raw) 8) as [L1|L1];
      [rewrite (hex_str_to_int_slice_empty 8 10) by exact L1; reflexivity|].
    rewrite (hex_str_to_int_slice_lt 8 10) by (first [exact H | lia]). step.
    rewrite hex_to_bin_hex by exact H. step.
    rewrite int_slice_empty by lia. reflexivity.
  - intros Hl.
    rewrite !hex_str_to_int_slice_lt by (first [exact H | lia]).
    rewrite hex_to_bin_hex by exact H. step.
    rewrite int_bits_slice_lt by (first [exact Hb | lia]). step.
    eexists. split; [reflexivity|].
    cbn [MPU9250Data.time_stamp MPU9250Data.ag_sample_rate
           MPU9250Data.accelerometer_fsr MPU9250Data.gyroscope_fsr
           MPU9250Data.accelerometer_bw MPU9250Data.gyroscope_bw].
    set (bits := bits_of_hex raw) in *.
    assert (unsigned_hex (slice 8 10 raw) = unsigned (slice 32 40 bits)) as Hag.
    { change (slice 32 40 bits) with (slice (4 * 8) (4 * 10) (bits_of_hex raw)).
      rewrite slice_bits_of_hex. symmetry. apply unsigned_bits_of_hex, hexstring_slice, H. }
    destruct (lookup_lt_is_Some_2 bits 39 ltac:(lia)) as [b39 H39].
    pose proof (bit_val_cases bits 39 b39 Hb H39) as Hv39.
    assert (unsigned (slice 32 40 bits)
            = 2 * unsigned (slice 32 39 bits) + bit_val b39) as Hsplit.
    { rewrite (slice_split 32 39 40) by lia.
      rewrite (slice_single 39 b39 bits H39), unsigned_app, unsigned_single.
      change (2 ^ Z.of_nat (length [b39])) with 2. lia. }
    pose proof (unsigned_slice_range 32 39 bits Hb ltac:(lia)) as Hr7.
    change (2 ^ Z.of_nat (39 - 32)) with 128 in Hr7.
    assert (Z.odd (unsigned_hex (slice 8 10 raw)) = true <-> bit_val b39 = 1) as Hodd.
    { rewrite Hag, Hsplit, Z.add_comm, Z.odd_add_mul_2.
      destruct Hv39 as [-> | ->]; simpl; intuition congruence. }
    assert ((11 <= length raw)%nat ->
            exists b40, (bit_val b40 = 0 \/ bit_val b40 = 1)
                        /\ unsigned (slice 39 41 bits) = 2 * bit_val b39 + bit_val b40)
      as Hlong.
    { intros L11. destruct (lookup_lt_is_Some_2 bits 40 ltac:(lia)) as [b40 H40].
      exists b40. split; [exact (bit_val_cases bits 40 b40 Hb H40)|].
      rewrite (slice_split 39 40 41) by lia.
      rewrite (slice_single 39 b39 bits H39), (slice_single 40 b40 bits H40).
      rewrite unsigned_app, !unsigned_single.
      change (2 ^ Z.of_nat (length [b40])) with 2. lia. }
    assert (length raw = 10%nat -> unsigned (slice 39 41 bits) = bit_val b39) as Hshort.
    { intros L10. unfold slice. rewrite (drop_S _ _ _ H39).
      rewrite (drop_ge bits 40) by lia. apply unsigned_single. }
    split; [reflexivity|]. split; [reflexivity|].
    split; [rewrite Hag, Hsplit; lia|].
    split; [reflexivity|].
    split.
    { destruct (le_lt_dec 11 (length raw)) as [L11|L11].
      - destruct (Hlong L11) as (b40 & Hv40 & ->).
        destruct Hv39 as [-> | ->], Hv40 as [-> | ->]; simpl; tauto.
      - rewrite Hshort by lia. destruct Hv39 as [-> | ->]; simpl; tauto. }
    do 3 (split; [reflexivity|]).
    split.
    { intros L11. destruct (Hlong L11) as (b40 & Hv40 & ->). rewrite Hodd.
      destruct Hv39 as [-> | ->], Hv40 as [-> | ->]; simpl; lia. }
    intros L10. rewrite (Hshort L10).
    destruct (Z.odd (unsigned_hex (slice 8 10 raw))) eqn:Eo.
    + rewrite (proj1 Hodd eq_refl). reflexivity.
    + destruct Hv39 as [-> | E1]; [reflexivity|].
      discriminate (proj2 Hodd E1).
Qed.

Lemma MPU9250Data_setup_cases_witness :
  MPU9250Data.setup (L "000003E80") = Raise invalid_literal
  /\ exists r,
       MPU9250Data.setup (L "000003E8014") = Ok r
       /\ MPU9250Data.ag_sample_rate r = 1
       /\ 8 <= MPU9250Data.accelerometer_fsr r.
Proof.
  split.
  - apply (proj1 (MPU9250Data_setup_cases (L "000003E80") eq_refl)). simpl. lia.
  - destruct (proj2 (MPU9250Data_setup_cases (L "000003E8014") eq_refl))
      as (r & E & _ & Hag & _ & _ & _ & _ & _ & _ & Hodd & _); [simpl; lia|].
    exists r. split; [exact E|]. split; [rewrite Hag; reflexivity|].
    apply (Hodd ltac:(simpl; lia)). rewrite Hag. reflexivity.
Defined.

End MPU9250.

(** [field_or_raise H a b] splits on whether the field at bits [a..b] of the
    bitstring in the goal is empty: an empty field raises, which ends the
    goal; otherwise the field is read and the decoding goes on. *)
Ltac field_or_raise H a b :=
  match goal with
  | |- context [int_ (slice a b ?s) 2] =>
      destruct (le_lt_dec (length s) a);
      [rewrite (int_slice_empty a b) by assumption; reflexivity
      |rewrite (int_bits_slice_lt a b) by (first [exact H | lia]); step]
  end.

Section MPU9250Measurement.

Lemma int_bit (bits : str) (i : nat) (c : ascii) :
  bitstring bits = true -> bits !! i = Some c -> int_ [c] 2 = Ok (bit_val c).
Proof.
  intros H Hc. rewrite int_bits; [rewrite unsigned_single; reflexivity| |discriminate].
  destruct (bitstring_lookup bits i c H Hc) as [-> | ->]; reflexivity.
Qed.

(** X8.  [MPU9250Data.Measurement] on a bitstring: with at most 176 bits some
    field is empty and [int] raises its [ValueError]; from 177 to 196 bits the
    eleven fields are read and the flag at bit 195 or 196 is out of range, an
    [IndexError]; from 197 bits on a record is returned, whose time stamp is
    the value of bits 0..32, whose ten 16-bit fields are the values of the
    consecutive 16-bit windows from bit 32 to bit 192, and whose two flags are
    bits 195 and 196. *)
Theorem MPU9250Data_Measurement_cases (raw_bin : str) :
  bitstring raw_bin = true ->
  ((length raw_bin <= 176)%nat ->
     MPU9250Data.Measurement.init raw_bin = Raise invalid_literal)
  /\ ((176 < length raw_bin < 197)%nat ->
        MPU9250Data.Measurement.init raw_bin = Raise IndexError)
  /\ ((197 <= length raw_bin)%nat ->
        exists valid resolution,
          raw_bin !! 195%nat = Some valid /\ raw_bin !! 196%nat = Some resolution
          /\ MPU9250Data.Measurement.init raw_bin
             = Ok (MPU9250Data.Measurement.mk
                     (unsigned (slice 0 32 raw_bin))
                     (unsigned (slice 32 48 raw_bin))
                     (unsigned (slice 48 64 raw_bin))
                     (unsigned (slice 64 80 raw_bin))
                     (unsigned (slice 80 96 raw_bin))
                     (unsigned (slice 96 112 raw_bin))
                     (unsigned (slice 112 128 raw_bin))
                     (unsigned (slice 128 144 raw_bin))
                     (unsigned (slice 144 160 raw_bin))
                     (unsigned (slice 160 176 raw_bin))
                     (unsigned (slice 176 192 raw_bin))
                     (bit_val valid) (bit_val resolution))
          /\ forall k, (k < 10)%nat ->
               0 <= unsigned (slice (32 + 16 * k) (48 + 16 * k) raw_bin) < 2 ^ 16).
Proof.
  intros H. unfold MPU9250Data.Measurement.init. split; [|split].
  - intros Hl.
    field_or_raise H 0%nat 32%nat. field_or_raise H 32%nat 48%nat.
    field_or_raise H 48%nat 64%nat. field_or_raise H 64%nat 80%nat.
    field_or_raise H 80%nat 96%nat. field_or_raise H 96%nat 112%nat.
    field_or_raise H 112%nat 128%nat. field_or_raise H 128%nat 144%nat.
    field_or_raise H 144%nat 160%nat. field_or_raise H 160%nat 176%nat.
    rewrite (int_slice_empty 176 192) by exact Hl. reflexivity.
  - intros Hl.
    rewrite !int_bits_slice_lt by (first [exact H | lia]). step.
    unfold getitem.
    destruct (raw_bin !! 195%nat) as [v|] eqn:Hv; [|reflexivity]. step.
    rewrite (int_bit raw_bin 195 v H Hv). step.
    rewrite (lookup_ge_None_2 raw_bin 196) by lia. reflexivity.
  - intros Hl.
    destruct (lookup_lt_is_Some_2 raw_bin 195 ltac:(lia)) as [v Hv].
    destruct (lookup_lt_is_Some_2 raw_bin 196 ltac:(lia)) as [r Hr].
    exists v, r. split; [exact Hv|]. split; [exact Hr|].
    split.
    + rewrite !int_bits_slice_lt by (first [exact H | lia]). step.
      unfold getitem. rewrite Hv, Hr. step.
      rewrite (int_bit raw_bin 195 v H Hv), (int_bit raw_bin 196 r H Hr). reflexivity.
    + intros k Hk.
      pose proof (unsigned_slice_range (32 + 16 * k) (48 + 16 * k) raw_bin H
                    ltac:(lia)) as Hrange.
      replace (Z.of_nat (48 + 16 * k - (32 + 16 * k))) with 16 in Hrange by lia.
      exact Hrange.
Qed.

Lemma MPU9250Data_Measurement_cases_witness :
  MPU9250Data.Measurement.init (replicate 176 "1"%char) = Raise invalid_literal
  /\ MPU9250Data.Measurement.init (replicate 196 "1"%char) = Raise IndexError
  /\ exists m,
       MPU9250Data.Measurement.init (replicate 197 "1"%char) = Ok m
       /\ MPU9250Data.Measurement.accel_x m = 65535
       /\ MPU9250Data.Measurement.mag_valid m = 1.
Proof.
  split; [|split].
  - apply (proj1 (MPU9250Data_Measurement_cases (replicate 176 "1"%char) eq_refl)).
    rewrite length_replicate. lia.
  - apply (proj1 (proj2 (MPU9250Data_Measurement_cases (replicate 196 "1"%char)
                           eq_refl))).
    rewrite length_replicate. lia.
  - destruct (proj2 (proj2 (MPU9250Data_Measurement_cases (replicate 197 "1"%char)
                              eq_refl)))
      as (v & r & Hv & _ & E & _); [rewrite length_replicate; lia|].
    eexists. split; [exact E|]. split; [reflexivity|].
    cbn [MPU9250Data.Measurement.mag_valid].
    injection Hv as <-. reflexivity.
Defined.

End MPU9250Measurement.


(** ** GNSSLocationData on every payload *)

(** [hex_field H a b] and [signed_field H a b] split on whether the payload
    of the goal ends before nibble [a]: if so, the field at nibbles [a..b] is
    empty and raises, which is left as a goal; otherwise it is read. *)
Ltac hex_field H a b :=
  match goal with
  | |- context [hex_str_to_int (slice a b ?s)] =>
      destruct (le_lt_dec (length s) a);
      [rewrite (hex_str_to_int_slice_empty a b) by assumption
      |rewrite (hex_str_to_int_slice_lt a b) by (first [exact H | lia]); step]
  end.

Ltac signed_field H a b :=
  match goal with
  | |- context [signed_hex_str_to_int (slice a b ?s)] =>
      destruct (le_lt_dec (length s) a);
      [replace (slice a b s) with (@nil ascii)
         by (unfold slice; rewrite drop_ge by assumption; rewrite take_nil; reflexivity)
      |rewrite (signed_hex_value (slice a b s))
         by (first [apply hexstring_slice, H
                   | intros E; apply (f_equal length) in E;
                     rewrite length_slice_min in E; cbn [length] in E; lia]); step]
  end.

(** Closes a goal [exists e, Raise _ = Raise e /\ (e = IndexError <-> P) /\ _]
    once the bounds on the length are known. *)
Ltac raised :=
  eexists; split; [reflexivity|];
  split; [split; [intros E; first [unfold invalid_literal in E; discriminate E | lia]
                 |intros; first [reflexivity | exfalso; lia]]
         |first [left; reflexivity | right; reflexivity]].

Section LocationMore.

Lemma int_bits_ok (s : str) (v : Z) :
  bitstring s = true -> int_ s 2 = Ok v -> s <> [] /\ v = unsigned s.
Proof.
  intros H E. destruct s as [|c s]; [discriminate E|].
  split; [discriminate|]. rewrite int_bits in E by (first [exact H | discriminate]).
  injection E as <-. reflexivity.
Qed.

Lemma low_bits_of_nibble (c : ascii) (rest : str) :
  is_hex c = true ->
  unsigned (slice 2 4 (nibble_bits c ++ rest)) = nibble c mod 4.
Proof.
  destruct c as [[] [] [] [] [] [] [] []]; vm_compute; first [discriminate | reflexivity].
Qed.

(** X9.  The fix type of a decoded [GNSSLocationData], whatever the payload,
    is one of unknown, not available, 2D fix and 3D fix, never error: the code
    is read from at most two binary digits.  On a payload of hexadecimal digits
    it is the value of the two low bits of nibble 62; the two high bits of
    that nibble and every later nibble are ignored. *)
Theorem GNSSLocationData_fix_type (raw : str) (r : GNSSLocationData.t) :
  GNSSLocationData.setup raw = Ok r ->
  (GNSSLocationData.fix_type r = "unknown"%string
   \/ GNSSLocationData.fix_type r = "not available"%string
   \/ GNSSLocationData.fix_type r = "2D fix"%string
   \/ GNSSLocationData.fix_type r = "3D fix"%string)
  /\ GNSSLocationData.fix_type r <> "error"%string
  /\ (hexstring raw = true ->
      exists c, raw !! 62%nat = Some c
                /\ GNSSLocationData.fix_type r
                   = GNSSLocationData.fix_type_name (nibble c mod 4)).
Proof.
  unfold GNSSLocationData.setup. intros H.
  bind_inv H as v1 H1. bind_inv H as v2 H2. bind_inv H as v3 H3.
  bind_inv H as v4 H4. bind_inv H as v5 H5. bind_inv H as v6 H6.
  bind_inv H as v7 H7. bind_inv H as v8 H8. bind_inv H as v9 H9.
  bind_inv H as v10 H10. bind_inv H as v11 H11.
  bind_inv H as bits Hbits. cbv zeta in H. bind_inv H as code Hcode.
  injection H as <-. cbn [GNSSLocationData.fix_type].
  destruct (hex_to_bin_ok _ _ Hbits) as (body & Hbody & Hhex & ->).
  pose proof (bitstring_slice 2 4 _ (bitstring_bits_of_hex body)) as Hs.
  destruct (int_bits_ok _ _ Hs Hcode) as [Hne ->].
  pose proof (unsigned_range _ Hs) as Hr.
  assert (length (slice 2 4 (bits_of_hex body)) <= 2)%nat as Hlen
    by (rewrite length_slice_min; lia).
  assert (2 ^ Z.of_nat (length (slice 2 4 (bits_of_hex body))) <= 2 ^ 2) as Hpow
    by (apply Z.pow_le_mono_r; lia).
  set (code := unsigned (slice 2 4 (bits_of_hex body))) in *.
  assert (code = 0 \/ code = 1 \/ code = 2 \/ code = 3) as Hcases by lia.
  split; [|split].
  - destruct Hcases as [-> | [-> | [-> | ->]]]; vm_compute; tauto.
  - destruct Hcases as [-> | [-> | [-> | ->]]]; vm_compute; discriminate.
  - intros Hraw.
    assert (body = drop 62 raw) as ->.
    { destruct Hbody as [E|E]; [symmetry; exact E|].
      pose proof (no_prefix_hex _ (hexstring_drop 62 raw Hraw)) as Hp.
      rewrite E in Hp. destruct Hp. reflexivity. }
    destruct (drop 62 raw) as [|c rest] eqn:Ed; [destruct Hne; reflexivity|].
    exists c. split.
    + rewrite <- (Nat.add_0_r 62), <- lookup_drop, Ed. reflexivity.
    + f_equal. unfold code. rewrite bits_of_hex_cons.
      apply low_bits_of_nibble.
      apply hexstring_cons in Hhex as [Hc _]. exact Hc.
Qed.

Lemma GNSSLocationData_fix_type_witness :
  exists r,
    GNSSLocationData.setup
      (L "000003E8FFFFFFFF7FFFFFFF0000000100000002FFFE8000000100020003047F") = Ok r
    /\ GNSSLocationData.fix_type r = "3D fix"%string.
Proof.
  eexists. split; [vm_compute; reflexivity|].
  destruct (GNSSLocationData_fix_type
              (L "000003E8FFFFFFFF7FFFFFFF0000000100000002FFFE8000000100020003047F")
              _ eq_refl) as (_ & _ & Hc).
  destruct (Hc eq_refl) as (c & Hl & E). injection Hl as <-. exact E.
Defined.

(** X10.  [GNSSLocationData.setup] on a payload of hexadecimal digits returns a
    record exactly from 63 digits on, with latitude and longitude in the signed
    32-bit range, speed and course in the signed 16-bit range and the number of
    satellites below 256.  A shorter payload raises on its first empty field:
    [IndexError] when that field is a signed one (1 to 16 and 33 to 44 digits),
    the [ValueError] of [int] otherwise. *)
Theorem GNSSLocationData_length (raw : str) :
  hexstring raw = true ->
  ((length raw < 63)%nat ->
     exists e,
       GNSSLocationData.setup raw = Raise e
       /\ (e = IndexError
           <-> (1 <= length raw <= 16)%nat \/ (33 <= length raw <= 44)%nat)
       /\ (e = IndexError \/ e = invalid_literal))
  /\ ((63 <= length raw)%nat ->
        exists r,
          GNSSLocationData.setup raw = Ok r
          /\ - 2 ^ 31 <= GNSSLocationData.latitude r < 2 ^ 31
          /\ - 2 ^ 31 <= GNSSLocationData.longitude r < 2 ^ 31
          /\ - 2 ^ 15 <= GNSSLocationData.rocket_speed r < 2 ^ 15
          /\ - 2 ^ 15 <= GNSSLocationData.rocket_course r < 2 ^ 15
          /\ 0 <= GNSSLocationData.num_sats r < 256).
Proof.
  intros H. split.
  - intros Hl. unfold GNSSLocationData.setup.
    hex_field H 0%nat 8%nat; [raised|].
    signed_field H 8%nat 16%nat; [raised|].
    signed_field H 16%nat 24%nat; [raised|].
    hex_field H 24%nat 32%nat; [raised|].
    hex_field H 32%nat 40%nat; [raised|].
    signed_field H 40%nat 44%nat; [raised|].
    signed_field H 44%nat 48%nat; [raised|].
    hex_field H 48%nat 52%nat; [raised|].
    hex_field H 52%nat 56%nat; [raised|].
    hex_field H 56%nat 60%nat; [raised|].
    hex_field H 60%nat 62%nat; [raised|].
    rewrite (drop_ge raw 62) by lia. raised.
  - intros Hl. unfold GNSSLocationData.setup.
    rewrite !hex_str_to_int_slice by (first [exact H | lia]).
    rewrite !signed_slice by (first [exact H | lia]).
    rewrite hex_to_bin_hex by (apply hexstring_drop, H). step.
    rewrite (proj1 (fix_type_bits raw H Hl)). step.
    eexists. split; [reflexivity|].
    cbn [GNSSLocationData.latitude GNSSLocationData.longitude
           GNSSLocationData.rocket_speed GNSSLocationData.rocket_course
           GNSSLocationData.num_sats].
    assert (forall a b, (a < b)%nat -> (b <= length raw)%nat ->
              0 <= unsigned_hex (slice a b raw) < 2 ^ (4 * Z.of_nat (b - a))) as Hr.
    { intros a b Hab Hb.
      pose proof (unsigned_hex_range (slice a b raw) (hexstring_slice a b raw H)) as Hu.
      rewrite length_slice in Hu by exact Hb. exact Hu. }
    split; [apply (twos_complement_range (4 * Z.of_nat (16 - 8))); [lia|apply Hr; lia]|].
    split; [apply (twos_complement_range (4 * Z.of_nat (24 - 16))); [lia|apply Hr; lia]|].
    split; [apply (twos_complement_range (4 * Z.of_nat (44 - 40))); [lia|apply Hr; lia]|].
    split; [apply (twos_complement_range (4 * Z.of_nat (48 - 44))); [lia|apply Hr; lia]|].
    apply (Hr 60%nat 62%nat); lia.
Qed.

Lemma GNSSLocationData_length_witness :
  GNSSLocationData.setup (L "000003E8FF") = Raise IndexError
  /\ GNSSLocationData.setup (L "000003E8FFFFFFFF7FFFFFFF") = Raise invalid_literal.
Proof.
  split.
  - destruct (proj1 (GNSSLocationData_length (L "000003E8FF") eq_refl))
      as (e & E & He & _); [simpl; lia|].
    rewrite E. f_equal. apply He. simpl. lia.
  - destruct (proj1 (GNSSLocationData_length (L "000003E8FFFFFFFF7FFFFFFF") eq_refl))
      as (e & E & He & [Hi|Hv]); [simpl; lia| |rewrite E, Hv; reflexivity].
    apply He in Hi. simpl in Hi. lia.
Defined.

End LocationMore.


(** ** GNSSMetaData on every payload of hexadecimal digits *)

Section MetaDataMore.

Lemma size_nat_lower (p : positive) : 2 ^ (Z.of_nat (Pos.size_nat p) - 1) <= Zpos p.
Proof.
  induction p as [p IH|p IH|]; cbn [Pos.size_nat]; [| |simpl; lia];
    replace (Z.of_nat (S (Pos.size_nat p)) - 1)
      with (Z.succ (Z.of_nat (Pos.size_nat p) - 1)) by lia;
    (rewrite Z.pow_succ_r by (destruct p; simpl; lia)); lia.
Qed.

Lemma length_bin_pos (p : positive) : length (bin_pos p) = Pos.size_nat p.
Proof.
  induction p as [p IH|p IH|]; cbn [bin_pos Pos.size_nat]; [| |reflexivity];
    rewrite length_app, IH; simpl; lia.
Qed.

(** The binary digits of a number below [2^k] are at most [k]. *)
Lemma length_bin_pos_le (p : positive) (k : nat) :
  Zpos p < 2 ^ Z.of_nat k -> (length (bin_pos p) <= k)%nat.
Proof.
  intros Hp. rewrite length_bin_pos. pose proof (size_nat_lower p) as Hl.
  assert (2 ^ (Z.of_nat (Pos.size_nat p) - 1) < 2 ^ Z.of_nat k) as Hlt by lia.
  apply Z.pow_lt_mono_r_iff in Hlt; lia.
Qed.

(** The loop over the bitmaps raises as soon as one of them is short. *)
Lemma sats_loop_short (gps_bits glonass_bits : str) (n k : nat) (st : list Z * list Z) :
  (k <= length gps_bits)%nat -> (k <= length glonass_bits)%nat ->
  (length gps_bits < k + n)%nat \/ (length glonass_bits < k + n)%nat ->
  for_each (GNSSMetaData.sats_step gps_bits glonass_bits) st (seq k n)
  = Raise IndexError.
Proof.
  revert k st. induction n as [|n IH]; intros k st Hg Hr Hshort; [lia|].
  cbn [seq for_each].
  destruct (gps_bits !! k) as [c|] eqn:Hc.
  - destruct (glonass_bits !! k) as [d|] eqn:Hd.
    + assert (GNSSMetaData.sats_step gps_bits glonass_bits st k
              = Ok (if decide (c = "1"%char) then st.1 ++ [Z.of_nat k + 1] else st.1,
                    if decide (d = "1"%char) then st.2 ++ [Z.of_nat k + 1] else st.2))
        as Hstep.
      { unfold GNSSMetaData.sats_step, getitem. rewrite Hc, Hd. reflexivity. }
      rewrite Hstep. step. apply lookup_lt_Some in Hc, Hd. apply IH; lia.
    + assert (GNSSMetaData.sats_step gps_bits glonass_bits st k = Raise IndexError)
        as Hstep.
      { unfold GNSSMetaData.sats_step, getitem. rewrite Hc, Hd. reflexivity. }
      rewrite Hstep. reflexivity.
  - assert (GNSSMetaData.sats_step gps_bits glonass_bits st k = Raise IndexError)
      as Hstep.
    { unfold GNSSMetaData.sats_step, getitem. rewrite Hc. reflexivity. }
    rewrite Hstep. reflexivity.
Qed.

(** The decoder in terms of the binary digits [s] that [bin] writes. *)
Lemma GNSSMetaData_setup_digits (raw s : str) (n t : Z) :
  hex_str_to_int (slice 0 8 raw) = Ok t -> int_ raw 16 = Ok n ->
  bin n = L "0b" ++ s -> bitstring s = true ->
  ((96 <= length s)%nat ->
     GNSSMetaData.setup raw
     = Ok (GNSSMetaData.mk t
             (sats_of_bitmap (slice 32 64 s))
             (sats_of_bitmap (slice 64 96 s))
             (foldl (fun d m => <[GNSSMetaData.Info.ID m := m]> d) ∅
                (map info_of_window (sat_windows 96 s)))))
  /\ ((length s < 96)%nat -> GNSSMetaData.setup raw = Raise IndexError).
Proof.
  intros Ht Hn Hbin Hs. unfold GNSSMetaData.setup. rewrite Ht, Hn. step. rewrite Hbin.
  change (slice 34 66 (L "0b" ++ s)) with (slice 32 64 s).
  change (slice 66 98 (L "0b" ++ s)) with (slice 64 96 s).
  change (drop 98 (L "0b" ++ s)) with (drop 96 s).
  unfold range. split; intros Hl.
  - rewrite (sats_loop (slice 32 64 s) (slice 64 96 s) 32 0 [] [])
      by (rewrite length_slice; lia).
    cbn [mbind result_bind fst snd app]. fold (sats_of_bitmap (slice 32 64 s)).
    fold (sats_of_bitmap (slice 64 96 s)).
    rewrite info_loop.
    + step. do 3 f_equal.
      unfold sat_windows. rewrite map_map, length_drop.
      apply map_ext. intros i. f_equal. rewrite slice_drop. f_equal; lia.
    + apply bitstring_drop, Hs.
    + intros i Hi%in_seq.
      pose proof (Nat.div_mod_eq (length (drop 96 s)) 32). lia.
  - rewrite sats_loop_short; [reflexivity|lia|lia|].
    right. rewrite length_slice_min. lia.
Qed.

(** What [bin] writes for a number that [int] returned. *)
Lemma bin_digits (n : Z) :
  0 <= n ->
  exists s, bin n = L "0b" ++ s /\ bitstring s = true /\ unsigned s = n
            /\ (n = 0 -> s = L "0") /\ (0 < n -> s !! 0%nat = Some "1"%char).
Proof.
  intros Hn. destruct n as [|p|p]; [| |lia].
  - exists (L "0"). repeat split. lia.
  - exists (bin_pos p). destruct (bin_pos_value p) as (Hb & Hne & Hu).
    split; [reflexivity|]. split; [exact Hb|]. split; [exact Hu|].
    split; [discriminate|]. intros _.
    clear. induction p as [p IH|p IH|]; cbn [bin_pos]; [| |reflexivity];
      (rewrite lookup_app_l; [exact IH|]);
      apply lookup_lt_Some in IH; exact IH.
Qed.

Lemma GNSSMetaData_setup_ok (raw : str) (r : GNSSMetaData.t) :
  hexstring raw = true ->
  GNSSMetaData.setup raw = Ok r ->
  exists s,
    bitstring s = true /\ (96 <= length s)%nat /\ s !! 0%nat = Some "1"%char
    /\ int_ raw 16 = Ok (unsigned s)
    /\ r = GNSSMetaData.mk (GNSSMetaData.mission_time r)
             (sats_of_bitmap (slice 32 64 s))
             (sats_of_bitmap (slice 64 96 s))
             (foldl (fun d m => <[GNSSMetaData.Info.ID m := m]> d) ∅
                (map info_of_window (sat_windows 96 s))).
Proof.
  intros Hhex H. pose proof H as H'. unfold GNSSMetaData.setup in H'.
  bind_inv H' as t Ht. bind_inv H' as n Hn. clear H'.
  assert (0 <= n) as Hpos.
  { assert (raw <> []) as Hne by (intros ->; discriminate Hn).
    rewrite int_hex in Hn by assumption. injection Hn as <-.
    apply unsigned_hex_range, Hhex. }
  destruct (bin_digits n Hpos) as (s & Hbin & Hs & Hu & Hz & Hone).
  destruct (GNSSMetaData_setup_digits raw s n t Ht Hn Hbin Hs) as [Hlong Hshort].
  destruct (le_lt_dec 96 (length s)) as [Hl|Hl].
  - exists s. rewrite (Hlong Hl) in H. injection H as <-.
    split; [exact Hs|]. split; [exact Hl|].
    split.
    + apply Hone. destruct (Z.eq_dec n 0) as [E|E]; [|lia].
      rewrite (Hz E) in Hl. simpl in Hl. lia.
    + split; [rewrite Hu; exact Hn|reflexivity].
  - rewrite (Hshort Hl) in H. discriminate H.
Qed.

Lemma sats_of_bitmap_sorted (bitmap : str) :
  StronglySorted Z.lt (sats_of_bitmap bitmap)
  /\ Forall (fun x => 1 <= x <= 32) (sats_of_bitmap bitmap).
Proof.
  unfold sats_of_bitmap.
  assert (forall n k,
            StronglySorted Z.lt
              (flat_map (fun i => if decide (bitmap !! i = Some "1"%char)
                                  then [Z.of_nat i + 1] else []) (seq k n))
            /\ Forall (fun x => Z.of_nat k + 1 <= x <= Z.of_nat k + Z.of_nat n)
                 (flat_map (fun i => if decide (bitmap !! i = Some "1"%char)
                                     then [Z.of_nat i + 1] else []) (seq k n))) as G.
  { induction n as [|n IH]; intros k; [split; constructor|].
    destruct (IH (S k)) as [Hs Hf].
    change (seq k (S n)) with (k :: seq (S k) n).
    change (flat_map ?f (k :: ?l)) with (f k ++ flat_map f l). cbv beta.
    assert (Forall (fun x => Z.of_nat k + 1 <= x <= Z.of_nat k + Z.of_nat (S n))
              (flat_map (fun i => if decide (bitmap !! i = Some "1"%char)
                                  then [Z.of_nat i + 1] else []) (seq (S k) n))) as Hf'
      by (eapply Forall_impl; [exact Hf|]; cbv beta; intros x Hx; lia).
    destruct (decide (bitmap !! k = Some "1"%char)); cbn [app].
    - split.
      + constructor; [exact Hs|].
        eapply Forall_impl; [exact Hf|]. cbv beta. intros x Hx. lia.
      + constructor; [lia|exact Hf'].
    - split; [exact Hs|exact Hf']. }
  destruct (G 32%nat 0%nat) as [Hs Hf]. split; [exact Hs|].
  eapply Forall_impl; [exact Hf|]. cbv beta. intros x Hx. lia.
Qed.

Lemma sat_windows_bits (start : nat) (s w : str) :
  bitstring s = true -> In w (sat_windows start s) ->
  bitstring w = true /\ length w = 32%nat.
Proof.
  intros Hs Hw. unfold sat_windows in Hw.
  apply in_map_iff in Hw as (i & <- & Hi%in_seq).
  split; [apply bitstring_slice, Hs|].
  rewrite length_slice; [lia|].
  pose proof (Nat.div_mod_eq (length s - start) 32). lia.
Qed.

(** X11.  For a payload of hexadecimal digits, a decoded [GNSSMetaData] is
    well formed: each list of satellites in use is strictly increasing with
    members from 1 to 32; the payload held at least 96 binary digits after its
    leading zeros, its value being at least [2^95]; every entry of the
    satellite dictionary is stored under its own identifier, which is below 32,
    with elevation and SNR below 256, azimuth below 512 and type GPS or
    GLONASS. *)
Theorem GNSSMetaData_well_formed (raw : str) (r : GNSSMetaData.t) :
  hexstring raw = true ->
  GNSSMetaData.setup raw = Ok r ->
  StronglySorted Z.lt (GNSSMetaData.gps_sats_in_use r)
  /\ Forall (fun x => 1 <= x <= 32) (GNSSMetaData.gps_sats_in_use r)
  /\ StronglySorted Z.lt (GNSSMetaData.glonass_sats_in_use r)
  /\ Forall (fun x => 1 <= x <= 32) (GNSSMetaData.glonass_sats_in_use r)
  /\ (exists n, int_ raw 16 = Ok n /\ n = unsigned_hex raw /\ 2 ^ 95 <= n)
  /\ forall key m,
       GNSSMetaData.sat_info r !! key = Some m ->
       GNSSMetaData.Info.ID m = key /\ 0 <= key < 32
       /\ 0 <= GNSSMetaData.Info.elevation m < 256
       /\ 0 <= GNSSMetaData.Info.SNR m < 256
       /\ 0 <= GNSSMetaData.Info.azimuth m < 512
       /\ (GNSSMetaData.Info.type m = "GPS"%string
           \/ GNSSMetaData.Info.type m = "GLONASS"%string).
Proof.
  intros Hhex H.
  destruct (GNSSMetaData_setup_ok raw r Hhex H) as (s & Hs & Hl & H1 & Hn & ->).
  cbn [GNSSMetaData.gps_sats_in_use GNSSMetaData.glonass_sats_in_use
         GNSSMetaData.sat_info].
  split; [apply sats_of_bitmap_sorted|]. split; [apply sats_of_bitmap_sorted|].
  split; [apply sats_of_bitmap_sorted|]. split; [apply sats_of_bitmap_sorted|].
  split.
  - exists (unsigned s). split; [exact Hn|].
    split.
    { assert (raw <> []) as Hne by (intros ->; discriminate Hn).
      rewrite int_hex in Hn by assumption. injection Hn as Hn. symmetry. exact Hn. }
    destruct s as [|c s']; [discriminate H1|]. injection H1 as ->.
    rewrite unsigned_cons. change (bit_val "1") with 1.
    apply bitstring_cons in Hs as [_ Hs]. pose proof (unsigned_range s' Hs).
    assert (2 ^ 95 <= 2 ^ Z.of_nat (length s'))
      by (apply Z.pow_le_mono_r; simpl in Hl; lia).
    lia.
  - intros key m Hm. rewrite lookup_inserted, lookup_empty in Hm.
    destruct (last_with_id key _) as [m'|] eqn:El; [|discriminate Hm].
    injection Hm as ->. unfold last_with_id in El.
    apply last_Some_elem_of, list_elem_of_In, filter_In in El as [Hin Hid].
    apply Z.eqb_eq in Hid.
    apply in_map_iff in Hin as (w & <- & Hw).
    destruct (sat_windows_bits 96 s w Hs Hw) as [Hwb Hwl].
    cbn [info_of_window GNSSMetaData.Info.ID GNSSMetaData.Info.elevation
           GNSSMetaData.Info.SNR GNSSMetaData.Info.azimuth GNSSMetaData.Info.type] in *.
    pose proof (unsigned_slice_range 0 8 w Hwb ltac:(lia)) as He.
    pose proof (unsigned_slice_range 8 16 w Hwb ltac:(lia)) as Hsn.
    pose proof (unsigned_slice_range 16 21 w Hwb ltac:(lia)) as Hi.
    pose proof (unsigned_slice_range 21 30 w Hwb ltac:(lia)) as Ha.
    change (2 ^ Z.of_nat (8 - 0)) with 256 in He.
    change (2 ^ Z.of_nat (16 - 8)) with 256 in Hsn.
    change (2 ^ Z.of_nat (21 - 16)) with 32 in Hi.
    change (2 ^ Z.of_nat (30 - 21)) with 512 in Ha.
    split; [exact Hid|]. split; [lia|]. split; [exact He|]. split; [exact Hsn|].
    split; [exact Ha|]. destruct (decide _); [right|left]; reflexivity.
Qed.

Lemma GNSSMetaData_well_formed_witness :
  exists r,
    GNSSMetaData.setup (L "C0000000A000000140000002FF03FFFE") = Ok r
    /\ GNSSMetaData.gps_sats_in_use r = [1; 3; 32]
    /\ StronglySorted Z.lt (GNSSMetaData.gps_sats_in_use r).
Proof.
  eexists. split; [vm_compute; reflexivity|]. split; [reflexivity|].
  apply (GNSSMetaData_well_formed (L "C0000000A000000140000002FF03FFFE"));
    [reflexivity|vm_compute; reflexivity].
Defined.

End MetaDataMore.

Section MetaDataPayloads.

Lemma unsigned_leading_one (s : str) :
  bitstring s = true -> s !! 0%nat = Some "1"%char ->
  2 ^ (Z.of_nat (length s) - 1) <= unsigned s.
Proof.
  intros Hs H1. destruct s as [|c s']; [discriminate H1|]. injection H1 as ->.
  rewrite unsigned_cons. change (bit_val "1") with 1.
  apply bitstring_cons in Hs as [_ Hs]. pose proof (unsigned_range s' Hs).
  cbn [length]. replace (Z.of_nat (S (length s')) - 1) with (Z.of_nat (length s')) by lia.
  lia.
Qed.

(** X12.  On a payload of hexadecimal digits [GNSSMetaData] succeeds exactly
    when the payload read as a number is at least [2^95], that is when at least
    96 binary digits are left once the leading zeros are gone: an empty payload
    raises the [ValueError] of [int], every other payload below [2^95] raises
    [IndexError]; so does every payload of 1 to 23 digits. *)
Theorem GNSSMetaData_setup_threshold (raw : str) :
  hexstring raw = true ->
  (raw = [] -> GNSSMetaData.setup raw = Raise invalid_literal)
  /\ (raw <> [] -> unsigned_hex raw < 2 ^ 95 ->
      GNSSMetaData.setup raw = Raise IndexError)
  /\ (2 ^ 95 <= unsigned_hex raw -> is_ok (GNSSMetaData.setup raw))
  /\ ((0 < length raw < 24)%nat -> GNSSMetaData.setup raw = Raise IndexError).
Proof.
  intros H. split; [intros ->; reflexivity|].
  assert (raw <> [] ->
          exists s, bitstring s = true /\ unsigned s = unsigned_hex raw
                    /\ (unsigned_hex raw = 0 -> s = L "0")
                    /\ (0 < unsigned_hex raw -> s !! 0%nat = Some "1"%char)
                    /\ ((96 <= length s)%nat -> is_ok (GNSSMetaData.setup raw))
                    /\ ((length s < 96)%nat ->
                        GNSSMetaData.setup raw = Raise IndexError)) as G.
  { intros Hne.
    assert (0 < length raw)%nat as Hl by (destruct raw; [congruence|simpl; lia]).
    pose proof (hex_str_to_int_slice_lt 0 8 raw H ltac:(lia) Hl) as Ht.
    pose proof (int_hex raw H Hne) as Hn.
    pose proof (unsigned_hex_range raw H) as Hr.
    destruct (bin_digits (unsigned_hex raw) ltac:(lia)) as (s & Hbin & Hs & Hu & Hz & H1).
    destruct (GNSSMetaData_setup_digits raw s _ _ Ht Hn Hbin Hs) as [Hlong Hshort].
    exists s. repeat split; try assumption.
    intros Hls. eexists. apply Hlong, Hls. }
  assert (raw <> [] -> unsigned_hex raw < 2 ^ 95 ->
          GNSSMetaData.setup raw = Raise IndexError) as Hlow.
  { intros Hne Hv. destruct (G Hne) as (s & Hs & Hu & Hz & H1 & _ & Hshort).
    apply Hshort. pose proof (unsigned_hex_range raw H) as Hr.
    destruct (Z.eq_dec (unsigned_hex raw) 0) as [E|E];
      [rewrite (Hz E); simpl; lia|].
    pose proof (unsigned_leading_one s Hs (H1 ltac:(lia))) as Hlo.
    destruct (le_lt_dec 96 (length s)) as [Hl|Hl]; [|exact Hl].
    assert (2 ^ 95 <= 2 ^ (Z.of_nat (length s) - 1))
      by (apply Z.pow_le_mono_r; lia).
    lia. }
  split; [exact Hlow|]. split.
  - intros Hv. assert (raw <> []) as Hne by (intros ->; vm_compute in Hv; congruence).
    destruct (G Hne) as (s & Hs & Hu & _ & _ & Hlong & _). apply Hlong.
    pose proof (unsigned_range s Hs) as Hr.
    destruct (le_lt_dec 96 (length s)) as [Hl|Hl]; [exact Hl|].
    assert (2 ^ Z.of_nat (length s) <= 2 ^ 95) by (apply Z.pow_le_mono_r; lia).
    lia.
  - intros Hl. apply Hlow; [intros ->; simpl in Hl; lia|].
    pose proof (unsigned_hex_range raw H) as Hr.
    assert (2 ^ (4 * Z.of_nat (length raw)) <= 2 ^ 92)
      by (apply Z.pow_le_mono_r; lia).
    assert (2 ^ 92 < 2 ^ 95) by (vm_compute; reflexivity).
    lia.
Qed.

Lemma GNSSMetaData_setup_threshold_witness :
  GNSSMetaData.setup (L "000000018000000040000000") = Raise IndexError
  /\ is_ok (GNSSMetaData.setup (L "C0000000A000000140000002FF03FFFE")).
Proof.
  split.
  - apply (proj1 (proj2 (GNSSMetaData_setup_threshold
                           (L "000000018000000040000000") eq_refl)));
      [discriminate|vm_compute; reflexivity].
  - apply (proj1 (proj2 (proj2 (GNSSMetaData_setup_threshold
                                  (L "C0000000A000000140000002FF03FFFE") eq_refl)))).
    vm_compute. discriminate.
Defined.

(** X13.  Leading zero bits of the payload move every field of
    [GNSSMetaData] but the mission time: when the payload starts with [z] zero
    bits followed by at least 96 bits, the mission time is still read from
    nibbles 0 to 8, while the GPS bitmap is read from bits [z + 32] to
    [z + 64], the GLONASS bitmap from bits [z + 64] to [z + 96] and the
    satellite records from the whole 32-bit windows after bit [z + 96]. *)
Theorem GNSSMetaData_zeros_shift (raw s : str) (z : nat) :
  hexstring raw = true ->
  bits_of_hex raw = replicate z "0"%char ++ s ->
  s !! 0%nat = Some "1"%char -> (96 <= length s)%nat ->
  let bits := bits_of_hex raw in
  GNSSMetaData.setup raw
  = Ok (GNSSMetaData.mk
          (unsigned_hex (slice 0 8 raw))
          (sats_of_bitmap (slice (z + 32) (z + 64) bits))
          (sats_of_bitmap (slice (z + 64) (z + 96) bits))
          (foldl (fun d m => <[GNSSMetaData.Info.ID m := m]> d) ∅
             (map info_of_window (sat_windows (z + 96) bits)))).
Proof.
  intros H Hbits H1 Hl bits.
  assert (bitstring s = true) as Hs.
  { pose proof (bitstring_bits_of_hex raw) as Hb. rewrite Hbits in Hb.
    apply bitstring_app in Hb as [_ Hb]. exact Hb. }
  assert (raw <> []) as Hne.
  { intros ->. change (bits_of_hex []) with (@nil ascii) in Hbits.
    symmetry in Hbits. apply app_eq_nil in Hbits as [_ ->]. discriminate H1. }
  assert (0 < length raw)%nat as Hlr by (destruct raw; [congruence|simpl; lia]).
  assert (s = drop z bits) as Hd.
  { unfold bits. rewrite Hbits, drop_app_length'; [reflexivity|symmetry; apply length_replicate]. }
  assert (length bits = (z + length s)%nat) as Hlb
    by (unfold bits; rewrite Hbits, length_app, length_replicate; reflexivity).
  assert (bin (unsigned_hex raw) = L "0b" ++ s) as Hbin.
  { rewrite <- (unsigned_bits_of_hex raw H), Hbits, unsigned_zeros.
    apply bin_unsigned; assumption. }
  destruct (GNSSMetaData_setup_digits raw s _ _
              (hex_str_to_int_slice_lt 0 8 raw H ltac:(lia) Hlr)
              (int_hex raw H Hne) Hbin Hs) as [Hlong _].
  assert (sat_windows 96 s = sat_windows (z + 96) bits) as Hw.
  { unfold sat_windows. rewrite Hlb.
    replace (z + length s - (z + 96))%nat with (length s - 96)%nat by lia.
    apply map_ext. intros i. rewrite Hd, slice_drop. f_equal; lia. }
  rewrite (Hlong Hl), Hw, Hd, !slice_drop. reflexivity.
Qed.

Lemma GNSSMetaData_zeros_shift_witness :
  exists r,
    GNSSMetaData.setup (L "40000000800000004000000000000000") = Ok r
    /\ GNSSMetaData.mission_time r = 1073741824
    /\ GNSSMetaData.gps_sats_in_use r = []
    /\ GNSSMetaData.glonass_sats_in_use r = [1].
Proof.
  eexists. split.
  - apply (GNSSMetaData_zeros_shift (L "40000000800000004000000000000000")
             (drop 1 (bits_of_hex (L "40000000800000004000000000000000"))) 1);
      [reflexivity|reflexivity|reflexivity|vm_compute; lia].
  - split; [reflexivity|]. split; vm_compute; reflexivity.
Defined.

End MetaDataPayloads.


(** ** KX134 on every payload *)

Section KX134Payloads.

Lemma unsigned_slice_bound (a b : nat) (bits : str) :
  bitstring bits = true -> 0 <= unsigned (slice a b bits) < 2 ^ Z.of_nat (b - a).
Proof.
  intros H. pose proof (unsigned_range _ (bitstring_slice a b bits H)) as Hr.
  rewrite length_slice_min in Hr.
  assert (2 ^ Z.of_nat ((b - a) `min` (length bits - a))%nat <= 2 ^ Z.of_nat (b - a))
    by (apply Z.pow_le_mono_r; lia).
  lia.
Qed.

(** The header of a bitstring that stops before bit 47: the error is the
    [ValueError] of [int] on an empty slice, except when the bitstring stops
    at bit 37, 38 or 39. *)
Lemma setup_header_short (bits : str) :
  bitstring bits = true ->
  (length bits <= 36 \/ 40 <= length bits <= 46)%nat ->
  KX1341211Data.setup_header bits = Raise invalid_literal.
Proof.
  intros H Hl. unfold KX1341211Data.setup_header.
  field_or_raise H 0%nat 32%nat. field_or_raise H 32%nat 36%nat.
  rewrite data_rate_lookup
    by (pose proof (unsigned_slice_bound 32 36 bits H) as Hr; simpl in Hr; lia).
  step. field_or_raise H 36%nat 38%nat.
  destruct (getitem_bits bits 38 H ltac:(lia)) as (c & Hc & -> & Hcb).
  destruct (getitem_bits bits 39 H ltac:(lia)) as (r & Hr & -> & Hrb).
  step. rewrite (int_slice_empty 46 48) by lia. reflexivity.
Qed.

Lemma KX1341211Data_setup_short (raw : str) :
  hexstring raw = true -> (length raw < 12)%nat ->
  KX1341211Data.setup raw = Raise invalid_literal.
Proof.
  intros H Hl. unfold KX1341211Data.setup. rewrite hex_to_bin_hex by exact H. step.
  rewrite setup_header_short; [reflexivity|apply bitstring_bits_of_hex|].
  rewrite length_bits_of_hex. lia.
Qed.

(** X14.  On hexadecimal digits [KX1341211Data] returns a record exactly when
    there are at least 12 of them; with fewer, whatever their number, it raises
    the [ValueError] of [int] and never an [IndexError].  A lower-case [0x]
    before the digits changes nothing, and the first character that is no
    hexadecimal digit raises a [KeyError] naming it, however many digits come
    before it. *)
Theorem KX1341211Data_payloads (raw : str) :
  hexstring raw = true ->
  ((length raw < 12)%nat -> KX1341211Data.setup raw = Raise invalid_literal)
  /\ ((12 <= length raw)%nat -> is_ok (KX1341211Data.setup raw))
  /\ KX1341211Data.setup (L "0x" ++ raw) = KX1341211Data.setup raw
  /\ forall (c : ascii) (rest : str),
       is_hex c = false ->
       KX1341211Data.setup (L "0x" ++ raw ++ c :: rest) = Raise (KeyError [c])
       /\ (slice 0 2 (raw ++ c :: rest) <> L "0x" ->
           KX1341211Data.setup (raw ++ c :: rest) = Raise (KeyError [c])).
Proof.
  intros H. split; [apply KX1341211Data_setup_short, H|].
  split; [intros Hl; eexists; apply KX1341211Data_setup_hex; assumption|].
  split.
  - unfold KX1341211Data.setup.
    rewrite hex_to_bin_prefixed, hex_to_bin_hex by exact H. reflexivity.
  - intros c rest Hc. split.
    + assert (hex_to_bin (L "0x" ++ raw ++ c :: rest) = Raise (KeyError [c])) as E.
      { unfold hex_to_bin, slice. simpl. rewrite ?take_0.
        destruct (decide (L "0x" = L "0x")) as [_|N]; [|destruct N; reflexivity].
        apply hex_to_bin_loop_bad; assumption. }
      unfold KX1341211Data.setup. rewrite E. reflexivity.
    + intros Hp.
      assert (hex_to_bin (raw ++ c :: rest) = Raise (KeyError [c])) as E.
      { unfold hex_to_bin. rewrite decide_False by exact Hp.
        apply hex_to_bin_loop_bad; assumption. }
      unfold KX1341211Data.setup. rewrite E. reflexivity.
Qed.

Lemma KX1341211Data_payloads_witness :
  KX1341211Data.setup (L "000003E8A40") = Raise invalid_literal
  /\ KX1341211Data.setup (L "0x000003E8A400010203")
     = KX1341211Data.setup (L "000003E8A400010203")
  /\ KX1341211Data.setup (L "000003E8A4000102G3") = Raise (KeyError (L "G")).
Proof.
  split; [|split].
  - apply (proj1 (KX1341211Data_payloads (L "000003E8A40") eq_refl)). simpl. lia.
  - apply (proj1 (proj2 (proj2 (KX1341211Data_payloads (L "000003E8A400010203")
                                  eq_refl)))).
  - apply (proj2 (proj2 (proj2 (proj2 (KX1341211Data_payloads (L "000003E8A4000102")
                                         eq_refl)))
                   "G"%char (L "3") eq_refl)).
    vm_compute. discriminate.
Defined.

Lemma decoded_byte_range (v : Z) : 0 <= v < 256 -> -128 <= decoded_byte v < 128.
Proof.
  intros Hv. unfold decoded_byte, twos_complement.
  change (2 ^ (8 - 1)) with 128. change (2 ^ 8) with 256.
  destruct (Z.leb_spec 8 v), (Z.ltb_spec v 16), (Z.ltb_spec v 128); cbn [andb]; lia.
Qed.

Lemma measurement_of_24 (data : str) :
  bitstring data = true -> length data = 24%nat ->
  axes_within (-128) 128 (measurement_of data).
Proof.
  intros H Hl. unfold measurement_of. rewrite decide_True by exact Hl.
  eexists _, _, _. split; [reflexivity|].
  pose proof (unsigned_slice_bound 0 8 data H).
  pose proof (unsigned_slice_bound 8 16 data H).
  pose proof (unsigned_slice_bound 16 24 data H).
  repeat split; apply decoded_byte_range; assumption.
Qed.

Lemma measurement_of_48 (data : str) :
  bitstring data = true -> length data = 48%nat ->
  axes_within 0 65536 (measurement_of data).
Proof.
  intros H Hl. unfold measurement_of.
  rewrite decide_False by lia. rewrite decide_True by exact Hl.
  eexists _, _, _. split; [reflexivity|].
  pose proof (unsigned_slice_bound 0 16 data H).
  pose proof (unsigned_slice_bound 16 32 data H).
  pose proof (unsigned_slice_bound 32 48 data H).
  change (2 ^ Z.of_nat (16 - 0)) with 65536 in *.
  change (2 ^ Z.of_nat (32 - 16)) with 65536 in *.
  change (2 ^ Z.of_nat (48 - 32)) with 65536 in *.
  repeat split; lia.
Qed.

(** The chunks of the loop, by index. *)
Lemma kx_chunks_seq (bits : str) :
  let data := drop 48 bits in
  let size := (kx_resolution bits * 3)%nat in
  let stop := Z.of_nat (length data) - Z.of_nat (kx_padding bits) in
  kx_chunks bits
  = map (fun k => slice (k * size) (k * size + size) data)
        (seq 0 (Z.to_nat ((stop + Z.of_nat size - 1) / Z.of_nat size))).
Proof.
  intros data size stop. unfold kx_chunks, range_step. fold data.
  rewrite range_from_seq, map_map.
  replace (Z.of_nat (kx_resolution bits) * 3) with (Z.of_nat size) by (unfold size; lia).
  fold stop. apply map_ext. intros k. f_equal; lia.
Qed.

(** X15.  The measurements of a [KX1341211Data] payload of at least 12
    hexadecimal digits: their number is that of the offsets below the length
    of the data without its padding, in steps of one chunk; each has some bits
    left at its offset; every measurement but the last has a whole chunk; a
    whole chunk gives three values, from -128 up to 128 at resolution 8 and
    from 0 up to 65536 at resolution 16; a last chunk of exactly 24 bits at
    resolution 16 is decoded as three 8-bit values; any other partial chunk
    gives a measurement without values. *)
Theorem KX134_measurement_values (raw : str) :
  hexstring raw = true -> (12 <= length raw)%nat ->
  let bits := bits_of_hex raw in
  let chunk_size := Z.of_nat (kx_resolution bits) * 3 in
  let data_length := 4 * (Z.of_nat (length raw) - 12) in
  let stop := data_length - Z.of_nat (kx_padding bits) in
  exists r,
    KX1341211Data.setup raw = Ok r
    /\ Z.of_nat (length (KX1341211Data.measurements r))
       = Z.max 0 ((stop + chunk_size - 1) / chunk_size)
    /\ forall (k : nat) (m : KX1341211Data.Measurement.t),
         KX1341211Data.measurements r !! k = Some m ->
         let remaining := data_length - Z.of_nat k * chunk_size in
         0 < remaining
         /\ ((S k < length (KX1341211Data.measurements r))%nat -> chunk_size <= remaining)
         /\ (chunk_size <= remaining ->
             if decide (kx_resolution bits = 8%nat)
             then axes_within (-128) 128 m else axes_within 0 65536 m)
         /\ (remaining < chunk_size -> remaining = 24 -> axes_within (-128) 128 m)
         /\ (remaining < chunk_size -> remaining <> 24 ->
             m = KX1341211Data.Measurement.mk None None None).
Proof.
  intros H Hl bits chunk_size data_length stop.
  eexists. split; [apply KX1341211Data_setup_hex; assumption|].
  cbn [KX1341211Data.measurements]. fold bits.
  pose proof (kx_chunks_seq bits) as Hchunks. cbv zeta in Hchunks.
  set (data := drop 48 bits) in *.
  set (size := (kx_resolution bits * 3)%nat) in *.
  assert (Z.of_nat size = chunk_size) as Hsize by (unfold size, chunk_size; lia).
  assert (Z.of_nat (length data) = data_length) as Hdata.
  { unfold data, bits, data_length. rewrite length_drop, length_bits_of_hex. lia. }
  rewrite Hsize, Hdata in Hchunks. fold stop in Hchunks.
  set (n := Z.to_nat ((stop + chunk_size - 1) / chunk_size)) in *.
  assert (bitstring data = true) as Hb
    by (apply bitstring_drop, bitstring_bits_of_hex).
  assert (size = 24%nat \/ size = 48%nat) as Hcases
    by (unfold size; destruct (kx_resolution_cases bits) as [-> | ->]; [left|right];
        reflexivity).
  assert (0 < chunk_size) as Hpos by lia.
  rewrite Hchunks, map_map. split; [rewrite length_map, length_seq; lia|].
  intros k m Hm. set (remaining := data_length - Z.of_nat k * chunk_size).
  rewrite length_map, length_seq.
  rewrite lookup_map_seq in Hm. destruct (decide (k < n)%nat) as [Hk|]; [|discriminate Hm].
  injection Hm as <-.
  assert (Z.of_nat k * chunk_size < stop) as Hoff.
  { assert (Z.of_nat k + 1 <= (stop + chunk_size - 1) / chunk_size) as Hq by lia.
    pose proof (Z.mul_div_le (stop + chunk_size - 1) chunk_size Hpos). nia. }
  assert (forall j, (S j < n)%nat -> (Z.of_nat j + 1) * chunk_size < stop) as Hnext.
  { intros j Hj.
    assert (Z.of_nat j + 2 <= (stop + chunk_size - 1) / chunk_size) as Hq by lia.
    pose proof (Z.mul_div_le (stop + chunk_size - 1) chunk_size Hpos). nia. }
  set (chunk := slice (k * size) (k * size + size) data).
  assert (bitstring chunk = true) as Hcb by (apply bitstring_slice, Hb).
  assert (Z.of_nat (length chunk) = Z.min chunk_size remaining) as Hlen.
  { unfold chunk. rewrite length_slice_min. unfold remaining. nia. }
  split; [unfold remaining; lia|].
  split; [intros Hlast; specialize (Hnext k Hlast); unfold remaining; lia|].
  split; [|split].
  - intros Hwhole. unfold size in Hcases.
    destruct (decide (kx_resolution bits = 8%nat)) as [E|E].
    + apply measurement_of_24; [exact Hcb|]. unfold chunk_size in *. lia.
    + apply measurement_of_48; [exact Hcb|]. unfold chunk_size in *. lia.
  - intros Hpart H24. apply measurement_of_24; [exact Hcb|lia].
  - intros Hpart H24. unfold measurement_of.
    rewrite !decide_False by lia. reflexivity.
Qed.

Lemma KX134_measurement_values_witness :
  exists r,
    KX1341211Data.setup (L "000003E8A500000100020003040506") = Ok r
    /\ length (KX1341211Data.measurements r) = 2%nat
    /\ (forall m, KX1341211Data.measurements r !! 0%nat = Some m ->
        axes_within 0 65536 m)
    /\ (forall m, KX1341211Data.measurements r !! 1%nat = Some m ->
        axes_within (-128) 128 m).
Proof.
  destruct (KX134_measurement_values (L "000003E8A500000100020003040506"))
    as (r & E & Hn & Hm); [reflexivity|simpl; lia|].
  exists r. split; [exact E|]. split.
  { match type of Hn with
    | _ = ?rhs => replace rhs with 2 in Hn by (vm_compute; reflexivity)
    end. lia. }
  split.
  - intros m Hk. destruct (Hm _ _ Hk) as (_ & _ & Hw & _).
    apply Hw. vm_compute. discriminate.
  - intros m Hk. destruct (Hm _ _ Hk) as (_ & _ & _ & Hp & _).
    apply Hp; vm_compute; reflexivity.
Defined.

End KX134Payloads.
